(** * aoc-deltatime: delta-time rankings of an Advent of Code leaderboard

    A shallow embedding of [main.py]: the parser [parse_data], the
    per-day ranking and the total standings ([display_ranking],
    [display_total]), the duration formatter [format_dt], the cache
    refresher [update_if_possible] and the driver [run], followed by the
    properties of the specification.

    Conventions.
    - Python [int] is [Z]; [//] and [%] by a positive constant are
      [Z.div] and [Z.modulo] (both floor).
    - A Python [str] is the string of its UTF-8 bytes.
    - A Python [dict] is an insertion-ordered association list: writing
      an existing key keeps its position, a new key goes to the end.
    - An exception is a value of [exn] carried by [result].
    - A Python [float] is a binary64 number of [SpecFloat]; the
      division of two [int]s rounds the exact quotient to the nearest
      float, ties to even, and raises [OverflowError] when that is
      infinite.
    - The file system, the clock, the remote endpoint and the console
      form an explicit [World]. *)

From Stdlib Require Import ZArith List String Ascii Bool Lia.
From Stdlib Require Import QArith Permutation Sorted DecimalString SpecFloat.
Import ListNotations.

Local Open Scope string_scope.
Local Open Scope list_scope.
Local Open Scope Z_scope.

(** ** Exceptions *)

Inductive exn : Type :=
| ValueError
| KeyError
| ZeroDivisionError
| OverflowError
| AssertionError
| FileNotFoundError
| PermissionError
| ConnectionError
| JSONDecodeError.

Inductive result (A : Type) : Type :=
| Ok (a : A)
| Raise (e : exn).

Arguments Ok {A} a.
Arguments Raise {A} e.

Definition bind {A B : Type} (r : result A) (k : A -> result B) : result B :=
  match r with
  | Ok a => k a
  | Raise e => Raise e
  end.

Notation "'do' x <- r ; k" := (bind r (fun x => k))
  (at level 10, x pattern, r at level 100, k at level 200).

(** A [for] loop whose body may raise: the first exception leaves the loop. *)
Fixpoint for_each {A S : Type} (body : S -> A -> result S) (l : list A) (s : S)
  : result S :=
  match l with
  | [] => Ok s
  | x :: r => do s' <- body s x; for_each body r s'
  end.

(** ** Python built-ins *)

Module Py.

(** [str(n)] and the [{n}] field of an f-string, for an [int]. *)
Definition str (n : Z) : string := NilZero.string_of_int (Z.to_int n).

(** The code points of a text.  A [str] is held as the string of its
    UTF-8 bytes; a byte sequence that encodes no code point gives [-1]. *)
Definition continuation (b : Z) : option Z :=
  if (128 <=? b) && (b <? 192) then Some (b - 128) else None.

Definition code_point_from (low cp : Z) : Z :=
  if (low <=? cp) && (cp <=? 1114111) then cp else -1.

Fixpoint code_points (l : list Z) : list Z :=
  match l with
  | [] => []
  | b0 :: r0 =>
      if b0 <? 128 then b0 :: code_points r0
      else if (b0 <? 192) || (248 <=? b0) then -1 :: code_points r0
      else
        match r0 with
        | [] => [-1]
        | b1 :: r1 =>
            match continuation b1 with
            | None => -1 :: code_points r0
            | Some c1 =>
                if b0 <? 224 then
                  code_point_from 128 ((b0 - 192) * 64 + c1) :: code_points r1
                else
                  match r1 with
                  | [] => [-1]
                  | b2 :: r2 =>
                      match continuation b2 with
                      | None => -1 :: code_points r0
                      | Some c2 =>
                          if b0 <? 240 then
                            code_point_from 2048
                              (((b0 - 224) * 64 + c1) * 64 + c2)
                              :: code_points r2
                          else
                            match r2 with
                            | [] => [-1]
                            | b3 :: r3 =>
                                match continuation b3 with
                                | None => -1 :: code_points r0
                                | Some c3 =>
                                    code_point_from 65536
                                      ((((b0 - 240) * 64 + c1) * 64 + c2) * 64
                                       + c3)
                                      :: code_points r3
                                end
                            end
                      end
                  end
            end
        end
  end.

Definition code_points_of (s : string) : list Z :=
  code_points (map (fun c => Z.of_nat (nat_of_ascii c)) (list_ascii_of_string s)).

(** The white space of Unicode 14.0 from code point 127 on. *)
Definition unicode_spaces : list Z :=
  [133; 160; 5760; 8192; 8193; 8194; 8195; 8196; 8197; 8198; 8199; 8200;
   8201; 8202; 8232; 8233; 8239; 8287; 12288].

(** The digit zero of every run of decimal digits of Unicode 14.0 from
    code point 127 on; the nine digits that follow it count up. *)
Definition decimal_zeros : list Z :=
  [1632; 1776; 1984; 2406; 2534; 2662; 2790; 2918; 3046; 3174; 3302; 3430;
   3558; 3664; 3792; 3872; 4160; 4240; 6112; 6160; 6470; 6608; 6784; 6800;
   6992; 7088; 7232; 7248; 42528; 43216; 43264; 43472; 43504; 43600; 44016;
   65296; 66720; 68912; 69734; 69872; 69942; 70096; 70384; 70736; 70864;
   71248; 71360; 71472; 71904; 72016; 72784; 73040; 73120; 92768; 92864;
   93008; 120782; 120792; 120802; 120812; 120822; 123200; 123632; 125264;
   130032].

Definition unicode_decimal (cp : Z) : option Z :=
  match find (fun z => (z <=? cp) && (cp <? z + 10)) decimal_zeros with
  | Some z => Some (cp - z)
  | None => None
  end.

(** What [int] makes of a code point before it reads the literal: a
    code point below 127 stays, a white space becomes a blank, a decimal
    digit its ASCII digit and anything else a question mark. *)
Definition to_ascii (cp : Z) : Z :=
  if (0 <=? cp) && (cp <? 127) then cp
  else if existsb (Z.eqb cp) unicode_spaces then 32
  else
    match unicode_decimal cp with
    | Some d => 48 + d
    | None => 63
    end.

(** The blanks the literal may start and end with. *)
Definition is_space (c : Z) : bool :=
  ((9 <=? c) && (c <=? 13)) || (c =? 32).

Definition digit_value (c : Z) : option Z :=
  if (48 <=? c) && (c <=? 57) then Some (c - 48) else None.

Fixpoint lstrip (l : list Z) : list Z :=
  match l with
  | c :: r => if is_space c then lstrip r else l
  | [] => []
  end.

Definition strip (l : list Z) : list Z :=
  rev (lstrip (rev (lstrip l))).

(** The most digits [int] reads from a text (the default limit). *)
Definition max_str_digits : Z := 4300.

(** Decimal digits, single underscores allowed between two digits.
    [count] is the number of digits read and [after_digit] tells
    whether the previous character was a digit. *)
Fixpoint digits (acc count : Z) (after_digit : bool) (l : list Z) : option Z :=
  match l with
  | [] => if after_digit && (count <=? max_str_digits) then Some acc else None
  | c :: r =>
      match digit_value c with
      | Some v => digits (10 * acc + v) (count + 1) true r
      | None =>
          if (c =? 95) && after_digit
          then digits acc count false r else None
      end
  end.

(** [int(s)] for a [str]; [None] is [ValueError].  As in CPython 3.11:
    blanks around, one sign, decimal digits of any script with single
    underscores between them, at most [max_str_digits] digits. *)
Definition int (s : string) : option Z :=
  match strip (map to_ascii (code_points_of s)) with
  | c :: r =>
      if c =? 43 then digits 0 0 false r
      else if c =? 45 then option_map Z.opp (digits 0 0 false r)
      else digits 0 0 false (c :: r)
  | [] => None
  end.

(** [enumerate(l)] as a list. *)
Definition enumerate {A : Type} (l : list A) : list (nat * A) :=
  combine (seq 0 (List.length l)) l.

(** [sorted(l, key=key)]: ascending and stable.  Elements are inserted
    from the right, each one in front of the first element whose key is
    not smaller, so equal keys keep their input order. *)
Section Sorted.
Context {A : Type} (key : A -> Z).

Fixpoint insert (x : A) (l : list A) : list A :=
  match l with
  | [] => [x]
  | y :: r => if key x <=? key y then x :: l else y :: insert x r
  end.

Definition sorted (l : list A) : list A := fold_right insert [] l.
End Sorted.

(** [max(it)] of a sequence of integers; [ValueError] when it is empty. *)
Definition max (l : list Z) : result Z :=
  match l with
  | [] => Raise ValueError
  | x :: r => Ok (fold_left Z.max r x)
  end.

(** [range(1, n + 1)]. *)
Definition range1 (n : Z) : list Z :=
  map (fun i => Z.of_nat i) (seq 1 (Z.to_nat n)).

End Py.

(** ** Dictionaries *)

Definition dict (V : Type) : Type := list (string * V).

Section Dict.
Context {V : Type}.

Definition keys (d : dict V) : list string := map fst d.

Fixpoint dict_get (k : string) (d : dict V) : option V :=
  match d with
  | [] => None
  | (k', v) :: r => if String.eqb k k' then Some v else dict_get k r
  end.

(** [d[k] = v]. *)
Fixpoint dict_set (k : string) (v : V) (d : dict V) : dict V :=
  match d with
  | [] => [(k, v)]
  | (k', v') :: r =>
      if String.eqb k k' then (k, v) :: r else (k', v') :: dict_set k v r
  end.

(** [d[k]] on a [defaultdict] whose factory yields [dflt].  The lookup
    of a missing key also stores the default under it.  [parse_data]
    writes the key right after the lookup, and in [run] the keys are
    read once, at the start of [display_ranking], before any other
    lookup; so only the value is kept here. *)
Definition dict_get_default (dflt : V) (k : string) (d : dict V) : V :=
  match dict_get k d with
  | Some v => v
  | None => dflt
  end.

(** [d[k]] on a plain [dict]. *)
Definition dict_index (k : string) (d : dict V) : result V :=
  match dict_get k d with
  | Some v => Ok v
  | None => Raise KeyError
  end.

(** The keys of a dictionary are pairwise distinct. *)
Fixpoint unique_keys (d : dict V) : bool :=
  match d with
  | [] => true
  | (k, _) :: r =>
      negb (existsb (String.eqb k) (keys r)) && unique_keys r
  end.
End Dict.

(** [days_dt[day]] on the parser's [defaultdict]: a day without an entry
    has no items. *)
Definition day_items (day : string) (ddt : dict (dict Z)) : dict Z :=
  @dict_get_default (dict Z) [] day ddt.

(** ** Duration formatting *)

Definition format_dt (dt : Z) : string :=
  if dt >? 60 * 60 * 24 then ">24h"
  else
    let s := dt mod 60 in
    let m := ((dt - s) mod (60 * 60)) / 60 in
    let h := ((dt - s - m * 60) mod (60 * 60 * 60)) / 3600 in
    let d := ((dt - s - m * 60 - h * 60) mod (60 * 60 * 60 * 24)) / (3600 * 24) in
    let out := "" in
    let out := if d >? 0 then (out ++ Py.str d ++ "d")%string else out in
    let out := if h >? 0 then (out ++ Py.str h ++ "h")%string else out in
    let out := if m >? 0 then (out ++ Py.str m ++ "m")%string else out in
    let out := if s >? 0 then (out ++ Py.str s ++ "s")%string else out in
    out.

(** ** The leaderboard payload

    The object [json.load] returns: [event], and [members] mapping a
    member id to [name], [local_score], [stars] and
    [completion_day_level], which maps a day to its stars ["1"] and,
    when earned, ["2"]. *)

Module Json.
Record Star : Type := { get_star_ts : Z }.

Record DayData : Type := {
  star_1 : Star;            (* day_data["1"] *)
  star_2 : option Star      (* day_data["2"], when present *)
}.

Record MemberData : Type := {
  name : string;
  local_score : Z;
  stars : Z;
  completion_day_level : dict DayData
}.

Record Payload : Type := {
  event : string;
  members : dict MemberData
}.
End Json.

(** ** Floats *)

Definition float : Type := spec_float.

(** An [int] as the operand of a division: the number itself, not yet
    rounded. *)
Definition int_operand (n : Z) : float :=
  match n with
  | Z0 => S754_zero false
  | Zpos p => S754_finite false p 0
  | Zneg p => S754_finite true p 0
  end.

(** The quotient of two [int]s rounded to binary64, to the nearest with
    ties to even; an infinity when it is too large. *)
Definition float_quotient (a b : Z) : float :=
  SFdiv 53 1024 (int_operand a) (int_operand b).

(** [-1.0]. *)
Definition minus_one : float := S754_finite true 4503599627370496 (-52).

(** ** The parsed model *)

(** The value stored in [member.days[day]]. *)
Record DayRecord : Type := {
  delta_time : Z;
  first_complete : Z;
  second_complete : Json.Star
}.

Record Member : Type := {
  id : string;
  name : string;
  score : Z;
  stars : Z;
  days : dict DayRecord;
  sum_dt : option Z;
  avg_dt : option float
}.

Record AOCData : Type := {
  year : string;
  members : dict Member;
  days_dt : dict (dict Z);
  last_day : Z
}.

(** [len(data.members)]. *)
Definition len_members (data : AOCData) : Z :=
  Z.of_nat (List.length (members data)).

(** [AOCData.ranked_days_dt]; [days_dt] is a [defaultdict], a day
    without an entry has no items. *)
Definition ranked_days_dt (data : AOCData) (day : string) : list (string * Z) :=
  Py.sorted snd (day_items day (days_dt data)).

(** ** Parsing *)

Definition int_or_raise (s : string) : result Z :=
  match Py.int s with
  | Some n => Ok n
  | None => Raise ValueError
  end.

(** [a / b] on two [int]s. *)
Definition truediv (a b : Z) : result float :=
  if b =? 0 then Raise ZeroDivisionError
  else
    match float_quotient a b with
    | S754_infinity _ => Raise OverflowError
    | q => Ok q
    end.

(** [day_data.get("2", {"get_star_ts": 0})]. *)
Definition star_2_or_zero (day_data : Json.DayData) : Json.Star :=
  match Json.star_2 day_data with
  | Some st => st
  | None => {| Json.get_star_ts := 0 |}
  end.

(** The variables the loop over a member's days reads and writes. *)
Record DayLoop : Type := {
  dl_last_day : Z;
  dl_sum_dt : Z;
  dl_count : Z;
  dl_days : dict DayRecord;
  dl_days_dt : dict (dict Z)
}.

(** One iteration of [for day, day_data in ...completion_day_level...]. *)
Definition day_body (member_id : string) (st : DayLoop)
  (item : string * Json.DayData) : result DayLoop :=
  let '(day, day_data) := item in
  do n <- int_or_raise day;
  let last_day := Z.max (dl_last_day st) n in
  let delta_time :=
    Json.get_star_ts (star_2_or_zero day_data)
    - Json.get_star_ts (Json.star_1 day_data) in
  let '(sum_dt, count) :=
    match Json.star_2 day_data with
    | Some _ => (dl_sum_dt st + delta_time, dl_count st + 1)
    | None => (dl_sum_dt st, dl_count st)
    end in
  Ok {| dl_last_day := last_day;
        dl_sum_dt := sum_dt;
        dl_count := count;
        dl_days :=
          dict_set day
            {| delta_time := delta_time;
               first_complete := Json.get_star_ts (Json.star_1 day_data);
               second_complete := star_2_or_zero day_data |}
            (dl_days st);
        dl_days_dt :=
          dict_set day
            (dict_set member_id delta_time
               (day_items day (dl_days_dt st)))
            (dl_days_dt st) |}.

(** The variables the loop over the members reads and writes. *)
Record MemberLoop : Type := {
  ml_last_day : Z;
  ml_members : dict Member;
  ml_days_dt : dict (dict Z)
}.

(** One iteration of [for member_id, member_data in d["members"].items()]. *)
Definition member_body (st : MemberLoop)
  (item : string * Json.MemberData) : result MemberLoop :=
  let '(member_id, member_data) := item in
  do dl <- for_each (day_body member_id)
             (Json.completion_day_level member_data)
             {| dl_last_day := ml_last_day st;
                dl_sum_dt := 0;
                dl_count := 0;
                dl_days := [];
                dl_days_dt := ml_days_dt st |};
  do average_dt <- (if dl_count dl =? 0 then Ok minus_one
                    else truediv (dl_sum_dt dl) (dl_count dl));
  let member :=
    {| id := member_id;
       name := Json.name member_data;
       score := Json.local_score member_data;
       stars := Json.stars member_data;
       days := dl_days dl;
       sum_dt := Some (dl_sum_dt dl);
       avg_dt := Some average_dt |} in
  Ok {| ml_last_day := dl_last_day dl;
        ml_members := dict_set member_id member (ml_members st);
        ml_days_dt := dl_days_dt dl |}.

Definition parse_data (d : Json.Payload) : result AOCData :=
  do st <- for_each member_body (Json.members d)
             {| ml_last_day := 1; ml_members := []; ml_days_dt := [] |};
  Ok {| year := Json.event d;
        members := ml_members st;
        days_dt := ml_days_dt st;
        last_day := ml_last_day st |}.

(** ** Console output *)

Definition Row : Type := list string.

Inductive Out : Type :=
| Text (line : string)
| Table (header : list string) (rows : list Row) (justify_right : list nat).

(** ** The per-day ranking *)

(** The list comprehension of [display_ranking]: the rows of one day.
    The row is built only when the guard holds; [data.members[member_id]]
    raises [KeyError] for an unknown id. *)
Fixpoint ranking_rows_of (data : AOCData) (l : list (nat * (string * Z)))
  : result (list Row) :=
  match l with
  | [] => Ok []
  | (rank, (member_id, dt)) :: r =>
      if len_members data - Z.of_nat rank >? 0 then
        do m <- dict_index member_id (members data);
        do rows <- ranking_rows_of data r;
        Ok ([name m; format_dt dt; Py.str (len_members data - Z.of_nat rank)]
              :: rows)
      else ranking_rows_of data r
  end.

Definition ranking_rows (data : AOCData) (day : Z) : result (list Row) :=
  ranking_rows_of data (Py.enumerate (ranked_days_dt data (Py.str day))).

Definition ranking_header : list string := ["Name"; "Delta time"; "Points"].

(** The body of [for day in range(1, last_day + 1)], on the console. *)
Fixpoint ranking_days (data : AOCData) (days : list Z) (console : list Out)
  : list Out * result unit :=
  match days with
  | [] => (console, Ok tt)
  | day :: r =>
      let console := console ++ [Text ("[bold] Day " ++ Py.str day)] in
      match ranking_rows data day with
      | Raise e => (console, Raise e)
      | Ok rows =>
          ranking_days data r (console ++ [Table ranking_header rows [2%nat]])
      end
  end.

(** [max(map(lambda x: int(x), data.days_dt.keys()))]. *)
Definition max_day_key (data : AOCData) : result Z :=
  do ns <- for_each (fun acc k => do n <- int_or_raise k; Ok (acc ++ [n]))
             (keys (days_dt data)) [];
  Py.max ns.

Definition display_ranking (data : AOCData) (console : list Out)
  : list Out * result unit :=
  match max_day_key data with
  | Raise e => (console, Raise e)
  | Ok last_day => ranking_days data (Py.range1 last_day) console
  end.

(** ** The total standings *)

(** [total_points[member_id] += len(data.members) - rank];
    [total_points] is a [defaultdict] that starts a member at 0. *)
Definition add_points (data : AOCData) (total_points : dict Z)
  (item : nat * (string * Z)) : dict Z :=
  let '(rank, (member_id, _)) := item in
  dict_set member_id
    (dict_get_default 0 member_id total_points
     + (len_members data - Z.of_nat rank))
    total_points.

(** The body of [for day in range(1, data.last_day + 1)]. *)
Definition add_day_points (data : AOCData) (total_points : dict Z) (day : Z)
  : dict Z :=
  let scores := Py.sorted snd (day_items (Py.str day) (days_dt data)) in
  fold_left (add_points data) (Py.enumerate scores) total_points.

Definition total_points (data : AOCData) : dict Z :=
  fold_left (add_day_points data) (Py.range1 (last_day data)) [].

Definition id_points_ordered (data : AOCData) : list (string * Z) :=
  Py.sorted (fun x => - snd x) (total_points data).

Fixpoint total_rows_of (data : AOCData) (l : list (string * Z))
  : result (list Row) :=
  match l with
  | [] => Ok []
  | (member_id, points) :: r =>
      do m <- dict_index member_id (members data);
      do rows <- total_rows_of data r;
      Ok ([name m; Py.str points] :: rows)
  end.

Definition total_header : list string := ["Name"; "Total Points"].

Definition display_total (data : AOCData) (console : list Out)
  : list Out * result unit :=
  match total_rows_of data (id_points_ordered data) with
  | Raise e => (console, Raise e)
  | Ok rows => (console ++ [Table total_header rows []], Ok tt)
  end.

(** ** The fetcher and the driver *)

Record Flags : Type := {
  flag_year : Z;              (* year *)
  json_path : string;
  update : bool;
  show_ranking : bool;
  show_total : bool;
  leaderboard_id : string;
  cookie : string
}.

(** A file: its modification time in seconds and what [json.load] makes
    of its content ([None]: not a JSON document). *)
Record File : Type := {
  mtime : Q;
  content : option Json.Payload
}.

(** What [requests.get] returns: [r.ok], the body as [r.json()] decodes
    it, and the text [{r}] prints. *)
Record Response : Type := {
  ok : bool;
  json : option Json.Payload;
  repr : string
}.

Inductive Event : Type :=
| HttpGet (url session : string)
| FileRead (path : string)
| FileWrite (path : string).

(** How the [with open(path, "w") as f] block can fail: [open] raises
    and the file is as it was; or the file was opened, hence truncated,
    and [json.dump] raises, or closing the file raises once the block
    has run.  [rest] is what [json.load] would make of the file
    afterwards. *)
Inductive WriteFault : Type :=
| OpenFails (e : exn)
| DumpFails (e : exn) (rest : option Json.Payload)
| CloseFails (e : exn) (rest : option Json.Payload).

Record World : Type := {
  files : dict File;
  now : Q;                                   (* time.time() *)
  remote : string -> string -> result Response;
                                             (* url, session cookie:
                                                the answer, or what
                                                requests.get raises *)
  write_error : string -> option WriteFault; (* how writing path
                                                fails, if it does *)
  console : list Out;
  events : list Event                        (* oldest first *)
}.

Definition rprint (line : string) (w : World) : World :=
  {| files := files w; now := now w; remote := remote w;
     write_error := write_error w;
     console := console w ++ [Text line]; events := events w |}.

Definition log (e : Event) (w : World) : World :=
  {| files := files w; now := now w; remote := remote w;
     write_error := write_error w;
     console := console w; events := events w ++ [e] |}.

Definition write_file (path : string) (data : Json.Payload) (w : World) : World :=
  {| files := dict_set path {| mtime := now w; content := Some data |} (files w);
     now := now w; remote := remote w; write_error := write_error w;
     console := console w; events := events w ++ [FileWrite path] |}.

(** The file after a write that failed once the file was open. *)
Definition leave_file (path : string) (rest : option Json.Payload) (w : World)
  : World :=
  {| files := dict_set path {| mtime := now w; content := rest |} (files w);
     now := now w; remote := remote w; write_error := write_error w;
     console := console w; events := events w ++ [FileWrite path] |}.

Definition set_console (c : list Out) (w : World) : World :=
  {| files := files w; now := now w; remote := remote w;
     write_error := write_error w;
     console := c; events := events w |}.

Definition leaderboard_url (flags : Flags) : string :=
  "https://adventofcode.com/" ++ Py.str (flag_year flags)
  ++ "/leaderboard/private/view/" ++ leaderboard_id flags ++ ".json".

(** The part of [update_if_possible] after the [try] block. *)
Definition fetch (flags : Flags) (w : World) : World * result bool :=
  let answer := remote w (leaderboard_url flags) (cookie flags) in
  let w := log (HttpGet (leaderboard_url flags) (cookie flags)) w in
  match answer with
  | Raise e => (w, Raise e)
  | Ok r =>
      if negb (ok r) then (rprint ("[bold red]" ++ repr r) w, Ok false)
      else
        match json r with
        | None => (w, Raise JSONDecodeError)
        | Some data =>
            match write_error w (json_path flags) with
            | Some (OpenFails e) => (w, Raise e)
            | Some (DumpFails e rest) =>
                (leave_file (json_path flags) rest w, Raise e)
            | Some (CloseFails e rest) =>
                let w := leave_file (json_path flags) rest w in
                (rprint ("[bold green]Wrote updated score file to "
                         ++ json_path flags) w,
                 Raise e)
            | None =>
                let w := write_file (json_path flags) data w in
                (rprint ("[bold green]Wrote updated score file to "
                         ++ json_path flags) w,
                 Ok true)
            end
        end
  end.

(** [diff < 15 * 60]. *)
Definition too_recent (last_modified now : Q) : bool :=
  negb (Qle_bool (inject_Z (15 * 60)) (now - last_modified)).

Definition update_if_possible (flags : Flags) (w : World) : World * result bool :=
  match dict_get (json_path flags) (files w) with
  | Some f =>
      let last_modified := mtime f in
      if too_recent last_modified (now w) then
        (rprint "[bold red]Refusing to update, modified time too recent" w,
         Ok true)
      else fetch flags w
  | None => fetch flags w      (* FileNotFoundError: pass *)
  end.

(** [run] from [with open(flags.json_path) as f] on. *)
Definition load_and_show (flags : Flags) (w : World) : World * result unit :=
  match dict_get (json_path flags) (files w) with
  | None => (w, Raise FileNotFoundError)
  | Some f =>
      let w := log (FileRead (json_path flags)) w in
      match content f with
      | None => (w, Raise JSONDecodeError)
      | Some d =>
          match parse_data d with
          | Raise e => (w, Raise e)
          | Ok data =>
              let '(c, r) :=
                if show_ranking flags then display_ranking data (console w)
                else (console w, Ok tt) in
              match r with
              | Raise e => (set_console c w, Raise e)
              | Ok _ =>
                  let '(c, r) :=
                    if show_total flags then display_total data c
                    else (c, Ok tt) in
                  (set_console c w, r)
              end
          end
      end
  end.

Definition run (flags : Flags) (w : World) : World * result unit :=
  if update flags then
    match update_if_possible flags w with
    | (w, Ok true) => load_and_show flags w
    | (w, Ok false) => (w, Raise AssertionError)
    | (w, Raise e) => (w, Raise e)
    end
  else load_and_show flags w.

(** ** Notions used in the statements *)

(** One unit of a rendered duration: nothing when the value is zero. *)
Definition unit_str (v : Z) (u : string) : string :=
  if v >? 0 then Py.str v ++ u else "".

(** The formatter as the specification words it: the days, hours,
    minutes and seconds of the duration, each with its letter, without
    the zero-valued units in front of the first non-zero one. *)
Fixpoint drop_leading_zero (units : list (Z * string)) : list (Z * string) :=
  match units with
  | [] => []
  | (v, u) :: r => if v =? 0 then drop_leading_zero r else units
  end.

Definition render_units (units : list (Z * string)) : string :=
  fold_right (fun '(v, u) acc => (Py.str v ++ u ++ acc)%string) "" units.

Definition format_dt_spec (dt : Z) : string :=
  if dt >? 86400 then ">24h"
  else
    render_units
      (drop_leading_zero
         [(dt / 86400, "d"); (dt mod 86400 / 3600, "h");
          (dt mod 3600 / 60, "m"); (dt mod 60, "s")]).

(** Ascending order of the sort key. *)
Definition key_le {A : Type} (key : A -> Z) (a b : A) : Prop := key a <= key b.

Definition sum_list (l : list Z) : Z := fold_right Z.add 0 l.

(** The delta times of the days on which both stars exist. *)
Definition both_star_deltas (cdl : dict Json.DayData) : list Z :=
  flat_map
    (fun '(_, day_data) =>
       match Json.star_2 day_data with
       | Some s2 =>
           [Json.get_star_ts s2 - Json.get_star_ts (Json.star_1 day_data)]
       | None => []
       end)
    cdl.

(** The delta time the parser derives for one day. *)
Definition delta_of (day_data : Json.DayData) : Z :=
  Json.get_star_ts (star_2_or_zero day_data)
  - Json.get_star_ts (Json.star_1 day_data).

(** Every day's mapping has distinct member ids, all among [ids]. *)
Definition days_dt_within (ids : list string) (ddt : dict (dict Z)) : Prop :=
  forall day inner,
    dict_get day ddt = Some inner ->
    NoDup (keys inner) /\ incl (keys inner) ids.

(** What holds of the loop variables between two members. *)
Record parse_inv (st : MemberLoop) : Prop := {
  inv_members : NoDup (keys (ml_members st));
  inv_within : days_dt_within (keys (ml_members st)) (ml_days_dt st);
  inv_keys : Forall (fun k => Py.int k <> None) (keys (ml_days_dt st))
}.

(** [row] is the table row of a ranked entry, guard left aside. *)
Definition is_row (data : AOCData) (item : nat * (string * Z)) (row : Row)
  : Prop :=
  let '(rank, (member_id, dt)) := item in
  exists m,
    dict_get member_id (members data) = Some m /\
    row = [name m; format_dt dt; Py.str (len_members data - Z.of_nat rank)].

(** The average of the both-star delta times as [parse_data] stores it. *)
Definition average_of (deltas : list Z) : float :=
  if Z.of_nat (List.length deltas) =? 0 then minus_one
  else float_quotient (sum_list deltas) (Z.of_nat (List.length deltas)).

(** The completion data without one day. *)
Definition without_day (day : string) (cdl : dict Json.DayData)
  : dict Json.DayData :=
  filter (fun item => negb (String.eqb (fst item) day)) cdl.

(** The third column of a ranking table. *)
Definition points_column (rows : list Row) : list string :=
  map (fun row => nth 2 row "") rows.

(** The members reporting on a day: the entries of its mapping. *)
Definition reporting (data : AOCData) (day : Z) : list (string * Z) :=
  day_items (Py.str day) (days_dt data).

(** The 0-indexed rank of a member in a ranked list. *)
Fixpoint rank_of (member_id : string) (ranked : list (string * Z)) : option nat :=
  match ranked with
  | [] => None
  | (k, _) :: r =>
      if String.eqb member_id k then Some 0%nat
      else option_map S (rank_of member_id r)
  end.

(** The points of a member on a day: those of its rank, nothing when
    the member is not in the day's mapping. *)
Definition day_points (data : AOCData) (member_id : string) (day : Z) : Z :=
  match rank_of member_id (ranked_days_dt data (Py.str day)) with
  | Some rank => len_members data - Z.of_nat rank
  | None => 0
  end.

(** The cache file exists and was modified less than 15 minutes ago. *)
Definition cache_fresh (flags : Flags) (w : World) : bool :=
  match dict_get (json_path flags) (files w) with
  | Some f => too_recent (mtime f) (now w)
  | None => false
  end.

(** [row] is the table row of an entry of the total standings. *)
Definition is_total_row (data : AOCData) (item : string * Z) (row : Row)
  : Prop :=
  exists m,
    dict_get (fst item) (members data) = Some m /\
    row = [name m; Py.str (snd item)].

(** No member has a completed day. *)
Definition no_completions (d : Json.Payload) : bool :=
  forallb
    (fun item =>
       match Json.completion_day_level (snd item) with
       | [] => true
       | _ :: _ => false
       end)
    (Json.members d).

(** ** Sample inputs *)

Definition mk_day (first : Z) (second : option Z) : Json.DayData :=
  {| Json.star_1 := {| Json.get_star_ts := first |};
     Json.star_2 := option_map (fun t => {| Json.get_star_ts := t |}) second |}.

Definition mk_member (name : string) (cdl : dict Json.DayData)
  : Json.MemberData :=
  {| Json.name := name; Json.local_score := 0; Json.stars := 0;
     Json.completion_day_level := cdl |}.

(** Two members; A has both stars of day 1 and the first star of day 3,
    B has both stars of day 1. *)
Definition sample : Json.Payload :=
  {| Json.event := "2023";
     Json.members :=
       [("A", mk_member "Alice" [("1", mk_day 1000 (Some 1100));
                                 ("3", mk_day 50 None)]);
        ("B", mk_member "Bob" [("1", mk_day 1000 (Some 1200))])] |}.

(** [sample] as [parse_data] returns it. *)
Definition sample_data : AOCData :=
  Eval cbv in
    match parse_data sample with
    | Ok data => data
    | Raise _ => {| year := ""; members := []; days_dt := []; last_day := 1 |}
    end.

(** One member whose second star of day 1 is stamped a second before
    the first. *)
Definition sample_backwards : Json.Payload :=
  {| Json.event := "2023";
     Json.members := [("A", mk_member "Alice" [("1", mk_day 5 (Some 4))])] |}.

Definition sample_backwards_data : AOCData :=
  Eval cbv in
    match parse_data sample_backwards with
    | Ok data => data
    | Raise _ => {| year := ""; members := []; days_dt := []; last_day := 1 |}
    end.

(** Two members, none with a completed day. *)
Definition sample_idle : Json.Payload :=
  {| Json.event := "2023";
     Json.members := [("A", mk_member "Alice" []); ("B", mk_member "Bob" [])] |}.

Definition sample_idle_data : AOCData :=
  Eval cbv in
    match parse_data sample_idle with
    | Ok data => data
    | Raise _ => {| year := ""; members := []; days_dt := []; last_day := 1 |}
    end.

Definition sample_flags : Flags :=
  {| flag_year := 2023; json_path := "2023_42.json"; update := true;
     show_ranking := true; show_total := true;
     leaderboard_id := "42"; cookie := "s3cr3t" |}.

(** A cache written five minutes ago and an endpoint that refuses. *)
Definition sample_world_fresh : World :=
  {| files := [("2023_42.json", {| mtime := 1000; content := Some sample |})];
     now := 1300;
     remote := fun _ _ => Ok {| ok := false; json := None;
                                repr := "<Response [500]>" |};
     write_error := fun _ => None;
     console := [];
     events := [] |}.

(** A cache written an hour ago and an endpoint that refuses. *)
Definition sample_world_stale : World :=
  {| files := [("2023_42.json", {| mtime := 1000; content := Some sample |})];
     now := 4600;
     remote := fun _ _ => Ok {| ok := false; json := None;
                                repr := "<Response [500]>" |};
     write_error := fun _ => None;
     console := [];
     events := [] |}.

(** ** Notions used in the further properties *)

(** Some day key of the payload is not an integer literal. *)
Definition bad_day_key (d : Json.Payload) : bool :=
  existsb
    (fun item =>
       existsb
         (fun day_item =>
            match Py.int (fst day_item) with
            | Some _ => false
            | None => true
            end)
         (Json.completion_day_level (snd item)))
    (Json.members d).

(** The day numbers of a member's completion data, in order. *)
Definition member_day_numbers (cdl : dict Json.DayData) : list Z :=
  flat_map
    (fun day_item =>
       match Py.int (fst day_item) with
       | Some n => [n]
       | None => []
       end)
    cdl.

(** The day numbers of the payload, in the order the parser meets them. *)
Definition day_numbers (d : Json.Payload) : list Z :=
  flat_map
    (fun item => member_day_numbers (Json.completion_day_level (snd item)))
    (Json.members d).

(** The record the parser stores for one day of a member. *)
Definition day_record (day_data : Json.DayData) : DayRecord :=
  {| delta_time := delta_of day_data;
     first_complete := Json.get_star_ts (Json.star_1 day_data);
     second_complete := star_2_or_zero day_data |}.

(** The members holding a day, with their delta times, in payload order. *)
Definition members_on_day (day : string) (ms : dict Json.MemberData)
  : dict Z :=
  flat_map
    (fun item =>
       match dict_get day (Json.completion_day_level (snd item)) with
       | Some day_data => [(fst item, delta_of day_data)]
       | None => []
       end)
    ms.

(** Member ids are distinct, and so are the day keys of each member. *)
Definition payload_keys_unique (d : Json.Payload) : bool :=
  unique_keys (Json.members d)
  && forallb (fun item => unique_keys (Json.completion_day_level (snd item)))
       (Json.members d).

(** The numbers of a list of day keys, in order. *)
Definition key_numbers (ks : list string) : list Z :=
  flat_map
    (fun k =>
       match Py.int k with
       | Some n => [n]
       | None => []
       end)
    ks.

(** Every row of a printed table has as many cells as the header. *)
Definition rows_fit_header (o : Out) : Prop :=
  match o with
  | Text _ => True
  | Table header rows _ =>
      Forall (fun row => List.length row = List.length header) rows
  end.


(** A cache last written an hour ago and an endpoint that serves
    [sample]. *)
Definition sample_world_serving : World :=
  {| files := [("2023_42.json", {| mtime := 1000; content := Some sample_idle |});
               ("notes.txt", {| mtime := 7; content := None |})];
     now := 4600;
     remote := fun _ _ => Ok {| ok := true; json := Some sample;
                                repr := "<Response [200]>" |};
     write_error := fun _ => None;
     console := [];
     events := [] |}.

Definition sample_flags_offline : Flags :=
  {| flag_year := 2023; json_path := "2023_42.json"; update := false;
     show_ranking := true; show_total := true;
     leaderboard_id := "42"; cookie := "s3cr3t" |}.

(** A cache that holds [sample_idle]. *)
Definition sample_world_idle : World :=
  {| files := [("2023_42.json", {| mtime := 1000; content := Some sample_idle |})];
     now := 4600;
     remote := fun _ _ => Ok {| ok := false; json := None;
                                repr := "<Response [500]>" |};
     write_error := fun _ => None;
     console := [];
     events := [] |}.

(** The distinct elements of a list of ids, in order of first occurrence. *)
Definition add_key (seen : list string) (k : string) : list string :=
  if existsb (String.eqb k) seen then seen else seen ++ [k].

Definition first_seen (ks : list string) : list string :=
  fold_left add_key ks [].

(** The member ids in the order [display_total] meets them: day after
    day, each day in ranking order. *)
Definition scoring_order (data : AOCData) : list string :=
  flat_map (fun day => keys (ranked_days_dt data (Py.str day)))
    (Py.range1 (last_day data)).

(** ** The command line

    [main] up to the construction of [Flags]: the options as [docopt]
    returns them ([None] for an option that is not given), the two
    environment variables and the current year.  The echo of the
    arguments under [--verbose] is left out.  [main] stores the year as
    the [--year] text or as the number of the current year. *)

Record Args : Type := {
  opt_verbose : bool;
  opt_year : option string;
  opt_update : bool;
  opt_leaderboard : option string;
  opt_cookie : option string;
  opt_file : option string;
  opt_ranking : bool;
  opt_total : bool
}.

Record Environ : Type := {
  AOC_LEADERBOARD_ID : option string;
  AOC_COOKIE : option string;
  this_year : Z                 (* datetime.now().year *)
}.

Inductive Year : Type :=
| YearText (s : string)
| YearNumber (n : Z).

(** [{year}] in an f-string. *)
Definition year_text (y : Year) : string :=
  match y with
  | YearText s => s
  | YearNumber n => Py.str n
  end.

(** The truth value of an optional text: [None] and [""] are false. *)
Definition truthy (x : option string) : bool :=
  match x with
  | Some s => negb (String.eqb s "")
  | None => false
  end.

(** [a or b]. *)
Definition or_else (a b : option string) : option string :=
  if truthy a then a else b.

Record MainFlags : Type := {
  mf_year : Year;
  mf_json_path : string;
  mf_update : bool;
  mf_show_ranking : bool;
  mf_show_total : bool;
  mf_leaderboard_id : string;
  mf_cookie : string
}.

Definition main_flags (args : Args) (env : Environ) : result MainFlags :=
  let year :=
    match opt_year args with
    | Some s => if String.eqb s "" then YearNumber (this_year env)
                else YearText s
    | None => YearNumber (this_year env)
    end in
  let update := opt_update args in
  match or_else (opt_leaderboard args) (AOC_LEADERBOARD_ID env) with
  | None => Raise AssertionError
  | Some leaderboard_id =>
      if String.eqb leaderboard_id "" then Raise AssertionError
      else
        match or_else (opt_cookie args) (AOC_COOKIE env) with
        | None => Raise AssertionError
        | Some cookie =>
            if String.eqb cookie "" then Raise AssertionError
            else
              let json_path :=
                match opt_file args with
                | Some path =>
                    if String.eqb path ""
                    then (year_text year ++ "_" ++ leaderboard_id ++ ".json")%string
                    else path
                | None =>
                    (year_text year ++ "_" ++ leaderboard_id ++ ".json")%string
                end in
              Ok {| mf_year := year;
                    mf_json_path := json_path;
                    mf_update := update;
                    mf_show_ranking := opt_ranking args;
                    mf_show_total := opt_total args;
                    mf_leaderboard_id := leaderboard_id;
                    mf_cookie := cookie |}
        end
  end.

(** The average of a member is too large for a float. *)
Definition average_overflows (member_data : Json.MemberData) : bool :=
  let deltas := both_star_deltas (Json.completion_day_level member_data) in
  match deltas with
  | [] => false
  | _ :: _ =>
      match float_quotient (sum_list deltas) (Z.of_nat (List.length deltas)) with
      | S754_infinity _ => true
      | _ => false
      end
  end.

(** Some day key of a member's completion data is not an integer
    literal. *)
Definition bad_days (cdl : dict Json.DayData) : bool :=
  existsb
    (fun day_item =>
       match Py.int (fst day_item) with
       | Some _ => false
       | None => true
       end)
    cdl.

(** Some member has an average too large for a float. *)
Definition average_overflow (d : Json.Payload) : bool :=
  existsb (fun item => average_overflows (snd item)) (Json.members d).


(** A payload whose only both-star delta time is 10^400 seconds. *)
Definition sample_huge : Json.Payload :=
  {| Json.event := "2023";
     Json.members :=
       [("A", mk_member "Alice" [("1", mk_day 0 (Some (10 ^ 400)))])] |}.

(** A stale cache, an endpoint that serves [sample], and a cache path
    that cannot be opened for writing. *)
Definition sample_world_readonly : World :=
  {| files := [("2023_42.json", {| mtime := 1000; content := Some sample_idle |})];
     now := 4600;
     remote := fun _ _ => Ok {| ok := true; json := Some sample;
                                repr := "<Response [200]>" |};
     write_error := fun _ => Some (OpenFails PermissionError);
     console := [];
     events := [] |}.




(** The write of the cache fails once the file is open: the file has
    been truncated by then. *)
Definition write_spoils (flags : Flags) (w : World) : bool :=
  match write_error w (json_path flags) with
  | Some (DumpFails _ _) | Some (CloseFails _ _) => true
  | _ => false
  end.

(** * Properties *)

(** ** Strings *)

Lemma append_assoc (a b c : string) : ((a ++ b) ++ c = a ++ (b ++ c))%string.
Proof. induction a as [|ch a IH]; cbn; [reflexivity | now rewrite IH]. Qed.

Lemma append_empty_r (a : string) : (a ++ "" = a)%string.
Proof. induction a as [|ch a IH]; cbn; [reflexivity | now rewrite IH]. Qed.

(** ** The formatter *)

Lemma format_dt_over_day dt : 86400 < dt -> format_dt dt = ">24h".
Proof.
  intros Hdt. unfold format_dt.
  assert (Hgt : (dt >? 60 * 60 * 24) = true)
    by (rewrite Z.gtb_ltb; apply Z.ltb_lt; lia).
  now rewrite Hgt.
Qed.

(** Up to a full day the hours are [dt / 3600] and the day count is
    always zero. *)
Lemma format_dt_upto_day dt :
  0 <= dt <= 86400 ->
  format_dt dt =
    (unit_str (dt / 3600) "h" ++ unit_str (dt mod 3600 / 60) "m"
       ++ unit_str (dt mod 60) "s")%string.
Proof.
  intros Hdt. unfold format_dt.
  assert (Hgt : (dt >? 60 * 60 * 24) = false)
    by (rewrite Z.gtb_ltb; apply Z.ltb_ge; lia).
  rewrite Hgt.
  set (s := dt mod 60).
  assert (Hm : ((dt - s) mod (60 * 60)) / 60 = dt mod 3600 / 60).
  { subst s. Z.div_mod_to_equations. lia. }
  rewrite Hm. set (m := dt mod 3600 / 60).
  assert (Hh : ((dt - s - m * 60) mod (60 * 60 * 60)) / 3600 = dt / 3600).
  { subst s m. Z.div_mod_to_equations. lia. }
  rewrite Hh. set (h := dt / 3600).
  assert (Hd : ((dt - s - m * 60 - h * 60) mod (60 * 60 * 60 * 24))
               / (3600 * 24) = 0).
  { subst s m h. Z.div_mod_to_equations. lia. }
  rewrite Hd. cbn [Z.gtb Z.compare]. unfold unit_str.
  destruct (h >? 0), (m >? 0), (s >? 0); cbn [String.append];
    rewrite ?append_assoc, ?append_empty_r; reflexivity.
Qed.

Lemma unit_str_head (v : Z) (u : string) :
  0 <= v < 60 ->
  unit_str v u = "" \/
  exists c r, unit_str v u = String c r /\ c <> ">"%char.
Proof.
  intros Hv. unfold unit_str.
  destruct (Z.gtb_spec v 0) as [Hpos|Hle]; [right | now left].
  assert (Hn : exists n, v = Z.of_nat n /\ (n < 60)%nat)
    by (exists (Z.to_nat v); lia).
  destruct Hn as [n [-> Hn]].
  do 60 (destruct n as [|n];
         [ cbn; eexists; eexists; split; [reflexivity | discriminate] | ]).
  lia.
Qed.

Lemma format_dt_upto_day_not_marker dt :
  0 <= dt <= 86400 -> format_dt dt <> ">24h".
Proof.
  intros Hdt. rewrite format_dt_upto_day by exact Hdt.
  assert (Hh : 0 <= dt / 3600 < 60) by (Z.div_mod_to_equations; lia).
  assert (Hm : 0 <= dt mod 3600 / 60 < 60) by (Z.div_mod_to_equations; lia).
  assert (Hs : 0 <= dt mod 60 < 60) by (Z.div_mod_to_equations; lia).
  destruct (unit_str_head (dt / 3600) "h" Hh) as [-> | (c & r & -> & Hc)];
    [ | cbn; intros E; injection E as E _; exact (Hc E) ].
  destruct (unit_str_head (dt mod 3600 / 60) "m" Hm) as [-> | (c & r & -> & Hc)];
    [ | cbn; intros E; injection E as E _; exact (Hc E) ].
  destruct (unit_str_head (dt mod 60) "s" Hs) as [-> | (c & r & -> & Hc)];
    [ discriminate | cbn; intros E; injection E as E _; exact (Hc E) ].
Qed.

(** C8, as the code has it.  For a non-negative duration [format_dt]
    returns [">24h"] exactly above 86400 seconds; below 86400 seconds it
    is the hours, minutes and seconds of the duration, each with its
    letter and each left out when it is zero, wherever it stands; 100
    seconds is ["1m40s"] and 200 seconds ["3m20s"]. *)
Theorem format_dt_nonzero_units (dt : Z) :
  0 <= dt ->
  (format_dt dt = ">24h" <-> 86400 < dt) /\
  (dt < 86400 ->
   format_dt dt =
     (unit_str (dt / 3600) "h" ++ unit_str (dt mod 3600 / 60) "m"
        ++ unit_str (dt mod 60) "s")%string) /\
  format_dt 100 = "1m40s" /\
  format_dt 200 = "3m20s".
Proof.
  intros Hdt. repeat split.
  - intros E. destruct (Z.lt_ge_cases 86400 dt) as [H|H]; [exact H|].
    exfalso. apply (format_dt_upto_day_not_marker dt); [lia | exact E].
  - apply format_dt_over_day.
  - intros Hlt. apply format_dt_upto_day. lia.
Qed.

Lemma format_dt_nonzero_units_witness :
  0 <= 3601 /\
  (format_dt 3601 = ">24h" <-> 86400 < 3601) /\
  (3601 < 86400 ->
   format_dt 3601 =
     (unit_str (3601 / 3600) "h" ++ unit_str (3601 mod 3600 / 60) "m"
        ++ unit_str (3601 mod 60) "s")%string) /\
  format_dt 100 = "1m40s" /\
  format_dt 200 = "3m20s".
Proof. split; [lia | apply (format_dt_nonzero_units 3601); lia]. Defined.

(** C8 as stated fails at 3601 seconds: one hour, no minute, one second.
    Leaving out only the leading zero units gives ["1h0m1s"]; the code
    leaves out the zero minutes as well. *)
Lemma format_dt_drops_inner_zero :
  format_dt_spec 3601 = "1h0m1s" /\
  format_dt 3601 = "1h1s" /\
  format_dt 3601 <> format_dt_spec 3601.
Proof. repeat split. discriminate. Qed.

(** At exactly one day the code renders 24 hours, not one day. *)
Lemma format_dt_full_day : format_dt 86400 = "24h".
Proof. reflexivity. Qed.

(** ** Sorting *)

Section SortedFacts.
Context {A : Type} (key : A -> Z).

Lemma insert_perm x l : Permutation (x :: l) (Py.insert key x l).
Proof.
  induction l as [|y r IH]; cbn.
  - apply Permutation_refl.
  - destruct (key x <=? key y).
    + apply Permutation_refl.
    + eapply perm_trans; [apply perm_swap | apply perm_skip, IH].
Qed.

Lemma sorted_perm l : Permutation l (Py.sorted key l).
Proof.
  induction l as [|x r IH]; cbn.
  - constructor.
  - eapply perm_trans; [apply perm_skip, IH | apply insert_perm].
Qed.

Lemma sorted_length l : List.length (Py.sorted key l) = List.length l.
Proof. symmetry. apply Permutation_length, sorted_perm. Qed.

Lemma insert_sorted x l :
  StronglySorted (key_le key) l ->
  StronglySorted (key_le key) (Py.insert key x l).
Proof.
  induction 1 as [|y r Hr IH Hy]; cbn.
  - repeat constructor.
  - destruct (Z.leb_spec (key x) (key y)) as [Hxy|Hyx].
    + constructor; [now constructor|].
      constructor; [exact Hxy|].
      eapply Forall_impl; [|exact Hy].
      intros z Hz. unfold key_le in *. lia.
    + constructor; [exact IH|].
      apply (Permutation_Forall (insert_perm x r)).
      constructor; [unfold key_le; lia | exact Hy].
Qed.

Lemma sorted_sorted l : StronglySorted (key_le key) (Py.sorted key l).
Proof.
  induction l as [|x r IH]; cbn; [constructor | now apply insert_sorted].
Qed.

(** Inserting never moves an element past one with the same key. *)
Lemma insert_stable k x l :
  filter (fun y => key y =? k) (Py.insert key x l)
  = filter (fun y => key y =? k) (x :: l).
Proof.
  induction l as [|y r IH]; [reflexivity|].
  cbn [Py.insert].
  destruct (Z.leb_spec (key x) (key y)) as [Hxy|Hyx]; [reflexivity|].
  cbn [filter] in *. rewrite IH.
  destruct (Z.eqb_spec (key x) k), (Z.eqb_spec (key y) k);
    try reflexivity; lia.
Qed.

Lemma sorted_stable k l :
  filter (fun y => key y =? k) (Py.sorted key l)
  = filter (fun y => key y =? k) l.
Proof.
  induction l as [|x r IH]; [reflexivity|].
  cbn [Py.sorted fold_right]. rewrite insert_stable.
  cbn [filter]. fold (Py.sorted key r). now rewrite IH.
Qed.
End SortedFacts.

(** C4.  The ranking of a day is the day's (member id, delta time)
    pairs in ascending order of delta time, and the members of one delta
    time stand in the order of the day's mapping. *)
Theorem ranked_days_dt_ascending_stable (data : AOCData) (day : string) :
  let items := day_items day (days_dt data) in
  Permutation items (ranked_days_dt data day) /\
  StronglySorted (fun a b => snd a <= snd b) (ranked_days_dt data day) /\
  forall dt : Z,
    filter (fun x => snd x =? dt) (ranked_days_dt data day)
    = filter (fun x => snd x =? dt) items.
Proof.
  cbn zeta. unfold ranked_days_dt. split; [|split].
  - apply sorted_perm.
  - apply (sorted_sorted snd).
  - intros dt. apply sorted_stable.
Qed.

(** ** The fetcher *)




(** C7.  When the fetch is reached and the endpoint answers with a
    non-success response, [update_if_possible] returns [False] after the
    one request, writes no file and leaves every file as it is; a run
    that asked for the update stops there with the failed assertion,
    before it reads the cache. *)
Theorem fetch_failure_aborts (flags : Flags) (w : World) (r : Response) :
  cache_fresh flags w = false ->
  remote w (leaderboard_url flags) (cookie flags) = Ok r ->
  ok r = false ->
  let w' := fst (update_if_possible flags w) in
  snd (update_if_possible flags w) = Ok false /\
  files w' = files w /\
  events w' = events w ++ [HttpGet (leaderboard_url flags) (cookie flags)] /\
  (update flags = true -> run flags w = (w', Raise AssertionError)).
Proof.
  intros Hfresh Hanswer Hok. cbn zeta.
  assert (E : update_if_possible flags w = fetch flags w).
  { unfold update_if_possible, cache_fresh in *.
    destruct (dict_get (json_path flags) (files w)) as [f|]; [|reflexivity].
    now rewrite Hfresh. }
  unfold run. rewrite E. unfold fetch. rewrite Hanswer, Hok. cbn.
  repeat split. intros ->. reflexivity.
Qed.

Lemma fetch_failure_aborts_witness :
  snd (update_if_possible sample_flags sample_world_stale) = Ok false /\
  files (fst (update_if_possible sample_flags sample_world_stale))
  = files sample_world_stale /\
  events (fst (update_if_possible sample_flags sample_world_stale))
  = [HttpGet (leaderboard_url sample_flags) (cookie sample_flags)] /\
  (update sample_flags = true ->
   run sample_flags sample_world_stale
   = (fst (update_if_possible sample_flags sample_world_stale),
      Raise AssertionError)).
Proof.
  apply (fetch_failure_aborts sample_flags sample_world_stale
           {| ok := false; json := None; repr := "<Response [500]>" |});
    reflexivity.
Defined.

(** ** Dictionaries *)

Section DictFacts.
Context {V : Type}.
Implicit Types (d : dict V) (k : string) (v : V).

Lemma dict_get_set_eq k v d : dict_get k (dict_set k v d) = Some v.
Proof.
  induction d as [|[k' v'] r IH]; cbn.
  - now rewrite String.eqb_refl.
  - destruct (String.eqb_spec k k') as [->|Hne]; cbn.
    + now rewrite String.eqb_refl.
    + destruct (String.eqb_spec k k'); [contradiction | exact IH].
Qed.

Lemma dict_get_set_neq k k' v d :
  k' <> k -> dict_get k' (dict_set k v d) = dict_get k' d.
Proof.
  intros Hne. induction d as [|[k0 v0] r IH]; cbn.
  - destruct (String.eqb_spec k' k); [contradiction | reflexivity].
  - destruct (String.eqb_spec k k0) as [->|Hk]; cbn.
    + destruct (String.eqb_spec k' k0); [contradiction | reflexivity].
    + destruct (String.eqb_spec k' k0); [reflexivity | exact IH].
Qed.

Lemma dict_get_In k d : dict_get k d <> None <-> In k (keys d).
Proof.
  induction d as [|[k' v'] r IH]; cbn.
  - split; [congruence | tauto].
  - destruct (String.eqb_spec k k') as [->|Hne].
    + split; [now left | discriminate].
    + rewrite IH. split; [now right | intros [E|H]; [congruence | exact H]].
Qed.

Lemma keys_set_In k k' v d :
  In k' (keys (dict_set k v d)) <-> k' = k \/ In k' (keys d).
Proof.
  induction d as [|[k0 v0] r IH]; cbn.
  - intuition.
  - destruct (String.eqb_spec k k0) as [->|Hk]; cbn.
    + intuition.
    + rewrite IH. intuition.
Qed.

Lemma keys_set_NoDup k v d : NoDup (keys d) -> NoDup (keys (dict_set k v d)).
Proof.
  induction d as [|[k0 v0] r IH]; cbn; intros Hnd.
  - constructor; [intros [] | constructor].
  - inversion_clear Hnd as [|? ? Hnot Hr].
    destruct (String.eqb_spec k k0) as [->|Hk]; cbn.
    + now constructor.
    + constructor; [|now apply IH].
      intros Hin. apply keys_set_In in Hin as [E|Hin]; [congruence | tauto].
Qed.

Lemma dict_set_not_nil k v d : dict_set k v d <> [].
Proof.
  destruct d as [|[k0 v0] r]; cbn; [discriminate|].
  destruct (String.eqb k k0); discriminate.
Qed.

Lemma unique_keys_NoDup d : unique_keys d = true <-> NoDup (keys d).
Proof.
  induction d as [|[k v] r IH]; cbn.
  - split; [constructor | reflexivity].
  - rewrite andb_true_iff, negb_true_iff, IH. split.
    + intros [Hex Hnd]. constructor; [|exact Hnd].
      intros Hin.
      assert (E : existsb (String.eqb k) (keys r) = true).
      { apply existsb_exists. exists k. split; [exact Hin|].
        apply String.eqb_refl. }
      congruence.
    + intros Hnd. inversion_clear Hnd as [|? ? Hnot Hr].
      split; [|exact Hr].
      destruct (existsb (String.eqb k) (keys r)) eqn:E; [|reflexivity].
      apply existsb_exists in E as (k' & Hin & Heq).
      apply String.eqb_eq in Heq. subst k'. contradiction.
Qed.

Lemma dict_get_NoDup_In k v d :
  NoDup (keys d) -> In (k, v) d -> dict_get k d = Some v.
Proof.
  induction d as [|[k' v'] r IH]; cbn; [tauto|].
  intros Hnd Hin. inversion_clear Hnd as [|? ? Hnot Hr].
  destruct Hin as [[= -> ->]|Hin].
  - now rewrite String.eqb_refl.
  - destruct (String.eqb_spec k k') as [->|Hne]; [|now apply IH].
    exfalso. apply Hnot. apply (in_map fst) in Hin. exact Hin.
Qed.
Lemma dict_get_default_cases dflt k d :
  dict_get k d = Some (dict_get_default dflt k d) \/
  (dict_get k d = None /\ dict_get_default dflt k d = dflt).
Proof. unfold dict_get_default. destruct (dict_get k d); auto. Qed.
Lemma dict_get_default_set_eq dflt k v d :
  dict_get_default dflt k (dict_set k v d) = v.
Proof. unfold dict_get_default. now rewrite dict_get_set_eq. Qed.

Lemma dict_get_default_set_neq dflt k k' v d :
  k' <> k ->
  dict_get_default dflt k' (dict_set k v d) = dict_get_default dflt k' d.
Proof. intros H. unfold dict_get_default. now rewrite dict_get_set_neq. Qed.

Lemma dict_get_default_ext dflt k d d' :
  dict_get k d = dict_get k d' ->
  dict_get_default dflt k d = dict_get_default dflt k d'.
Proof. unfold dict_get_default. now intros ->. Qed.
End DictFacts.

Lemma day_items_cases day ddt :
  dict_get day ddt = Some (day_items day ddt) \/
  (dict_get day ddt = None /\ day_items day ddt = []).
Proof. apply dict_get_default_cases. Qed.

Lemma day_items_set_eq day inner ddt :
  day_items day (dict_set day inner ddt) = inner.
Proof. apply dict_get_default_set_eq. Qed.

Lemma day_items_set_neq day day' inner ddt :
  day' <> day -> day_items day' (dict_set day inner ddt) = day_items day' ddt.
Proof. apply dict_get_default_set_neq. Qed.

Lemma day_items_ext day ddt ddt' :
  dict_get day ddt = dict_get day ddt' -> day_items day ddt = day_items day ddt'.
Proof. apply dict_get_default_ext. Qed.

(** ** Loops *)

Lemma for_each_invariant {A S : Type} (P : S -> Prop)
  (body : S -> A -> result S) (l : list A) :
  (forall s x s', In x l -> P s -> body s x = Ok s' -> P s') ->
  forall s s', P s -> for_each body l s = Ok s' -> P s'.
Proof.
  induction l as [|x r IH]; cbn; intros Hstep s s' Hs Hrun.
  - now injection Hrun as <-.
  - destruct (body s x) as [s1|e] eqn:E; cbn in Hrun; [|discriminate].
    apply (IH (fun s0 y s0' Hy => Hstep s0 y s0' (or_intror Hy)) s1 s');
      [|exact Hrun].
    apply (Hstep s x s1); [now left | exact Hs | exact E].
Qed.

(** ** The parser: what one iteration does *)

Lemma day_body_Ok member_id st day day_data st' :
  day_body member_id st (day, day_data) = Ok st' ->
  exists n,
    Py.int day = Some n /\
    dl_last_day st' = Z.max (dl_last_day st) n /\
    dl_sum_dt st' =
      (match Json.star_2 day_data with
       | Some _ => dl_sum_dt st + delta_of day_data
       | None => dl_sum_dt st
       end) /\
    dl_count st' =
      (match Json.star_2 day_data with
       | Some _ => dl_count st + 1
       | None => dl_count st
       end) /\
    dl_days st' =
      dict_set day
        {| delta_time := delta_of day_data;
           first_complete := Json.get_star_ts (Json.star_1 day_data);
           second_complete := star_2_or_zero day_data |}
        (dl_days st) /\
    dl_days_dt st' =
      dict_set day
        (dict_set member_id (delta_of day_data)
           (day_items day (dl_days_dt st)))
        (dl_days_dt st).
Proof.
  unfold day_body, int_or_raise, delta_of.
  destruct (Py.int day) as [n|]; cbn; [|discriminate].
  destruct (Json.star_2 day_data); intros [= <-]; exists n; cbn; auto 10.
Qed.

Lemma member_body_Ok st member_id member_data st' :
  member_body st (member_id, member_data) = Ok st' ->
  exists dl average_dt,
    for_each (day_body member_id) (Json.completion_day_level member_data)
      {| dl_last_day := ml_last_day st; dl_sum_dt := 0; dl_count := 0;
         dl_days := []; dl_days_dt := ml_days_dt st |} = Ok dl /\
    (if dl_count dl =? 0 then Ok minus_one
     else truediv (dl_sum_dt dl) (dl_count dl)) = Ok average_dt /\
    ml_last_day st' = dl_last_day dl /\
    ml_days_dt st' = dl_days_dt dl /\
    ml_members st' =
      dict_set member_id
        {| id := member_id;
           name := Json.name member_data;
           score := Json.local_score member_data;
           stars := Json.stars member_data;
           days := dl_days dl;
           sum_dt := Some (dl_sum_dt dl);
           avg_dt := Some average_dt |}
        (ml_members st).
Proof.
  unfold member_body.
  destruct (for_each _ _ _) as [dl|e]; cbn; [|discriminate].
  destruct (if dl_count dl =? 0 then _ else _) as [avg|e] eqn:E; cbn;
    [|discriminate].
  intros [= <-]. exists dl, avg. cbn. auto 10.
Qed.

(** ** The parser never stores an unknown member id *)

Lemma days_dt_within_incl ids ids' ddt :
  incl ids ids' -> days_dt_within ids ddt -> days_dt_within ids' ddt.
Proof.
  intros Hincl H day inner Hget. destruct (H day inner Hget) as [Hnd Hin].
  split; [exact Hnd | eapply incl_tran; eassumption].
Qed.

Lemma day_body_within member_id ids st item st' :
  days_dt_within (member_id :: ids) (dl_days_dt st) ->
  day_body member_id st item = Ok st' ->
  days_dt_within (member_id :: ids) (dl_days_dt st').
Proof.
  destruct item as [day day_data]. intros Hin Hbody.
  apply day_body_Ok in Hbody as (n & _ & _ & _ & _ & _ & ->).
  intros day' inner Hget.
  destruct (String.eqb_spec day' day) as [->|Hne].
  - rewrite dict_get_set_eq in Hget. injection Hget as <-.
    assert (Hold : NoDup (keys (day_items day (dl_days_dt st))) /\
                   incl (keys (day_items day (dl_days_dt st)))
                     (member_id :: ids)).
    { destruct (day_items_cases day (dl_days_dt st)) as [E|[_ E]].
      - exact (Hin day _ E).
      - rewrite E. split; [constructor | intros x []]. }
    destruct Hold as [Hnd Hincl]. split.
    + now apply keys_set_NoDup.
    + intros k Hk. apply keys_set_In in Hk as [->|Hk]; [now left|].
      now apply Hincl.
  - rewrite dict_get_set_neq in Hget by exact Hne. exact (Hin day' inner Hget).
Qed.

Lemma day_body_keys_parse member_id st item st' :
  Forall (fun k => Py.int k <> None) (keys (dl_days_dt st)) ->
  day_body member_id st item = Ok st' ->
  Forall (fun k => Py.int k <> None) (keys (dl_days_dt st')).
Proof.
  destruct item as [day day_data]. intros Hall Hbody.
  apply day_body_Ok in Hbody as (n & Hn & _ & _ & _ & _ & ->).
  apply Forall_forall. intros k Hk.
  apply keys_set_In in Hk as [->|Hk]; [congruence|].
  revert k Hk. now apply Forall_forall.
Qed.

Lemma member_body_inv st item st' :
  parse_inv st -> member_body st item = Ok st' -> parse_inv st'.
Proof.
  destruct item as [member_id member_data]. intros [Hnd Hin Hkeys] Hbody.
  apply member_body_Ok in Hbody
    as (dl & avg & Hloop & _ & _ & Hddt & Hmem).
  split; rewrite ?Hddt, ?Hmem.
  - now apply keys_set_NoDup.
  - apply (days_dt_within_incl (member_id :: keys (ml_members st))).
    { intros k [<-|Hk]; apply keys_set_In; [now left | now right]. }
    revert Hloop.
    apply (for_each_invariant
             (fun s => days_dt_within (member_id :: keys (ml_members st))
                         (dl_days_dt s))).
    + intros s x s' _. apply day_body_within.
    + cbn. eapply days_dt_within_incl; [|exact Hin].
      intros k Hk. now right.
  - revert Hloop.
    apply (for_each_invariant
             (fun s => Forall (fun k => Py.int k <> None) (keys (dl_days_dt s)))).
    + intros s x s' _. apply day_body_keys_parse.
    + exact Hkeys.
Qed.

Lemma parse_data_Ok d data :
  parse_data d = Ok data ->
  exists st,
    for_each member_body (Json.members d)
      {| ml_last_day := 1; ml_members := []; ml_days_dt := [] |} = Ok st /\
    year data = Json.event d /\
    members data = ml_members st /\
    days_dt data = ml_days_dt st /\
    last_day data = ml_last_day st.
Proof.
  unfold parse_data. destruct (for_each _ _ _) as [st|e]; cbn; [|discriminate].
  intros [= <-]. exists st. cbn. auto.
Qed.

Lemma parse_data_inv d data :
  parse_data d = Ok data ->
  NoDup (keys (members data)) /\
  days_dt_within (keys (members data)) (days_dt data) /\
  Forall (fun k => Py.int k <> None) (keys (days_dt data)).
Proof.
  intros Hparse.
  apply parse_data_Ok in Hparse as (st & Hloop & _ & -> & -> & _).
  assert (H : parse_inv st).
  { revert Hloop. apply (for_each_invariant parse_inv).
    - intros s x s' _. apply member_body_inv.
    - split; cbn; [constructor | intros day inner [=] | constructor]. }
  destruct H. auto.
Qed.

(** ** The ranking of a parsed snapshot *)

Lemma enumerate_fst_from {A : Type} (l : list A) (start : nat) :
  map fst (combine (seq start (List.length l)) l) = seq start (List.length l).
Proof.
  revert start. induction l as [|x r IH]; intros start; cbn.
  - reflexivity.
  - now rewrite IH.
Qed.

Lemma enumerate_fst {A : Type} (l : list A) :
  map fst (Py.enumerate l) = seq 0 (List.length l).
Proof. apply enumerate_fst_from. Qed.

Lemma enumerate_In {A : Type} (l : list A) (rank : nat) (x : A) :
  In (rank, x) (Py.enumerate l) -> (rank < List.length l)%nat /\ In x l.
Proof.
  intros Hin. split.
  - apply in_combine_l in Hin. apply in_seq in Hin. lia.
  - now apply in_combine_r in Hin.
Qed.

Lemma reporting_within d data day :
  parse_data d = Ok data ->
  let items := day_items day (days_dt data) in
  NoDup (keys items) /\ incl (keys items) (keys (members data)).
Proof.
  intros Hparse. cbn zeta.
  destruct (parse_data_inv d data Hparse) as (_ & Hin & _).
  destruct (day_items_cases day (days_dt data)) as [E|[_ E]].
  - exact (Hin day _ E).
  - rewrite E. split; [constructor | intros x []].
Qed.

Lemma ranked_within d data day :
  parse_data d = Ok data ->
  NoDup (keys (ranked_days_dt data day)) /\
  incl (keys (ranked_days_dt data day)) (keys (members data)) /\
  (List.length (ranked_days_dt data day) <= List.length (members data))%nat.
Proof.
  intros Hparse.
  destruct (reporting_within d data day Hparse) as [Hnd Hincl].
  assert (Hperm : Permutation (keys (day_items day (days_dt data)))
                    (keys (ranked_days_dt data day)))
    by (apply Permutation_map, sorted_perm).
  assert (Hnd' : NoDup (keys (ranked_days_dt data day)))
    by (eapply Permutation_NoDup; eassumption).
  assert (Hincl' : incl (keys (ranked_days_dt data day)) (keys (members data))).
  { intros k Hk. apply Hincl.
    eapply Permutation_in; [apply Permutation_sym, Hperm | exact Hk]. }
  repeat split; try assumption.
  pose proof (NoDup_incl_length Hnd' Hincl') as Hlen.
  unfold keys in Hlen. now rewrite !length_map in Hlen.
Qed.

Lemma ranking_rows_of_unguarded data l :
  (forall rank member_id dt,
     In (rank, (member_id, dt)) l ->
     len_members data - Z.of_nat rank > 0 /\
     In member_id (keys (members data))) ->
  exists rows,
    ranking_rows_of data l = Ok rows /\ Forall2 (is_row data) l rows.
Proof.
  induction l as [|[rank [member_id dt]] r IH]; intros Hall.
  - exists []. split; [reflexivity | constructor].
  - destruct (Hall rank member_id dt (or_introl eq_refl)) as [Hpos Hin].
    destruct IH as (rows & Hrows & Hrel).
    { intros rk k t Hk. apply (Hall rk k t). now right. }
    cbn [ranking_rows_of].
    assert (Hguard : (len_members data - Z.of_nat rank >? 0) = true)
      by (rewrite Z.gtb_ltb; apply Z.ltb_lt; lia).
    rewrite Hguard. unfold dict_index.
    destruct (dict_get member_id (members data)) as [m|] eqn:Em.
    + cbn. rewrite Hrows. cbn. eexists. split; [reflexivity|].
      constructor; [|exact Hrel]. exists m. split; [exact Em | reflexivity].
    + exfalso. apply dict_get_In in Hin. contradiction.
Qed.

Lemma is_row_points data l rows :
  Forall2 (is_row data) l rows ->
  points_column rows
  = map (fun rank => Py.str (len_members data - Z.of_nat rank)) (map fst l).
Proof.
  induction 1 as [|[rank [member_id dt]] row l rows Hrow _ IH]; cbn.
  - reflexivity.
  - destruct Hrow as (m & _ & ->). cbn. f_equal. exact IH.
Qed.

Lemma ranked_rows d data day :
  parse_data d = Ok data ->
  exists rows,
    ranking_rows_of data (Py.enumerate (ranked_days_dt data day)) = Ok rows /\
    Forall2 (is_row data) (Py.enumerate (ranked_days_dt data day)) rows.
Proof.
  intros Hparse.
  destruct (ranked_within d data day Hparse) as (_ & Hincl & Hlen).
  apply ranking_rows_of_unguarded.
  intros rank member_id dt Hin.
  apply enumerate_In in Hin as [Hrank Hin]. split.
  - unfold len_members. lia.
  - apply Hincl. apply (in_map fst) in Hin. exact Hin.
Qed.

(** C9.  In a parsed snapshot every member id of a day's mapping is a
    key of [members]; so the ranked list of the day is no longer than
    [members], [len(members) - rank] is at least 1 at every rank, and
    the guard of [display_ranking] removes no row: each ranked entry has
    its row. *)
Theorem ranking_guard_never_fires (d : Json.Payload) (data : AOCData)
  (day : string) :
  parse_data d = Ok data ->
  let ranked := ranked_days_dt data day in
  incl (keys (day_items day (days_dt data))) (keys (members data)) /\
  (List.length ranked <= List.length (members data))%nat /\
  (forall rank : nat,
     (rank < List.length ranked)%nat ->
     len_members data - Z.of_nat rank >= 1) /\
  exists rows,
    ranking_rows_of data (Py.enumerate ranked) = Ok rows /\
    Forall2 (is_row data) (Py.enumerate ranked) rows /\
    List.length rows = List.length ranked.
Proof.
  intros Hparse. cbn zeta.
  destruct (reporting_within d data day Hparse) as [_ Hincl].
  destruct (ranked_within d data day Hparse) as (_ & _ & Hlen).
  destruct (ranked_rows d data day Hparse) as (rows & Hrows & Hrel).
  repeat split.
  - exact Hincl.
  - exact Hlen.
  - intros rank Hrank. unfold len_members. lia.
  - exists rows. repeat split; try assumption.
    apply Forall2_length in Hrel. rewrite <- Hrel.
    unfold Py.enumerate. rewrite length_combine, length_seq. lia.
Qed.

Lemma ranking_guard_never_fires_witness :
  parse_data sample = Ok sample_data /\
  let ranked := ranked_days_dt sample_data "1" in
  incl (keys (day_items "1" (days_dt sample_data)))
    (keys (members sample_data)) /\
  (List.length ranked <= List.length (members sample_data))%nat /\
  (forall rank : nat,
     (rank < List.length ranked)%nat ->
     len_members sample_data - Z.of_nat rank >= 1) /\
  exists rows,
    ranking_rows_of sample_data (Py.enumerate ranked) = Ok rows /\
    Forall2 (is_row sample_data) (Py.enumerate ranked) rows /\
    List.length rows = List.length ranked.
Proof.
  split; [reflexivity|].
  apply (ranking_guard_never_fires sample sample_data "1"). reflexivity.
Defined.

Lemma rank_of_bound member_id ranked r :
  rank_of member_id ranked = Some r -> (r < List.length ranked)%nat.
Proof.
  revert r. induction ranked as [|[k dt] l IH]; intros r; cbn; [discriminate|].
  destruct (String.eqb member_id k); [intros [= <-]; lia|].
  destruct (rank_of member_id l) as [r'|]; cbn; [|discriminate].
  intros [= <-]. specialize (IH r' eq_refl). lia.
Qed.

(** C1, as the code has it.  In a parsed snapshot with M members, the
    points of a day on which N members report are M, M-1, ..., M-N+1:
    rank r (0-indexed) gets M - r, for every r below N, without gaps,
    in the ranking table and in the totals alike; N is at most M, and
    the points are N, N-1, ..., 1 when all members report. *)
Theorem day_points_count_down_from_member_count (d : Json.Payload)
  (data : AOCData) (day : Z) :
  parse_data d = Ok data ->
  let N := List.length (reporting data day) in
  (N <= List.length (members data))%nat /\
  exists rows,
    ranking_rows data day = Ok rows /\
    points_column rows
    = map (fun r => Py.str (len_members data - Z.of_nat r)) (seq 0 N) /\
    (N = List.length (members data) ->
     points_column rows
     = map (fun r => Py.str (Z.of_nat N - Z.of_nat r)) (seq 0 N)) /\
    (forall member_id r,
       rank_of member_id (ranked_days_dt data (Py.str day)) = Some r ->
       (r < N)%nat /\
       day_points data member_id day = len_members data - Z.of_nat r).
Proof.
  intros Hparse. cbn zeta. unfold reporting, ranking_rows.
  destruct (ranked_within d data (Py.str day) Hparse) as (_ & _ & Hlen).
  destruct (ranked_rows d data (Py.str day) Hparse) as (rows & Hrows & Hrel).
  assert (HN : List.length (ranked_days_dt data (Py.str day))
               = List.length (day_items (Py.str day) (days_dt data)))
    by apply sorted_length.
  rewrite <- HN. split; [exact Hlen|].
  exists rows. split; [exact Hrows|].
  assert (Hcol : points_column rows
                 = map (fun r => Py.str (len_members data - Z.of_nat r))
                     (seq 0 (List.length (ranked_days_dt data (Py.str day))))).
  { rewrite (is_row_points data _ rows Hrel). now rewrite enumerate_fst. }
  split; [exact Hcol|].
  split.
  - intros HM. rewrite Hcol. unfold len_members. now rewrite <- HM.
  - intros member_id r Hr. split.
    + exact (rank_of_bound _ _ _ Hr).
    + unfold day_points. now rewrite Hr.
Qed.

Lemma day_points_count_down_from_member_count_witness :
  parse_data sample = Ok sample_data /\
  let N := List.length (reporting sample_data 1) in
  (N <= List.length (members sample_data))%nat /\
  exists rows,
    ranking_rows sample_data 1 = Ok rows /\
    points_column rows
    = map (fun r => Py.str (len_members sample_data - Z.of_nat r)) (seq 0 N) /\
    (N = List.length (members sample_data) ->
     points_column rows
     = map (fun r => Py.str (Z.of_nat N - Z.of_nat r)) (seq 0 N)) /\
    (forall member_id r,
       rank_of member_id (ranked_days_dt sample_data (Py.str 1)) = Some r ->
       (r < N)%nat /\
       day_points sample_data member_id 1 = len_members sample_data - Z.of_nat r).
Proof.
  split; [reflexivity|].
  apply (day_points_count_down_from_member_count sample sample_data 1).
  reflexivity.
Defined.

(** C1 as stated fails on [sample]: on day 3 exactly one of the two
    members reports, and the one point value assigned is 2, not 1. *)
Lemma day_points_not_from_reporters :
  parse_data sample = Ok sample_data /\
  List.length (reporting sample_data 3) = 1%nat /\
  List.length (members sample_data) = 2%nat /\
  exists rows,
    ranking_rows sample_data 3 = Ok rows /\
    points_column rows = ["2"] /\
    points_column rows
    <> map (fun r => Py.str (1 - Z.of_nat r)) (seq 0 1).
Proof.
  repeat split. eexists. repeat split. discriminate.
Qed.

(** ** The parser: what a member's loop accumulates *)

Lemma both_star_deltas_cons day day_data cdl :
  both_star_deltas ((day, day_data) :: cdl)
  = match Json.star_2 day_data with
    | Some _ => delta_of day_data :: both_star_deltas cdl
    | None => both_star_deltas cdl
    end.
Proof.
  unfold both_star_deltas, delta_of, star_2_or_zero. cbn.
  now destruct (Json.star_2 day_data).
Qed.

Lemma day_loop_sum member_id cdl :
  forall st st',
    for_each (day_body member_id) cdl st = Ok st' ->
    dl_sum_dt st' = dl_sum_dt st + sum_list (both_star_deltas cdl) /\
    dl_count st'
    = dl_count st + Z.of_nat (List.length (both_star_deltas cdl)).
Proof.
  induction cdl as [|[day day_data] r IH]; intros st st' Hrun.
  - injection Hrun as <-. cbn. lia.
  - cbn [for_each] in Hrun.
    destruct (day_body member_id st (day, day_data)) as [s1|e] eqn:E;
      cbn in Hrun; [|discriminate].
    apply day_body_Ok in E as (n & _ & _ & Hsum & Hcount & _ & _).
    destruct (IH s1 st' Hrun) as [IHs IHc].
    rewrite IHs, IHc, Hsum, Hcount, both_star_deltas_cons.
    unfold sum_list.
    destruct (Json.star_2 day_data); cbn [fold_right List.length]; lia.
Qed.

(** Days a loop does not visit keep their entries. *)
Lemma day_loop_other_days member_id day cdl :
  ~ In day (keys cdl) ->
  forall st st',
    for_each (day_body member_id) cdl st = Ok st' ->
    dict_get day (dl_days st') = dict_get day (dl_days st) /\
    dict_get day (dl_days_dt st') = dict_get day (dl_days_dt st).
Proof.
  induction cdl as [|[day0 day_data] r IH]; intros Hnot st st' Hrun.
  - injection Hrun as <-. auto.
  - cbn [for_each] in Hrun.
    destruct (day_body member_id st (day0, day_data)) as [s1|e] eqn:E;
      cbn in Hrun; [|discriminate].
    apply day_body_Ok in E as (n & _ & _ & _ & _ & Hdays & Hddt).
    assert (Hne : day <> day0) by (intros ->; apply Hnot; now left).
    destruct (IH (fun H => Hnot (or_intror H)) s1 st' Hrun) as [IH1 IH2].
    rewrite IH1, IH2, Hdays, Hddt.
    split; apply dict_get_set_neq; exact Hne.
Qed.

(** A visited day holds the record and the delta time of its data. *)
Lemma day_loop_this_day member_id day day_data cdl :
  NoDup (keys cdl) ->
  In (day, day_data) cdl ->
  forall st st',
    for_each (day_body member_id) cdl st = Ok st' ->
    dict_get day (dl_days st')
    = Some {| delta_time := delta_of day_data;
              first_complete := Json.get_star_ts (Json.star_1 day_data);
              second_complete := star_2_or_zero day_data |} /\
    dict_get member_id (day_items day (dl_days_dt st'))
    = Some (delta_of day_data).
Proof.
  induction cdl as [|[day0 x] r IH]; intros Hnd Hin st st' Hrun; [destruct Hin|].
  cbn in Hnd. inversion_clear Hnd as [|? ? Hnot Hr].
  cbn [for_each] in Hrun.
  destruct (day_body member_id st (day0, x)) as [s1|e] eqn:E;
    cbn in Hrun; [|discriminate].
  destruct Hin as [[= -> ->]|Hin].
  - apply day_body_Ok in E as (n & _ & _ & _ & _ & Hdays & Hddt).
    destruct (day_loop_other_days member_id day r Hnot s1 st' Hrun)
      as [H1 H2].
    rewrite H1, (day_items_ext day _ _ H2), Hdays, Hddt.
    rewrite dict_get_set_eq, day_items_set_eq. split; [reflexivity|].
    apply dict_get_set_eq.
  - exact (IH Hr Hin s1 st' Hrun).
Qed.

(** The loop of one member leaves the entries of the others alone. *)
Lemma day_loop_other_member member_id other cdl :
  other <> member_id ->
  forall st st' day,
    for_each (day_body member_id) cdl st = Ok st' ->
    dict_get other (day_items day (dl_days_dt st'))
    = dict_get other (day_items day (dl_days_dt st)).
Proof.
  intros Hne. induction cdl as [|[day0 x] r IH]; intros st st' day Hrun.
  - now injection Hrun as <-.
  - cbn [for_each] in Hrun.
    destruct (day_body member_id st (day0, x)) as [s1|e] eqn:E;
      cbn in Hrun; [|discriminate].
    apply day_body_Ok in E as (n & _ & _ & _ & _ & _ & Hddt).
    rewrite (IH s1 st' day Hrun), Hddt.
    destruct (String.eqb_spec day day0) as [->|Hday].
    + rewrite day_items_set_eq. now apply dict_get_set_neq.
    + now rewrite day_items_set_neq.
Qed.

Lemma member_loop_other_member other ms :
  ~ In other (keys ms) ->
  forall st st',
    for_each member_body ms st = Ok st' ->
    dict_get other (ml_members st') = dict_get other (ml_members st) /\
    forall day,
      dict_get other (day_items day (ml_days_dt st'))
      = dict_get other (day_items day (ml_days_dt st)).
Proof.
  induction ms as [|[member_id member_data] r IH]; intros Hnot st st' Hrun.
  - injection Hrun as <-. auto.
  - cbn [for_each] in Hrun.
    destruct (member_body st (member_id, member_data)) as [s1|e] eqn:E;
      cbn in Hrun; [|discriminate].
    apply member_body_Ok in E as (dl & avg & Hloop & _ & _ & Hddt & Hmem).
    assert (Hne : other <> member_id) by (intros ->; apply Hnot; now left).
    destruct (IH (fun H => Hnot (or_intror H)) s1 st' Hrun) as [IH1 IH2].
    split.
    + rewrite IH1, Hmem. now apply dict_get_set_neq.
    + intros day. rewrite IH2, Hddt.
      now rewrite (day_loop_other_member member_id other _ Hne _ _ day Hloop).
Qed.

(** What the snapshot holds for a member of the payload. *)
Lemma parse_data_member d data member_id member_data :
  parse_data d = Ok data ->
  NoDup (keys (Json.members d)) ->
  In (member_id, member_data) (Json.members d) ->
  exists st0 dl,
    dl_sum_dt st0 = 0 /\ dl_count st0 = 0 /\ dl_days st0 = [] /\
    for_each (day_body member_id) (Json.completion_day_level member_data) st0
    = Ok dl /\
    dict_get member_id (members data)
    = Some {| id := member_id;
              name := Json.name member_data;
              score := Json.local_score member_data;
              stars := Json.stars member_data;
              days := dl_days dl;
              sum_dt := Some (dl_sum_dt dl);
              avg_dt :=
                Some (average_of
                        (both_star_deltas
                           (Json.completion_day_level member_data))) |} /\
    forall day,
      dict_get member_id (day_items day (days_dt data))
      = dict_get member_id (day_items day (dl_days_dt dl)).
Proof.
  intros Hparse Hnd Hin.
  apply parse_data_Ok in Hparse as (st & Hloop & _ & -> & -> & _).
  revert Hnd Hin Hloop.
  generalize {| ml_last_day := 1; ml_members := []; ml_days_dt := [] |}.
  induction (Json.members d) as [|[k x] r IH]; intros s Hnd Hin Hrun;
    [destruct Hin|].
  cbn in Hnd. inversion_clear Hnd as [|? ? Hnot Hr].
  cbn [for_each] in Hrun.
  destruct (member_body s (k, x)) as [s1|e] eqn:E; cbn in Hrun; [|discriminate].
  destruct Hin as [[= -> ->]|Hin]; [|exact (IH s1 Hr Hin Hrun)].
  apply member_body_Ok in E as (dl & avg & Hloop & Havg & _ & Hddt & Hmem).
  destruct (member_loop_other_member member_id r Hnot s1 st Hrun) as [H1 H2].
  destruct (day_loop_sum _ _ _ _ Hloop) as [Hsum Hcount]. cbn in Hsum, Hcount.
  assert (Eavg : avg = average_of
                         (both_star_deltas
                            (Json.completion_day_level member_data))).
  { unfold average_of, truediv in *. rewrite Hsum, Hcount in Havg.
    cbn [Z.add] in Havg.
    destruct (Z.of_nat _ =? 0); [congruence|].
    destruct (float_quotient _ _); congruence. }
  eexists _, dl. repeat split; [| | | exact Hloop | | ]; try reflexivity.
  - rewrite H1, Hmem, dict_get_set_eq, Eavg. reflexivity.
  - intros day. now rewrite H2, Hddt.
Qed.

(** Only [int(day)] can make the parser raise. *)
Lemma for_each_Raise {A S : Type} (body : S -> A -> result S) (l : list A) :
  forall s e,
    for_each body l s = Raise e ->
    exists s0 x, In x l /\ body s0 x = Raise e.
Proof.
  induction l as [|x r IH]; cbn; intros s e Hrun; [discriminate|].
  destruct (body s x) as [s1|e1] eqn:E; cbn in Hrun.
  - destruct (IH s1 e Hrun) as (s0 & y & Hy & Hbody).
    exists s0, y. auto.
  - injection Hrun as <-. exists s, x. auto.
Qed.

Lemma day_body_Raise member_id st item e :
  day_body member_id st item = Raise e -> e = ValueError.
Proof.
  destruct item as [day day_data]. unfold day_body, int_or_raise.
  destruct (Py.int day); cbn; [|congruence].
  destruct (Json.star_2 day_data); discriminate.
Qed.

Lemma truediv_Raise a b e :
  b <> 0 -> truediv a b = Raise e -> e = OverflowError.
Proof.
  intros Hb. unfold truediv.
  destruct (Z.eqb_spec b 0) as [E|_]; [contradiction|].
  destruct (float_quotient a b); congruence.
Qed.

Lemma member_body_Raise st item e :
  member_body st item = Raise e -> e = ValueError \/ e = OverflowError.
Proof.
  destruct item as [member_id member_data]. unfold member_body.
  destruct (for_each _ _ _) as [dl|e1] eqn:E; cbn.
  - destruct (Z.eqb_spec (dl_count dl) 0) as [Hc|Hc]; cbn; [discriminate|].
    destruct (truediv (dl_sum_dt dl) (dl_count dl)) as [q|e2] eqn:Eq; cbn;
      [discriminate|].
    intros [= <-]. right. exact (truediv_Raise _ _ _ Hc Eq).
  - intros [= <-]. apply for_each_Raise in E as (s0 & x & _ & Hbody).
    left. exact (day_body_Raise _ _ _ _ Hbody).
Qed.

Lemma parse_data_Raise d e :
  parse_data d = Raise e -> e = ValueError \/ e = OverflowError.
Proof.
  unfold parse_data. destruct (for_each _ _ _) as [st|e1] eqn:E; cbn;
    [discriminate|].
  intros [= <-]. apply for_each_Raise in E as (s0 & x & _ & Hbody).
  exact (member_body_Raise _ _ _ Hbody).
Qed.

(** ** Sum and average of a member *)

Lemma average_of_nil : average_of [] = minus_one.
Proof. reflexivity. Qed.

Lemma average_of_nonempty deltas :
  deltas <> [] ->
  average_of deltas
  = float_quotient (sum_list deltas) (Z.of_nat (List.length deltas)).
Proof.
  intros Hne. unfold average_of.
  destruct deltas as [|x r]; [contradiction|].
  destruct (Z.eqb_spec (Z.of_nat (List.length (x :: r))) 0) as [E|_];
    [cbn [List.length] in E; lia | reflexivity].
Qed.

(** Rounding keeps the sign. *)
Lemma binary_round_aux_sign prec emax sx mx ex lx s m e :
  binary_round_aux prec emax sx mx ex lx = S754_finite s m e -> s = sx.
Proof.
  unfold binary_round_aux.
  destruct (shr_fexp prec emax mx ex lx) as [mrs' e'].
  destruct (shr_fexp prec emax _ e' loc_Exact) as [mrs'' e''].
  destruct (shr_m mrs'') as [|p|p]; try discriminate.
  destruct (Z.leb e'' (Z.sub emax prec)); [|discriminate].
  now intros [= <- _ _].
Qed.

(** The quotient of a non-negative by a positive number is not
    negative. *)
Lemma float_quotient_nonneg a b m e :
  0 <= a -> 0 < b -> float_quotient a b <> S754_finite true m e.
Proof.
  intros Ha Hb. unfold float_quotient.
  destruct a as [|p|p]; [| |lia]; destruct b as [|q|q]; try lia;
    cbn [int_operand SFdiv xorb].
  - discriminate.
  - destruct (SFdiv_core_binary 53 1024 (Zpos p) 0 (Zpos q) 0)
      as [[mz ez] lz].
    intros H. apply binary_round_aux_sign in H. discriminate.
Qed.

Lemma sum_list_nonneg l : Forall (fun x => 0 <= x) l -> 0 <= sum_list l.
Proof.
  unfold sum_list. induction 1 as [|x r Hx _ IH]; cbn [fold_right]; lia.
Qed.

Lemma average_of_nonneg deltas :
  Forall (fun x => 0 <= x) deltas ->
  (average_of deltas = minus_one <-> deltas = []).
Proof.
  intros Hpos. split; [|intros ->; reflexivity].
  destruct deltas as [|x r]; [reflexivity|].
  rewrite average_of_nonempty by discriminate. intros H. exfalso.
  revert H. apply float_quotient_nonneg.
  - now apply sum_list_nonneg.
  - cbn [List.length]. lia.
Qed.

(** What the loop of a member makes of the division. *)
Lemma parse_data_member_average d data member_id member_data :
  parse_data d = Ok data ->
  NoDup (keys (Json.members d)) ->
  In (member_id, member_data) (Json.members d) ->
  let deltas := both_star_deltas (Json.completion_day_level member_data) in
  deltas <> [] ->
  truediv (sum_list deltas) (Z.of_nat (List.length deltas))
  = Ok (average_of deltas).
Proof.
  intros Hparse Hnd Hin. cbn zeta. intros Hne.
  apply parse_data_Ok in Hparse as (st & Hloop & _).
  revert Hnd Hin Hloop.
  generalize {| ml_last_day := 1; ml_members := []; ml_days_dt := [] |}.
  induction (Json.members d) as [|[k x] r IH]; intros s Hnd Hin Hrun;
    [destruct Hin|].
  cbn in Hnd. inversion_clear Hnd as [|? ? Hnot Hr].
  cbn [for_each] in Hrun.
  destruct (member_body s (k, x)) as [s1|e] eqn:E; cbn in Hrun; [|discriminate].
  destruct Hin as [[= -> ->]|Hin]; [|exact (IH s1 Hr Hin Hrun)].
  apply member_body_Ok in E as (dl & avg & Hdays & Havg & _).
  destruct (day_loop_sum _ _ _ _ Hdays) as [Hsum Hcount].
  cbn [dl_sum_dt dl_count Z.add] in Hsum, Hcount.
  rewrite Hsum, Hcount in Havg.
  rewrite average_of_nonempty by exact Hne.
  destruct (Z.eqb_spec
              (Z.of_nat (List.length
                           (both_star_deltas
                              (Json.completion_day_level member_data)))) 0)
    as [E0|E0].
  { destruct (both_star_deltas _); [contradiction | cbn in E0; lia]. }
  rewrite Havg. f_equal. unfold truediv in Havg.
  destruct (Z.eqb_spec
              (Z.of_nat (List.length
                           (both_star_deltas
                              (Json.completion_day_level member_data)))) 0);
    [contradiction|].
  destruct (float_quotient _ _); congruence.
Qed.

(** C2, as the code has it.  For a member of a parsed snapshot:
    [sum_dt] is the sum of the both-star delta times; without a
    both-star day [avg_dt] is the sentinel [-1.0]; with at least one it
    is the quotient of that sum by the number of both-star days as the
    division of two [int]s rounds it to a float, and that float is
    finite; [avg_dt] is [-1.0] exactly when there is no both-star day or
    that quotient is [-1.0], hence, when no both-star delta time is
    negative, exactly when there is no both-star day; and the parser
    never raises [ZeroDivisionError]. *)
Theorem average_is_sentinel_or_quotient (d : Json.Payload) (data : AOCData)
  (member_id : string) (member_data : Json.MemberData) :
  parse_data d = Ok data ->
  unique_keys (Json.members d) = true ->
  In (member_id, member_data) (Json.members d) ->
  let deltas := both_star_deltas (Json.completion_day_level member_data) in
  let quotient :=
    float_quotient (sum_list deltas) (Z.of_nat (List.length deltas)) in
  (forall d', parse_data d' <> Raise ZeroDivisionError) /\
  exists m avg,
    dict_get member_id (members data) = Some m /\
    sum_dt m = Some (sum_list deltas) /\
    avg_dt m = Some avg /\
    (deltas = [] -> avg = minus_one) /\
    (deltas <> [] ->
     avg = quotient /\
     truediv (sum_list deltas) (Z.of_nat (List.length deltas)) = Ok avg /\
     forall s, avg <> S754_infinity s) /\
    (avg = minus_one <-> deltas = [] \/ quotient = minus_one) /\
    (Forall (fun x => 0 <= x) deltas -> (avg = minus_one <-> deltas = [])).
Proof.
  intros Hparse Huniq Hin. cbn zeta.
  split.
  { intros d' H. apply parse_data_Raise in H as [H|H]; discriminate. }
  apply unique_keys_NoDup in Huniq.
  destruct (parse_data_member d data member_id member_data Hparse Huniq Hin)
    as (st0 & dl & Hs0 & Hc0 & _ & Hloop & Hget & _).
  destruct (day_loop_sum _ _ _ _ Hloop) as [Hsum _].
  pose proof (parse_data_member_average d data member_id member_data
                Hparse Huniq Hin) as Hdiv. cbn zeta in Hdiv.
  eexists _, _. split; [exact Hget|]. cbn [sum_dt avg_dt].
  split; [f_equal; lia|]. split; [reflexivity|].
  split; [intros ->; apply average_of_nil|].
  split.
  { intros Hne. split; [now apply average_of_nonempty|].
    split; [now apply Hdiv|].
    intros s Hs. specialize (Hdiv Hne). rewrite Hs in Hdiv.
    unfold truediv in Hdiv.
    destruct (Z.of_nat _ =? 0); [discriminate|].
    rewrite <- (average_of_nonempty _ Hne), Hs in Hdiv. discriminate. }
  split.
  { destruct (both_star_deltas (Json.completion_day_level member_data))
      as [|x r] eqn:E.
    - split; [now left | reflexivity].
    - rewrite average_of_nonempty by discriminate.
      split; [now right | intros [H|H]; [discriminate | exact H]]. }
  apply average_of_nonneg.
Qed.

Lemma average_is_sentinel_or_quotient_witness :
  parse_data sample = Ok sample_data /\
  unique_keys (Json.members sample) = true /\
  let member_data :=
    mk_member "Alice" [("1", mk_day 1000 (Some 1100)); ("3", mk_day 50 None)] in
  In ("A", member_data) (Json.members sample) /\
  let deltas := both_star_deltas (Json.completion_day_level member_data) in
  let quotient :=
    float_quotient (sum_list deltas) (Z.of_nat (List.length deltas)) in
  (forall d', parse_data d' <> Raise ZeroDivisionError) /\
  exists m avg,
    dict_get "A" (members sample_data) = Some m /\
    sum_dt m = Some (sum_list deltas) /\
    avg_dt m = Some avg /\
    (deltas = [] -> avg = minus_one) /\
    (deltas <> [] ->
     avg = quotient /\
     truediv (sum_list deltas) (Z.of_nat (List.length deltas)) = Ok avg /\
     forall s, avg <> S754_infinity s) /\
    (avg = minus_one <-> deltas = [] \/ quotient = minus_one) /\
    (Forall (fun x => 0 <= x) deltas -> (avg = minus_one <-> deltas = [])).
Proof.
  split; [reflexivity|]. split; [reflexivity|]. split; [now left|].
  apply (average_is_sentinel_or_quotient sample sample_data "A");
    [reflexivity | reflexivity | now left].
Defined.

(** C2 as stated fails on [sample_backwards]: the member has one day
    with both stars, and the average is the sentinel all the same. *)
Lemma average_sentinel_with_both_star_day :
  parse_data sample_backwards = Ok sample_backwards_data /\
  both_star_deltas [("1", mk_day 5 (Some 4))] = [-1] /\
  exists m,
    dict_get "A" (members sample_backwards_data) = Some m /\
    avg_dt m = Some minus_one.
Proof.
  split; [reflexivity|]. split; [reflexivity|].
  eexists. split; reflexivity.
Qed.

(** ** A day with the first star only *)

Lemma without_day_absent day cdl :
  ~ In day (keys cdl) -> without_day day cdl = cdl.
Proof.
  induction cdl as [|[k x] r IH]; intros Hnot; [reflexivity|].
  cbn. destruct (String.eqb_spec k day) as [->|Hne].
  - exfalso. apply Hnot. now left.
  - cbn. f_equal. apply IH. intros H. apply Hnot. now right.
Qed.

(** A first-star-only day adds nothing to the both-star delta times. *)
Lemma both_star_deltas_without day day_data cdl :
  NoDup (keys cdl) ->
  In (day, day_data) cdl ->
  Json.star_2 day_data = None ->
  both_star_deltas (without_day day cdl) = both_star_deltas cdl.
Proof.
  induction cdl as [|[k x] r IH]; intros Hnd Hin Hnone; [destruct Hin|].
  cbn in Hnd. inversion_clear Hnd as [|? ? Hnot Hr].
  destruct Hin as [[= -> ->]|Hin].
  - cbn [without_day filter fst]. rewrite String.eqb_refl. cbn [negb].
    fold (without_day day r). rewrite without_day_absent by exact Hnot.
    rewrite both_star_deltas_cons. now rewrite Hnone.
  - assert (Hne : k <> day).
    { intros ->. apply Hnot. apply (in_map fst) in Hin. exact Hin. }
    cbn [without_day filter fst].
    destruct (String.eqb_spec k day) as [E|_]; [contradiction|]. cbn [negb].
    fold (without_day day r). rewrite !both_star_deltas_cons.
    now rewrite (IH Hr Hin Hnone).
Qed.

(** C3.  For a member of a parsed snapshot and a day of its completion
    data without the second star: the day's record holds the delta time
    [0 - first_ts] (negative for a positive timestamp); [sum_dt] and
    [avg_dt] are those of the completion data without that day; and the
    day's delta-time mapping holds [0 - first_ts] under the member id. *)
Theorem first_star_only_day_recorded_not_averaged (d : Json.Payload)
  (data : AOCData) (member_id : string) (member_data : Json.MemberData)
  (day : string) (day_data : Json.DayData) :
  parse_data d = Ok data ->
  unique_keys (Json.members d) = true ->
  In (member_id, member_data) (Json.members d) ->
  unique_keys (Json.completion_day_level member_data) = true ->
  In (day, day_data) (Json.completion_day_level member_data) ->
  Json.star_2 day_data = None ->
  let first_ts := Json.get_star_ts (Json.star_1 day_data) in
  let counted :=
    both_star_deltas
      (without_day day (Json.completion_day_level member_data)) in
  exists m rec,
    dict_get member_id (members data) = Some m /\
    dict_get day (days m) = Some rec /\
    delta_time rec = 0 - first_ts /\
    (0 < first_ts -> delta_time rec < 0) /\
    sum_dt m = Some (sum_list counted) /\
    avg_dt m = Some (average_of counted) /\
    dict_get member_id (day_items day (days_dt data)) = Some (0 - first_ts).
Proof.
  intros Hparse Huniq Hin Hdays Hday Hnone. cbn zeta.
  apply unique_keys_NoDup in Huniq. apply unique_keys_NoDup in Hdays.
  destruct (parse_data_member d data member_id member_data Hparse Huniq Hin)
    as (st0 & dl & Hs0 & Hc0 & _ & Hloop & Hget & Hddt).
  destruct (day_loop_sum _ _ _ _ Hloop) as [Hsum _].
  destruct (day_loop_this_day member_id day day_data _ Hdays Hday _ _ Hloop)
    as [Hrec Hitem].
  assert (Hdelta : delta_of day_data
                   = 0 - Json.get_star_ts (Json.star_1 day_data)).
  { unfold delta_of, star_2_or_zero. now rewrite Hnone. }
  rewrite (both_star_deltas_without day day_data _ Hdays Hday Hnone).
  eexists _, _. split; [exact Hget|]. cbn [days sum_dt avg_dt].
  split; [exact Hrec|]. cbn [delta_time]. rewrite Hdelta.
  split; [reflexivity|]. split; [lia|].
  split; [f_equal; lia|]. split; [reflexivity|].
  now rewrite Hddt, Hitem, Hdelta.
Qed.

Lemma first_star_only_day_recorded_not_averaged_witness :
  parse_data sample = Ok sample_data /\
  exists m rec,
    dict_get "A" (members sample_data) = Some m /\
    dict_get "3" (days m) = Some rec /\
    delta_time rec = 0 - 50 /\
    (0 < 50 -> delta_time rec < 0) /\
    sum_dt m
    = Some (sum_list (both_star_deltas [("1", mk_day 1000 (Some 1100))])) /\
    avg_dt m
    = Some (average_of (both_star_deltas [("1", mk_day 1000 (Some 1100))])) /\
    dict_get "A" (day_items "3" (days_dt sample_data)) = Some (0 - 50).
Proof.
  split; [reflexivity|].
  apply (first_star_only_day_recorded_not_averaged sample sample_data "A"
           (mk_member "Alice" [("1", mk_day 1000 (Some 1100));
                               ("3", mk_day 50 None)])
           "3" (mk_day 50 None));
    [reflexivity | reflexivity | now left | reflexivity
    | right; now left | reflexivity].
Defined.

(** ** The total standings *)

Lemma rank_of_absent member_id ranked :
  ~ In member_id (keys ranked) -> rank_of member_id ranked = None.
Proof.
  induction ranked as [|[k dt] r IH]; intros Hnot; [reflexivity|].
  cbn. destruct (String.eqb_spec member_id k) as [->|Hne].
  - exfalso. apply Hnot. now left.
  - rewrite IH; [reflexivity|]. intros H. apply Hnot. now right.
Qed.

Section Totals.
Variable data : AOCData.
Variable member_id : string.

Lemma add_ranked_points ranked :
  NoDup (keys ranked) ->
  forall start tp,
    dict_get_default 0 member_id
      (fold_left (add_points data) (combine (seq start (List.length ranked)) ranked) tp)
    = dict_get_default 0 member_id tp
      + match rank_of member_id ranked with
        | Some rank => len_members data - Z.of_nat (start + rank)
        | None => 0
        end.
Proof.
  induction ranked as [|[k dt] r IH]; intros Hnd start tp.
  - cbn. lia.
  - cbn in Hnd. inversion_clear Hnd as [|? ? Hnot Hr].
    cbn [List.length seq combine fold_left rank_of].
    rewrite (IH Hr). cbn [add_points].
    destruct (String.eqb_spec member_id k) as [->|Hne].
    + rewrite dict_get_default_set_eq, (rank_of_absent k r Hnot).
      replace (start + 0)%nat with start by lia. lia.
    + rewrite dict_get_default_set_neq by exact Hne.
      destruct (rank_of member_id r) as [rank|]; cbn [option_map];
        [|reflexivity].
      replace (S start + rank)%nat with (start + S rank)%nat by lia.
      reflexivity.
Qed.

Lemma add_ranked_keys ranked :
  forall start tp,
    NoDup (keys tp) ->
    let tp' :=
      fold_left (add_points data) (combine (seq start (List.length ranked)) ranked) tp in
    NoDup (keys tp') /\
    (In member_id (keys tp') <->
     In member_id (keys tp) \/ In member_id (keys ranked)).
Proof.
  induction ranked as [|[k dt] r IH]; intros start tp Hnd; cbn zeta.
  - cbn. tauto.
  - cbn [List.length seq combine fold_left].
    destruct (IH (S start) (add_points data tp (start, (k, dt)))) as [H1 H2].
    { cbn [add_points]. now apply keys_set_NoDup. }
    split; [exact H1|]. rewrite H2. cbn [add_points].
    rewrite keys_set_In. cbn. intuition.
Qed.

Lemma add_day_points_get tp day :
  NoDup (keys (ranked_days_dt data (Py.str day))) ->
  dict_get_default 0 member_id (add_day_points data tp day)
  = dict_get_default 0 member_id tp + day_points data member_id day.
Proof.
  intros Hnd. unfold add_day_points, day_points, Py.enumerate.
  fold (day_items (Py.str day) (days_dt data)).
  fold (ranked_days_dt data (Py.str day)).
  rewrite (add_ranked_points _ Hnd 0 tp).
  now destruct (rank_of member_id _).
Qed.

Lemma add_day_points_keys tp day :
  NoDup (keys tp) ->
  NoDup (keys (add_day_points data tp day)) /\
  (In member_id (keys (add_day_points data tp day)) <->
   In member_id (keys tp) \/ In member_id (keys (reporting data day))).
Proof.
  intros Hnd. unfold add_day_points, Py.enumerate.
  fold (day_items (Py.str day) (days_dt data)).
  fold (ranked_days_dt data (Py.str day)).
  destruct (add_ranked_keys (ranked_days_dt data (Py.str day)) 0 tp Hnd)
    as [H1 H2].
  split; [exact H1|]. rewrite H2.
  assert (Hperm : Permutation (keys (reporting data day))
                    (keys (ranked_days_dt data (Py.str day))))
    by (apply Permutation_map, sorted_perm).
  split; (intros [H|H]; [now left | right]).
  - eapply Permutation_in; [apply Permutation_sym, Hperm | exact H].
  - eapply Permutation_in; [exact Hperm | exact H].
Qed.

Lemma add_days_points days :
  (forall day, NoDup (keys (ranked_days_dt data (Py.str day)))) ->
  forall tp,
    NoDup (keys tp) ->
    let tp' := fold_left (add_day_points data) days tp in
    dict_get_default 0 member_id tp'
    = dict_get_default 0 member_id tp
      + sum_list (map (day_points data member_id) days) /\
    NoDup (keys tp') /\
    (In member_id (keys tp') <->
     In member_id (keys tp) \/
     exists day, In day days /\ In member_id (keys (reporting data day))).
Proof.
  intros Hranked. induction days as [|day r IH]; intros tp Hnd; cbn zeta.
  - cbn. repeat split; try assumption; try lia; try tauto.
    intros [H|(day & [] & _)]. exact H.
  - cbn [fold_left map]. destruct (add_day_points_keys tp day Hnd) as [K1 K2].
    destruct (IH (add_day_points data tp day) K1) as (H1 & H2 & H3).
    rewrite H1, H3, K2, add_day_points_get by apply Hranked.
    unfold sum_list. cbn [fold_right].
    repeat split; try assumption; try lia.
    + intros [[H|H]|(day' & Hin & H)]; [now left | |].
      * right. exists day. split; [now left | exact H].
      * right. exists day'. split; [now right | exact H].
    + intros [H|(day' & [<-|Hin] & H)]; [tauto | tauto |].
      right. exists day'. tauto.
Qed.
End Totals.

Lemma range1_In (n day : Z) : In day (Py.range1 n) <-> 1 <= day <= n.
Proof.
  unfold Py.range1. rewrite in_map_iff. split.
  - intros (i & <- & Hi). apply in_seq in Hi. lia.
  - intros H. exists (Z.to_nat day). split; [lia|]. apply in_seq. lia.
Qed.

Lemma StronglySorted_weaken {A : Type} (R R' : A -> A -> Prop) (l : list A) :
  (forall a b, R a b -> R' a b) -> StronglySorted R l -> StronglySorted R' l.
Proof.
  intros Himp. induction 1 as [|x r Hr IH Hx]; constructor.
  - exact IH.
  - eapply Forall_impl; [|exact Hx]. intros b. apply Himp.
Qed.

Lemma total_rows_of_known data l :
  (forall item, In item l -> In (fst item) (keys (members data))) ->
  exists rows,
    total_rows_of data l = Ok rows /\ Forall2 (is_total_row data) l rows.
Proof.
  induction l as [|[member_id points] r IH]; intros Hall.
  - exists []. split; [reflexivity | constructor].
  - destruct IH as (rows & Hrows & Hrel).
    { intros item Hitem. apply Hall. now right. }
    pose proof (Hall (member_id, points) (or_introl eq_refl)) as Hin.
    cbn [total_rows_of fst]. unfold dict_index.
    destruct (dict_get member_id (members data)) as [m|] eqn:Em.
    + cbn. rewrite Hrows. cbn. eexists. split; [reflexivity|].
      constructor; [|exact Hrel]. exists m. split; [exact Em | reflexivity].
    + exfalso. cbn in Hin. apply dict_get_In in Hin. contradiction.
Qed.

(** C5.  In a parsed snapshot the total of a member is the sum, over
    the days 1..last_day, of the points of its rank on the days whose
    mapping holds it; a day without the member adds nothing; a member is
    listed exactly when some day 1..last_day holds it; and
    [display_total] prints one table, headed Name and Total Points,
    whose rows are the listed members, each with its name and its total,
    in descending order of total. *)
Theorem total_points_sum_of_day_points (d : Json.Payload) (data : AOCData)
  (member_id : string) :
  parse_data d = Ok data ->
  let days := Py.range1 (last_day data) in
  (forall day, In day days <-> 1 <= day <= last_day data) /\
  dict_get_default 0 member_id (total_points data)
  = sum_list (map (day_points data member_id) days) /\
  (forall day,
     ~ In member_id (keys (reporting data day)) ->
     day_points data member_id day = 0) /\
  (In member_id (keys (total_points data)) <->
   exists day, In day days /\ In member_id (keys (reporting data day))) /\
  (forall points,
     In (member_id, points) (id_points_ordered data) ->
     points = sum_list (map (day_points data member_id) days)) /\
  Permutation (total_points data) (id_points_ordered data) /\
  StronglySorted (fun a b => snd a >= snd b) (id_points_ordered data) /\
  exists rows,
    total_rows_of data (id_points_ordered data) = Ok rows /\
    Forall2 (is_total_row data) (id_points_ordered data) rows /\
    forall console,
      display_total data console
      = (console ++ [Table total_header rows []], Ok tt).
Proof.
  intros Hparse. cbn zeta.
  assert (Hranked : forall day, NoDup (keys (ranked_days_dt data (Py.str day)))).
  { intros day. now destruct (ranked_within d data (Py.str day) Hparse). }
  assert (Hnil : NoDup (keys (@nil (string * Z)))) by constructor.
  pose proof (fun k => add_days_points data k (Py.range1 (last_day data))
                         Hranked [] Hnil) as Hall.
  cbn zeta in Hall. fold (total_points data) in Hall.
  destruct (Hall member_id) as (Hsum & Hnd & Hkeys).
  assert (Hperm : Permutation (total_points data) (id_points_ordered data))
    by apply sorted_perm.
  split; [intros day; apply range1_In|].
  split; [rewrite Hsum; cbn; lia|].
  split.
  { intros day Hnot. unfold day_points. rewrite rank_of_absent; [reflexivity|].
    intros H. apply Hnot.
    eapply Permutation_in; [|exact H].
    apply Permutation_sym, Permutation_map, sorted_perm. }
  split.
  { rewrite Hkeys. cbn. tauto. }
  split.
  { intros points Hin.
    apply (Permutation_in _ (Permutation_sym Hperm)) in Hin.
    apply (dict_get_NoDup_In _ _ _ Hnd) in Hin.
    unfold dict_get_default in Hsum. rewrite Hin in Hsum.
    rewrite Hsum. cbn. lia. }
  split; [exact Hperm|].
  split.
  { eapply StronglySorted_weaken; [|apply sorted_sorted].
    unfold key_le. intros a b. lia. }
  destruct (total_rows_of_known data (id_points_ordered data))
    as (rows & Hrows & Hrel).
  { intros [k points] Hin. cbn [fst].
    apply (Permutation_in _ (Permutation_sym Hperm)) in Hin.
    apply (in_map fst) in Hin. cbn [fst] in Hin.
    destruct (Hall k) as (_ & _ & Hk).
    apply Hk in Hin as [[]|(day & _ & Hday)].
    destruct (reporting_within d data (Py.str day) Hparse) as [_ Hincl].
    now apply Hincl. }
  exists rows. split; [exact Hrows|]. split; [exact Hrel|].
  intros console. unfold display_total. now rewrite Hrows.
Qed.

Lemma total_points_sum_of_day_points_witness :
  parse_data sample = Ok sample_data /\
  let days := Py.range1 (last_day sample_data) in
  (forall day, In day days <-> 1 <= day <= last_day sample_data) /\
  dict_get_default 0 "A" (total_points sample_data)
  = sum_list (map (day_points sample_data "A") days) /\
  (forall day,
     ~ In "A" (keys (reporting sample_data day)) ->
     day_points sample_data "A" day = 0) /\
  (In "A" (keys (total_points sample_data)) <->
   exists day, In day days /\ In "A" (keys (reporting sample_data day))) /\
  (forall points,
     In ("A", points) (id_points_ordered sample_data) ->
     points = sum_list (map (day_points sample_data "A") days)) /\
  Permutation (total_points sample_data) (id_points_ordered sample_data) /\
  StronglySorted (fun a b => snd a >= snd b) (id_points_ordered sample_data) /\
  exists rows,
    total_rows_of sample_data (id_points_ordered sample_data) = Ok rows /\
    Forall2 (is_total_row sample_data) (id_points_ordered sample_data) rows /\
    forall console,
      display_total sample_data console
      = (console ++ [Table total_header rows []], Ok tt).
Proof.
  split; [reflexivity|].
  apply (total_points_sum_of_day_points sample sample_data "A"). reflexivity.
Defined.

(** ** The ranking view needs a completed day *)

Lemma member_loop_idle ms :
  forallb
    (fun item =>
       match Json.completion_day_level (snd item) with
       | [] => true
       | _ :: _ => false
       end) ms = true ->
  forall st,
    exists st',
      for_each member_body ms st = Ok st' /\
      ml_last_day st' = ml_last_day st /\
      ml_days_dt st' = ml_days_dt st.
Proof.
  induction ms as [|[member_id member_data] r IH]; intros Hidle st.
  - exists st. auto.
  - cbn [forallb snd] in Hidle. apply andb_true_iff in Hidle as [Hnil Hr].
    destruct (Json.completion_day_level member_data) as [|x l] eqn:E;
      [|discriminate].
    cbn [for_each]. unfold member_body at 1. rewrite E. cbn.
    destruct (IH Hr {| ml_last_day := ml_last_day st;
                       ml_members :=
                         dict_set member_id
                           {| id := member_id;
                              name := Json.name member_data;
                              score := Json.local_score member_data;
                              stars := Json.stars member_data;
                              days := [];
                              sum_dt := Some 0;
                              avg_dt := Some minus_one |}
                           (ml_members st);
                       ml_days_dt := ml_days_dt st |})
      as (st' & Hrun & Hlast & Hddt).
    exists st'. auto.
Qed.

Lemma day_loop_not_empty member_id cdl :
  forall st st',
    for_each (day_body member_id) cdl st = Ok st' ->
    dl_days_dt st <> [] \/ cdl <> [] ->
    dl_days_dt st' <> [].
Proof.
  induction cdl as [|[day day_data] r IH]; intros st st' Hrun Hne.
  - injection Hrun as <-. destruct Hne as [H|H]; [exact H | contradiction].
  - cbn [for_each] in Hrun.
    destruct (day_body member_id st (day, day_data)) as [s1|e] eqn:E;
      cbn in Hrun; [|discriminate].
    apply day_body_Ok in E as (n & _ & _ & _ & _ & _ & Hddt).
    apply (IH s1 st' Hrun). left. rewrite Hddt. apply dict_set_not_nil.
Qed.

Lemma member_loop_not_empty ms :
  forall st st',
    for_each member_body ms st = Ok st' ->
    ml_days_dt st <> [] \/
    forallb
      (fun item =>
         match Json.completion_day_level (snd item) with
         | [] => true
         | _ :: _ => false
         end) ms = false ->
    ml_days_dt st' <> [].
Proof.
  induction ms as [|[member_id member_data] r IH]; intros st st' Hrun Hne.
  - injection Hrun as <-. destruct Hne as [H|H]; [exact H | discriminate].
  - cbn [for_each] in Hrun.
    destruct (member_body st (member_id, member_data)) as [s1|e] eqn:E;
      cbn in Hrun; [|discriminate].
    apply member_body_Ok in E as (dl & avg & Hloop & _ & _ & Hddt & _).
    apply (IH s1 st' Hrun).
    cbn [forallb snd] in Hne.
    destruct Hne as [H|H].
    + left. rewrite Hddt.
      apply (day_loop_not_empty _ _ _ _ Hloop). now left.
    + destruct (Json.completion_day_level member_data) as [|x l] eqn:Ec.
      * right. exact H.
      * left. rewrite Hddt.
        apply (day_loop_not_empty _ _ _ _ Hloop). right. discriminate.
Qed.

Lemma int_keys_Ok ks :
  Forall (fun k => Py.int k <> None) ks ->
  forall acc,
    exists ns,
      for_each (fun acc k => do n <- int_or_raise k; Ok (acc ++ [n])) ks acc
      = Ok (acc ++ ns) /\
      List.length ns = List.length ks.
Proof.
  induction 1 as [|k r Hk _ IH]; intros acc.
  - exists []. cbn. now rewrite app_nil_r.
  - cbn [for_each]. unfold int_or_raise at 1.
    destruct (Py.int k) as [n|]; [|contradiction]. cbn [bind].
    destruct (IH (acc ++ [n])) as (ns & Hrun & Hlen).
    exists (n :: ns). rewrite Hrun, <- app_assoc. cbn. auto.
Qed.

Lemma ranking_days_Ok d data :
  parse_data d = Ok data ->
  forall l console,
    exists console', ranking_days data l console = (console', Ok tt).
Proof.
  intros Hparse l. induction l as [|day r IH]; intros console.
  - exists console. reflexivity.
  - cbn [ranking_days].
    destruct (ranked_rows d data (Py.str day) Hparse) as (rows & Hrows & _).
    unfold ranking_rows. rewrite Hrows. apply IH.
Qed.

(** C10.  For a parsed snapshot: when no member has a completed day,
    [last_day] is 1, the per-day mapping is empty and [display_ranking]
    raises [ValueError] from [max] before it prints anything; when some
    member has a completed day, [display_ranking] returns.  A payload
    without completed days does parse. *)
Theorem display_ranking_needs_completed_day (d : Json.Payload)
  (data : AOCData) (console : list Out) :
  parse_data d = Ok data ->
  (no_completions d = true ->
   last_day data = 1 /\
   days_dt data = [] /\
   display_ranking data console = (console, Raise ValueError)) /\
  (no_completions d = false ->
   days_dt data <> [] /\
   exists console', display_ranking data console = (console', Ok tt)) /\
  (forall d', no_completions d' = true -> exists data', parse_data d' = Ok data').
Proof.
  intros Hparse. split; [|split].
  - intros Hidle.
    destruct (member_loop_idle _ Hidle
                {| ml_last_day := 1; ml_members := []; ml_days_dt := [] |})
      as (st & Hrun & Hlast & Hddt).
    unfold parse_data in Hparse. rewrite Hrun in Hparse. cbn in Hparse.
    injection Hparse as <-. cbn [last_day days_dt].
    repeat split; try assumption.
    unfold display_ranking, max_day_key. cbn [days_dt]. rewrite Hddt.
    reflexivity.
  - intros Hbusy.
    destruct (parse_data_inv d data Hparse) as (_ & _ & Hkeys).
    pose proof Hparse as Hp.
    apply parse_data_Ok in Hp as (st & Hrun & _ & _ & Hddt & _).
    assert (Hne : days_dt data <> []).
    { rewrite Hddt. apply (member_loop_not_empty _ _ _ Hrun). now right. }
    split; [exact Hne|].
    unfold display_ranking, max_day_key.
    destruct (int_keys_Ok _ Hkeys []) as (ns & Hns & Hlen).
    rewrite Hns. cbn [app bind].
    destruct ns as [|n ns].
    + exfalso. destruct (days_dt data); [now apply Hne | discriminate].
    + cbn [Py.max]. apply (ranking_days_Ok d data Hparse).
  - intros d' Hidle.
    destruct (member_loop_idle _ Hidle
                {| ml_last_day := 1; ml_members := []; ml_days_dt := [] |})
      as (st & Hrun & _ & _).
    unfold parse_data. rewrite Hrun. cbn. eexists. reflexivity.
Qed.

Lemma display_ranking_needs_completed_day_witness :
  parse_data sample_idle = Ok sample_idle_data /\
  (no_completions sample_idle = true ->
   last_day sample_idle_data = 1 /\
   days_dt sample_idle_data = [] /\
   display_ranking sample_idle_data [] = ([], Raise ValueError)) /\
  (no_completions sample_idle = false ->
   days_dt sample_idle_data <> [] /\
   exists console', display_ranking sample_idle_data [] = (console', Ok tt)) /\
  (forall d', no_completions d' = true -> exists data', parse_data d' = Ok data').
Proof.
  split; [reflexivity|].
  apply (display_ranking_needs_completed_day sample_idle sample_idle_data []).
  reflexivity.
Defined.

(** * Further properties *)

(** ** When the parser raises *)

Lemma day_body_Raise_key member_id st day day_data e :
  day_body member_id st (day, day_data) = Raise e -> Py.int day = None.
Proof.
  unfold day_body, int_or_raise.
  destruct (Py.int day); cbn; [|reflexivity].
  destruct (Json.star_2 day_data); discriminate.
Qed.

Lemma day_loop_outcome member_id cdl :
  forall st,
    match for_each (day_body member_id) cdl st with
    | Ok _ => bad_days cdl = false
    | Raise e => e = ValueError /\ bad_days cdl = true
    end.
Proof.
  induction cdl as [|[day day_data] r IH]; intros st; [reflexivity|].
  cbn [for_each bad_days existsb fst].
  destruct (day_body member_id st (day, day_data)) as [s1|e] eqn:E; cbn [bind].
  - apply day_body_Ok in E as (n & -> & _). cbn [orb]. apply IH.
  - pose proof (day_body_Raise _ _ _ _ E) as ->.
    apply day_body_Raise_key in E. rewrite E. auto.
Qed.

Lemma member_body_outcome st member_id member_data :
  match member_body st (member_id, member_data) with
  | Ok _ =>
      bad_days (Json.completion_day_level member_data) = false /\
      average_overflows member_data = false
  | Raise e =>
      (e = ValueError /\
       bad_days (Json.completion_day_level member_data) = true) \/
      (e = OverflowError /\
       bad_days (Json.completion_day_level member_data) = false /\
       average_overflows member_data = true)
  end.
Proof.
  unfold member_body.
  pose proof (day_loop_outcome member_id
                (Json.completion_day_level member_data)
                {| dl_last_day := ml_last_day st; dl_sum_dt := 0;
                   dl_count := 0; dl_days := [];
                   dl_days_dt := ml_days_dt st |}) as Hdays.
  destruct (for_each (day_body member_id) _ _) as [dl|e] eqn:E; cbn [bind].
  2:{ left. exact Hdays. }
  destruct (day_loop_sum _ _ _ _ E) as [Hsum Hcount].
  cbn [dl_sum_dt dl_count Z.add] in Hsum, Hcount.
  rewrite Hsum, Hcount. unfold average_overflows, truediv.
  destruct (both_star_deltas (Json.completion_day_level member_data))
    as [|x r] eqn:Ed.
  - cbn. auto.
  - destruct (Z.eqb_spec (Z.of_nat (List.length (x :: r))) 0) as [E0|_];
      [cbn [List.length] in E0; lia|].
    destruct (float_quotient _ _); cbn; auto.
Qed.

Lemma member_loop_outcome ms :
  forall st,
    match for_each member_body ms st with
    | Ok _ =>
        existsb (fun item => bad_days (Json.completion_day_level (snd item)))
          ms = false /\
        existsb (fun item => average_overflows (snd item)) ms = false
    | Raise e =>
        (e = ValueError /\
         existsb (fun item => bad_days (Json.completion_day_level (snd item)))
           ms = true) \/
        (e = OverflowError /\
         existsb (fun item => average_overflows (snd item)) ms = true)
    end.
Proof.
  induction ms as [|[member_id member_data] r IH]; intros st; [cbn; auto|].
  cbn [for_each existsb snd].
  pose proof (member_body_outcome st member_id member_data) as Hm.
  destruct (member_body st (member_id, member_data)) as [s1|e]; cbn [bind].
  - destruct Hm as [-> ->]. cbn [orb]. apply IH.
  - destruct Hm as [[-> ->]|(-> & _ & ->)]; cbn [orb]; auto.
Qed.

Lemma parse_data_outcome d :
  match parse_data d with
  | Ok _ => bad_day_key d = false /\ average_overflow d = false
  | Raise e =>
      (e = ValueError /\ bad_day_key d = true) \/
      (e = OverflowError /\ average_overflow d = true)
  end.
Proof.
  unfold parse_data.
  pose proof (member_loop_outcome (Json.members d)
                {| ml_last_day := 1; ml_members := []; ml_days_dt := [] |})
    as H.
  destruct (for_each member_body _ _) as [st|e]; cbn [bind]; exact H.
Qed.

(** A delta time of 10^400 seconds is too much for the average, and a
    day written in Arabic-Indic digits is a day. *)
Example parse_data_huge : parse_data sample_huge = Raise OverflowError.
Proof. vm_compute. reflexivity. Qed.

Example int_arabic_indic : Py.int "٣" = Some 3.
Proof. vm_compute. reflexivity. Qed.

Example int_file_separator : Py.int (String "028"%char "1") = None.
Proof. vm_compute. reflexivity. Qed.

Example float_quotient_third :
  float_quotient 301 3 = S754_finite false 7060330665825621 (-46).
Proof. vm_compute. reflexivity. Qed.

(** X1.  [parse_data] returns a snapshot exactly when every day key is
    an integer literal and no member's average is too large for a
    float.  It raises nothing but [ValueError], which needs a day key
    that is no integer literal, and [OverflowError], which needs an
    average too large for a float; when only one of the two defects is
    in the payload, that one is raised. *)
Theorem parse_data_outcomes (d : Json.Payload) :
  ((exists data, parse_data d = Ok data) <->
   bad_day_key d = false /\ average_overflow d = false) /\
  (forall e,
     parse_data d = Raise e ->
     (e = ValueError /\ bad_day_key d = true) \/
     (e = OverflowError /\ average_overflow d = true)) /\
  (average_overflow d = false ->
   (parse_data d = Raise ValueError <-> bad_day_key d = true)) /\
  (bad_day_key d = false ->
   (parse_data d = Raise OverflowError <-> average_overflow d = true)).
Proof.
  pose proof (parse_data_outcome d) as H.
  destruct (parse_data d) as [data|e].
  - destruct H as [Hb Ho]. rewrite Hb, Ho.
    repeat split; try discriminate; try congruence.
    intros _. now exists data.
  - split; [|split; [|split]].
    + split; [intros (data & E); discriminate|].
      intros [Hb Ho]. destruct H as [[_ H]|[_ H]]; congruence.
    + intros e' [= <-]. exact H.
    + intros Ho. destruct H as [[-> Hb]|[_ H]]; [|congruence].
      now split.
    + intros Hb. destruct H as [[_ H]|[-> Ho]]; [congruence|].
      now split.
Qed.

(** ** The highest day *)

Lemma day_loop_last_day member_id cdl :
  forall st st',
    for_each (day_body member_id) cdl st = Ok st' ->
    dl_last_day st'
    = fold_left Z.max (member_day_numbers cdl) (dl_last_day st).
Proof.
  induction cdl as [|[day day_data] r IH]; intros st st' Hrun.
  - now injection Hrun as <-.
  - cbn [for_each] in Hrun.
    destruct (day_body member_id st (day, day_data)) as [s1|e] eqn:E;
      cbn in Hrun; [|discriminate].
    apply day_body_Ok in E as (n & Hn & Hlast & _).
    rewrite (IH s1 st' Hrun), Hlast.
    unfold member_day_numbers. cbn [flat_map fst]. rewrite Hn. reflexivity.
Qed.

Lemma member_loop_last_day ms :
  forall st st',
    for_each member_body ms st = Ok st' ->
    ml_last_day st'
    = fold_left Z.max
        (flat_map
           (fun item =>
              member_day_numbers (Json.completion_day_level (snd item)))
           ms)
        (ml_last_day st).
Proof.
  induction ms as [|[member_id member_data] r IH]; intros st st' Hrun.
  - now injection Hrun as <-.
  - cbn [for_each] in Hrun.
    destruct (member_body st (member_id, member_data)) as [s1|e] eqn:E;
      cbn in Hrun; [|discriminate].
    apply member_body_Ok in E as (dl & _ & Hdays & _ & Hlast & _).
    rewrite (IH s1 st' Hrun), Hlast, (day_loop_last_day _ _ _ _ Hdays).
    cbn [flat_map snd]. now rewrite fold_left_app.
Qed.

Lemma fold_max_bounds (l : list Z) :
  forall a,
    a <= fold_left Z.max l a /\
    (forall n, In n l -> n <= fold_left Z.max l a) /\
    (fold_left Z.max l a = a \/ In (fold_left Z.max l a) l).
Proof.
  induction l as [|x r IH]; intros a; cbn.
  - repeat split; [lia | tauto | now left].
  - destruct (IH (Z.max a x)) as (H1 & H2 & H3).
    repeat split.
    + lia.
    + intros n [<-|Hn]; [lia | now apply H2].
    + destruct H3 as [H3|H3]; [|now right; right].
      rewrite H3. destruct (Z.max_spec a x) as [[_ ->]|[_ ->]];
        [right; now left | now left].
Qed.

(** X2.  The [last_day] of a parsed snapshot is the largest of 1 and
    the day numbers of the payload: it is at least 1, at least every
    day number, and it is 1 or one of the day numbers. *)
Theorem last_day_is_max_day_number (d : Json.Payload) (data : AOCData) :
  parse_data d = Ok data ->
  last_day data = fold_left Z.max (day_numbers d) 1 /\
  1 <= last_day data /\
  (forall n, In n (day_numbers d) -> n <= last_day data) /\
  (last_day data = 1 \/ In (last_day data) (day_numbers d)).
Proof.
  intros Hparse.
  apply parse_data_Ok in Hparse as (st & Hloop & _ & _ & _ & ->).
  rewrite (member_loop_last_day _ _ _ Hloop). cbn [ml_last_day].
  fold (day_numbers d).
  split; [reflexivity | apply fold_max_bounds].
Qed.

Lemma last_day_is_max_day_number_witness :
  parse_data sample = Ok sample_data /\
  last_day sample_data = fold_left Z.max (day_numbers sample) 1 /\
  1 <= last_day sample_data /\
  (forall n, In n (day_numbers sample) -> n <= last_day sample_data) /\
  (last_day sample_data = 1 \/ In (last_day sample_data) (day_numbers sample)).
Proof.
  split; [reflexivity|].
  apply (last_day_is_max_day_number sample sample_data). reflexivity.
Defined.

(** ** The snapshot mirrors the payload *)

Lemma dict_set_new {V : Type} (k : string) (v : V) (d : dict V) :
  ~ In k (keys d) -> dict_set k v d = d ++ [(k, v)].
Proof.
  induction d as [|[k' v'] r IH]; intros Hnot; [reflexivity|].
  cbn. destruct (String.eqb_spec k k') as [->|Hne].
  - exfalso. apply Hnot. now left.
  - f_equal. apply IH. intros H. apply Hnot. now right.
Qed.

Lemma keys_app {V : Type} (d d' : dict V) : keys (d ++ d') = keys d ++ keys d'.
Proof. apply map_app. Qed.

Lemma member_loop_keys ms :
  forall st st',
    for_each member_body ms st = Ok st' ->
    NoDup (keys ms) ->
    (forall k, In k (keys ms) -> ~ In k (keys (ml_members st))) ->
    keys (ml_members st') = keys (ml_members st) ++ keys ms.
Proof.
  induction ms as [|[member_id member_data] r IH]; intros st st' Hrun Hnd Hnew.
  - injection Hrun as <-. cbn. now rewrite app_nil_r.
  - cbn [for_each] in Hrun.
    destruct (member_body st (member_id, member_data)) as [s1|e] eqn:E;
      cbn in Hrun; [|discriminate].
    apply member_body_Ok in E as (dl & avg & _ & _ & _ & _ & Hmem).
    cbn in Hnd. inversion_clear Hnd as [|? ? Hnot Hr].
    assert (Hfresh : ~ In member_id (keys (ml_members st)))
      by (apply Hnew; now left).
    rewrite (IH s1 st' Hrun Hr).
    + rewrite Hmem, (dict_set_new _ _ _ Hfresh), keys_app. cbn.
      now rewrite <- app_assoc.
    + intros k Hk Hin. rewrite Hmem in Hin.
      apply keys_set_In in Hin as [->|Hin]; [contradiction|].
      apply (Hnew k); [now right | exact Hin].
Qed.

(** X3.  With distinct member ids, the snapshot lists the members of
    the payload in payload order, also those without a completed day,
    each under its id with its name, local score and star count. *)
Theorem members_mirror_payload (d : Json.Payload) (data : AOCData) :
  parse_data d = Ok data ->
  unique_keys (Json.members d) = true ->
  keys (members data) = keys (Json.members d) /\
  len_members data = Z.of_nat (List.length (Json.members d)) /\
  forall member_id member_data,
    In (member_id, member_data) (Json.members d) ->
    exists m,
      dict_get member_id (members data) = Some m /\
      id m = member_id /\
      name m = Json.name member_data /\
      score m = Json.local_score member_data /\
      stars m = Json.stars member_data.
Proof.
  intros Hparse Huniq. apply unique_keys_NoDup in Huniq.
  assert (Hkeys : keys (members data) = keys (Json.members d)).
  { pose proof Hparse as Hp.
    apply parse_data_Ok in Hp as (st & Hloop & _ & -> & _).
    rewrite (member_loop_keys _ _ _ Hloop Huniq); [reflexivity|].
    intros k _ []. }
  split; [exact Hkeys|]. split.
  - unfold len_members. f_equal.
    apply (f_equal (@List.length string)) in Hkeys.
    unfold keys in Hkeys. now rewrite !length_map in Hkeys.
  - intros member_id member_data Hin.
    destruct (parse_data_member d data _ _ Hparse Huniq Hin)
      as (st0 & dl & _ & _ & _ & _ & Hget & _).
    eexists. split; [exact Hget|]. cbn. auto.
Qed.

Lemma members_mirror_payload_witness :
  parse_data sample_idle = Ok sample_idle_data /\
  unique_keys (Json.members sample_idle) = true /\
  keys (members sample_idle_data) = keys (Json.members sample_idle) /\
  len_members sample_idle_data
  = Z.of_nat (List.length (Json.members sample_idle)) /\
  forall member_id member_data,
    In (member_id, member_data) (Json.members sample_idle) ->
    exists m,
      dict_get member_id (members sample_idle_data) = Some m /\
      id m = member_id /\
      name m = Json.name member_data /\
      score m = Json.local_score member_data /\
      stars m = Json.stars member_data.
Proof.
  split; [reflexivity|]. split; [reflexivity|].
  apply (members_mirror_payload sample_idle sample_idle_data); reflexivity.
Defined.

Lemma day_loop_days member_id cdl :
  forall st st',
    for_each (day_body member_id) cdl st = Ok st' ->
    NoDup (keys cdl) ->
    (forall k, In k (keys cdl) -> ~ In k (keys (dl_days st))) ->
    dl_days st'
    = dl_days st ++ map (fun item => (fst item, day_record (snd item))) cdl.
Proof.
  induction cdl as [|[day day_data] r IH]; intros st st' Hrun Hnd Hnew.
  - injection Hrun as <-. cbn. now rewrite app_nil_r.
  - cbn [for_each] in Hrun.
    destruct (day_body member_id st (day, day_data)) as [s1|e] eqn:E;
      cbn in Hrun; [|discriminate].
    apply day_body_Ok in E as (n & _ & _ & _ & _ & Hdays & _).
    cbn in Hnd. inversion_clear Hnd as [|? ? Hnot Hr].
    assert (Hfresh : ~ In day (keys (dl_days st))) by (apply Hnew; now left).
    rewrite (IH s1 st' Hrun Hr).
    + rewrite Hdays, (dict_set_new _ _ _ Hfresh). cbn.
      now rewrite <- app_assoc.
    + intros k Hk Hin. rewrite Hdays in Hin.
      apply keys_set_In in Hin as [->|Hin]; [contradiction|].
      apply (Hnew k); [now right | exact Hin].
Qed.

(** X4.  With distinct keys, [member.days] holds one record per day of
    the member's completion data, in the order of the payload: the delta
    time, the first timestamp and the second star (timestamp 0 when it
    is missing). *)
Theorem member_days_mirror_completion (d : Json.Payload) (data : AOCData)
  (member_id : string) (member_data : Json.MemberData) :
  parse_data d = Ok data ->
  unique_keys (Json.members d) = true ->
  In (member_id, member_data) (Json.members d) ->
  unique_keys (Json.completion_day_level member_data) = true ->
  exists m,
    dict_get member_id (members data) = Some m /\
    days m
    = map (fun item => (fst item, day_record (snd item)))
        (Json.completion_day_level member_data).
Proof.
  intros Hparse Huniq Hin Hdays.
  apply unique_keys_NoDup in Huniq. apply unique_keys_NoDup in Hdays.
  destruct (parse_data_member d data _ _ Hparse Huniq Hin)
    as (st0 & dl & _ & _ & Hnil & Hloop & Hget & _).
  eexists. split; [exact Hget|]. cbn [days].
  rewrite (day_loop_days _ _ _ _ Hloop Hdays).
  - now rewrite Hnil.
  - rewrite Hnil. intros k _ [].
Qed.

Lemma member_days_mirror_completion_witness :
  parse_data sample = Ok sample_data /\
  exists m,
    dict_get "A" (members sample_data) = Some m /\
    days m
    = map (fun item => (fst item, day_record (snd item)))
        [("1", mk_day 1000 (Some 1100)); ("3", mk_day 50 None)].
Proof.
  split; [reflexivity|].
  apply (member_days_mirror_completion sample sample_data "A"
           (mk_member "Alice" [("1", mk_day 1000 (Some 1100));
                               ("3", mk_day 50 None)]));
    [reflexivity | reflexivity | now left | reflexivity].
Defined.

(** ** The per-day mapping follows the payload *)

Lemma day_loop_items member_id day cdl :
  forall st st',
    for_each (day_body member_id) cdl st = Ok st' ->
    NoDup (keys cdl) ->
    ~ In member_id (keys (day_items day (dl_days_dt st))) ->
    day_items day (dl_days_dt st')
    = day_items day (dl_days_dt st)
      ++ match dict_get day cdl with
         | Some day_data => [(member_id, delta_of day_data)]
         | None => []
         end.
Proof.
  induction cdl as [|[day0 x] r IH]; intros st st' Hrun Hnd Hfresh.
  - injection Hrun as <-. cbn. now rewrite app_nil_r.
  - cbn [for_each] in Hrun.
    destruct (day_body member_id st (day0, x)) as [s1|e] eqn:E;
      cbn in Hrun; [|discriminate].
    apply day_body_Ok in E as (n & _ & _ & _ & _ & _ & Hddt).
    cbn in Hnd. inversion_clear Hnd as [|? ? Hnot Hr].
    cbn [dict_get].
    destruct (String.eqb_spec day day0) as [->|Hne].
    + destruct (day_loop_other_days member_id day0 r Hnot s1 st' Hrun)
        as [_ Hsame].
      rewrite (day_items_ext _ _ _ Hsame), Hddt, day_items_set_eq.
      now apply dict_set_new.
    + assert (Hs1 : day_items day (dl_days_dt s1)
                    = day_items day (dl_days_dt st))
        by (rewrite Hddt; now apply day_items_set_neq).
      rewrite (IH s1 st' Hrun Hr); rewrite Hs1; [reflexivity | exact Hfresh].
Qed.

Lemma member_loop_items day ms :
  forall st st',
    for_each member_body ms st = Ok st' ->
    NoDup (keys ms) ->
    Forall (fun item => NoDup (keys (Json.completion_day_level (snd item)))) ms ->
    (forall k, In k (keys ms) ->
               ~ In k (keys (day_items day (ml_days_dt st)))) ->
    day_items day (ml_days_dt st')
    = day_items day (ml_days_dt st) ++ members_on_day day ms.
Proof.
  induction ms as [|[member_id member_data] r IH];
    intros st st' Hrun Hnd Hdays Hnew.
  - injection Hrun as <-. cbn. now rewrite app_nil_r.
  - cbn [for_each] in Hrun.
    destruct (member_body st (member_id, member_data)) as [s1|e] eqn:E;
      cbn in Hrun; [|discriminate].
    apply member_body_Ok in E as (dl & avg & Hloop & _ & _ & Hddt & _).
    cbn in Hnd. inversion_clear Hnd as [|? ? Hnot Hr].
    inversion_clear Hdays as [|? ? Hd Hds]. cbn [snd] in Hd.
    assert (Hs1 : day_items day (ml_days_dt s1)
                  = day_items day (ml_days_dt st)
                    ++ match dict_get day
                               (Json.completion_day_level member_data) with
                       | Some day_data => [(member_id, delta_of day_data)]
                       | None => []
                       end).
    { rewrite Hddt. apply (day_loop_items _ _ _ _ _ Hloop Hd).
      cbn. apply Hnew. now left. }
    rewrite (IH s1 st' Hrun Hr Hds).
    + rewrite Hs1. cbn [members_on_day flat_map fst snd].
      now rewrite <- app_assoc.
    + intros k Hk Hin. rewrite Hs1, keys_app in Hin.
      apply in_app_or in Hin as [Hin|Hin].
      * apply (Hnew k); [now right | exact Hin].
      * destruct (dict_get day _); cbn in Hin; [|exact Hin].
        destruct Hin as [<-|[]]. contradiction.
Qed.

Lemma payload_keys_unique_NoDup d :
  payload_keys_unique d = true ->
  NoDup (keys (Json.members d)) /\
  Forall (fun item => NoDup (keys (Json.completion_day_level (snd item))))
    (Json.members d).
Proof.
  unfold payload_keys_unique. rewrite andb_true_iff, forallb_forall.
  intros [H1 H2]. split; [now apply unique_keys_NoDup|].
  apply Forall_forall. intros item Hin. apply unique_keys_NoDup. now apply H2.
Qed.

(** X5.  With distinct keys in the payload, the mapping of a day holds
    exactly the members whose completion data has that day, each with
    its delta time, in payload order; so the ranking of the day is the
    stable sort of those members in payload order. *)
Theorem day_mapping_in_payload_order (d : Json.Payload) (data : AOCData)
  (day : string) :
  parse_data d = Ok data ->
  payload_keys_unique d = true ->
  day_items day (days_dt data) = members_on_day day (Json.members d) /\
  ranked_days_dt data day
  = Py.sorted snd (members_on_day day (Json.members d)).
Proof.
  intros Hparse Huniq.
  destruct (payload_keys_unique_NoDup d Huniq) as [Hnd Hdays].
  apply parse_data_Ok in Hparse as (st & Hloop & _ & _ & Hddt & _).
  assert (H : day_items day (days_dt data)
              = members_on_day day (Json.members d)).
  { rewrite Hddt, (member_loop_items day _ _ _ Hloop Hnd Hdays).
    - reflexivity.
    - intros k _ []. }
  split; [exact H|]. unfold ranked_days_dt. now rewrite H.
Qed.

Lemma day_mapping_in_payload_order_witness :
  parse_data sample = Ok sample_data /\
  payload_keys_unique sample = true /\
  day_items "1" (days_dt sample_data)
  = members_on_day "1" (Json.members sample) /\
  ranked_days_dt sample_data "1"
  = Py.sorted snd (members_on_day "1" (Json.members sample)).
Proof.
  split; [reflexivity|]. split; [reflexivity|].
  apply (day_mapping_in_payload_order sample sample_data "1"); reflexivity.
Defined.

Lemma day_loop_day_keys member_id day cdl :
  forall st st',
    for_each (day_body member_id) cdl st = Ok st' ->
    (In day (keys (dl_days_dt st')) <->
     In day (keys (dl_days_dt st)) \/ In day (keys cdl)).
Proof.
  induction cdl as [|[day0 x] r IH]; intros st st' Hrun.
  - injection Hrun as <-. cbn. tauto.
  - cbn [for_each] in Hrun.
    destruct (day_body member_id st (day0, x)) as [s1|e] eqn:E;
      cbn in Hrun; [|discriminate].
    apply day_body_Ok in E as (n & _ & _ & _ & _ & _ & Hddt).
    rewrite (IH s1 st' Hrun), Hddt, keys_set_In. cbn. intuition.
Qed.

Lemma member_loop_day_keys day ms :
  forall st st',
    for_each member_body ms st = Ok st' ->
    (In day (keys (ml_days_dt st')) <->
     In day (keys (ml_days_dt st)) \/
     exists item,
       In item ms /\ In day (keys (Json.completion_day_level (snd item)))).
Proof.
  induction ms as [|[member_id member_data] r IH]; intros st st' Hrun.
  - injection Hrun as <-. cbn. split; [now left | intros [H|(x & [] & _)]; exact H].
  - cbn [for_each] in Hrun.
    destruct (member_body st (member_id, member_data)) as [s1|e] eqn:E;
      cbn in Hrun; [|discriminate].
    apply member_body_Ok in E as (dl & avg & Hloop & _ & _ & Hddt & _).
    rewrite (IH s1 st' Hrun), Hddt, (day_loop_day_keys _ day _ _ _ Hloop).
    cbn [dl_days_dt]. split.
    + intros [[H|H]|(x & Hx & H)]; [now left | |].
      * right. exists (member_id, member_data). split; [now left | exact H].
      * right. exists x. split; [now right | exact H].
    + intros [H|(x & [<-|Hx] & H)]; [tauto | tauto |].
      right. now exists x.
Qed.

(** X6.  The days of a parsed snapshot's per-day mapping are exactly
    the day keys that occur in some member's completion data. *)
Theorem days_dt_keys_are_payload_days (d : Json.Payload) (data : AOCData)
  (day : string) :
  parse_data d = Ok data ->
  (In day (keys (days_dt data)) <->
   exists member_id member_data,
     In (member_id, member_data) (Json.members d) /\
     In day (keys (Json.completion_day_level member_data))).
Proof.
  intros Hparse.
  apply parse_data_Ok in Hparse as (st & Hloop & _ & _ & -> & _).
  rewrite (member_loop_day_keys day _ _ _ Hloop). cbn. split.
  - intros [[]|([k x] & Hin & H)]. now exists k, x.
  - intros (k & x & Hin & H). right. now exists (k, x).
Qed.

Lemma days_dt_keys_are_payload_days_witness :
  parse_data sample = Ok sample_data /\
  (In "3" (keys (days_dt sample_data)) <->
   exists member_id member_data,
     In (member_id, member_data) (Json.members sample) /\
     In "3" (keys (Json.completion_day_level member_data))).
Proof.
  split; [reflexivity|].
  apply (days_dt_keys_are_payload_days sample sample_data "3"). reflexivity.
Defined.

(** ** Who gets more points *)

Lemma dict_get_In_item {V : Type} (k : string) (v : V) (d : dict V) :
  dict_get k d = Some v -> In (k, v) d.
Proof.
  induction d as [|[k' v'] r IH]; cbn; [discriminate|].
  destruct (String.eqb_spec k k') as [->|Hne].
  - intros [= ->]. now left.
  - intros H. right. now apply IH.
Qed.

Lemma rank_of_nth member_id ranked i :
  rank_of member_id ranked = Some i ->
  exists dt, nth_error ranked i = Some (member_id, dt).
Proof.
  revert i. induction ranked as [|[k dt] r IH]; intros i; cbn; [discriminate|].
  destruct (String.eqb_spec member_id k) as [->|Hne].
  - intros [= <-]. now exists dt.
  - destruct (rank_of member_id r) as [j|]; cbn; [|discriminate].
    intros [= <-]. exact (IH j eq_refl).
Qed.

Lemma rank_of_In member_id ranked :
  In member_id (keys ranked) -> exists i, rank_of member_id ranked = Some i.
Proof.
  induction ranked as [|[k dt] r IH]; intros Hin; [destruct Hin|].
  cbn. destruct (String.eqb_spec member_id k) as [->|Hne]; [now exists 0%nat|].
  destruct Hin as [E|Hin]; [cbn in E; congruence|].
  destruct (IH Hin) as [i ->]. now exists (S i).
Qed.

Lemma StronglySorted_nth {A : Type} (R : A -> A -> Prop) (l : list A) :
  StronglySorted R l ->
  forall i j x y,
    (i < j)%nat -> nth_error l i = Some x -> nth_error l j = Some y -> R x y.
Proof.
  induction 1 as [|a r Hr IH Ha]; intros i j x y Hij Hx Hy.
  - destruct i; discriminate.
  - destruct j as [|j]; [lia|]. cbn in Hy.
    destruct i as [|i]; cbn in Hx.
    + injection Hx as <-. apply nth_error_In in Hy.
      rewrite Forall_forall in Ha. now apply Ha.
    + apply (IH i j); [lia | exact Hx | exact Hy].
Qed.

(** The rank and the delta time of a member of a day's mapping. *)
Lemma reporting_rank d data day member_id dt :
  parse_data d = Ok data ->
  dict_get member_id (reporting data day) = Some dt ->
  exists i,
    rank_of member_id (ranked_days_dt data (Py.str day)) = Some i /\
    nth_error (ranked_days_dt data (Py.str day)) i = Some (member_id, dt).
Proof.
  intros Hparse Hget.
  destruct (ranked_within d data (Py.str day) Hparse) as (Hnd & _ & _).
  assert (Hin : In (member_id, dt) (ranked_days_dt data (Py.str day))).
  { apply dict_get_In_item in Hget.
    eapply Permutation_in; [apply sorted_perm | exact Hget]. }
  destruct (rank_of_In member_id (ranked_days_dt data (Py.str day)))
    as [i Hi].
  { apply (in_map fst) in Hin. exact Hin. }
  exists i. split; [exact Hi|].
  destruct (rank_of_nth _ _ _ Hi) as [dt' Hnth]. rewrite Hnth.
  pose proof (nth_error_In _ _ Hnth) as Hin'.
  apply (dict_get_NoDup_In _ _ _ Hnd) in Hin.
  apply (dict_get_NoDup_In _ _ _ Hnd) in Hin'. congruence.
Qed.

(** X7.  On a day of a parsed snapshot, a member with a strictly
    smaller delta time gets strictly more points, and two different
    members never get the same points: a tie in delta time is not a tie
    in points. *)
Theorem faster_member_gets_more_points (d : Json.Payload) (data : AOCData)
  (day : Z) (a b : string) (dt_a dt_b : Z) :
  parse_data d = Ok data ->
  dict_get a (reporting data day) = Some dt_a ->
  dict_get b (reporting data day) = Some dt_b ->
  (dt_a < dt_b -> day_points data b day < day_points data a day) /\
  (a <> b -> day_points data a day <> day_points data b day).
Proof.
  intros Hparse Ha Hb.
  destruct (reporting_rank d data day a dt_a Hparse Ha) as (i & Hi & Hnth_i).
  destruct (reporting_rank d data day b dt_b Hparse Hb) as (j & Hj & Hnth_j).
  unfold day_points. rewrite Hi, Hj.
  pose proof (sorted_sorted snd (day_items (Py.str day) (days_dt data)))
    as Hsorted.
  fold (ranked_days_dt data (Py.str day)) in Hsorted.
  split.
  - intros Hlt.
    assert (Hij : (i < j)%nat).
    { destruct (Nat.lt_trichotomy i j) as [H|[H|H]]; [exact H | |].
      - subst j. rewrite Hnth_i in Hnth_j. injection Hnth_j as _ E. lia.
      - pose proof (StronglySorted_nth _ _ Hsorted j i _ _ H Hnth_j Hnth_i)
          as Hle.
        unfold key_le in Hle. cbn in Hle. lia. }
    lia.
  - intros Hne Heq.
    assert (i = j) by lia. subst j.
    rewrite Hnth_i in Hnth_j. injection Hnth_j as E _. contradiction.
Qed.

Lemma faster_member_gets_more_points_witness :
  parse_data sample = Ok sample_data /\
  (100 < 200 -> day_points sample_data "B" 1 < day_points sample_data "A" 1) /\
  ("A" <> "B" -> day_points sample_data "A" 1 <> day_points sample_data "B" 1).
Proof.
  split; [reflexivity|].
  apply (faster_member_gets_more_points sample sample_data 1 "A" "B" 100 200);
    reflexivity.
Defined.

Lemma day_points_in_range d data day member_id :
  parse_data d = Ok data ->
  (In member_id (keys (reporting data day)) ->
   1 <= day_points data member_id day <= len_members data) /\
  (~ In member_id (keys (reporting data day)) ->
   day_points data member_id day = 0).
Proof.
  intros Hparse.
  destruct (ranked_within d data (Py.str day) Hparse) as (_ & _ & Hlen).
  assert (Hperm : Permutation (keys (reporting data day))
                    (keys (ranked_days_dt data (Py.str day))))
    by (apply Permutation_map, sorted_perm).
  unfold day_points. split.
  - intros Hin.
    destruct (rank_of_In member_id (ranked_days_dt data (Py.str day)))
      as [i Hi].
    { eapply Permutation_in; [exact Hperm | exact Hin]. }
    rewrite Hi. pose proof (rank_of_bound _ _ _ Hi). unfold len_members. lia.
  - intros Hnot. rewrite rank_of_absent; [reflexivity|].
    intros H. apply Hnot.
    eapply Permutation_in; [apply Permutation_sym, Hperm | exact H].
Qed.

(** X8.  On a day of a parsed snapshot with M members, a member of the
    day's mapping gets at least 1 and at most M points, and a member
    outside it gets 0. *)
Theorem day_points_range (d : Json.Payload) (data : AOCData) (day : Z)
  (member_id : string) :
  parse_data d = Ok data ->
  (In member_id (keys (reporting data day)) ->
   1 <= day_points data member_id day <= len_members data) /\
  (~ In member_id (keys (reporting data day)) ->
   day_points data member_id day = 0).
Proof. apply day_points_in_range. Qed.

Lemma day_points_range_witness :
  parse_data sample = Ok sample_data /\
  In "A" (keys (reporting sample_data 1)) /\
  1 <= day_points sample_data "A" 1 <= len_members sample_data /\
  ~ In "B" (keys (reporting sample_data 3)) /\
  day_points sample_data "B" 3 = 0.
Proof.
  assert (HA : In "A" (keys (reporting sample_data 1))) by (now left).
  assert (HB : ~ In "B" (keys (reporting sample_data 3))).
  { intros [H|[]]. discriminate H. }
  split; [reflexivity|]. split; [exact HA|].
  split; [exact (proj1 (day_points_range sample sample_data 1 "A" eq_refl) HA)|].
  split; [exact HB|].
  exact (proj2 (day_points_range sample sample_data 3 "B" eq_refl) HB).
Defined.

(** ** Bounds on the totals *)

Lemma sum_list_map_bounds {A : Type} (f : A -> Z) (hi : Z) (l : list A) :
  (forall x, In x l -> 0 <= f x <= hi) ->
  0 <= sum_list (map f l) <= hi * Z.of_nat (List.length l).
Proof.
  unfold sum_list. induction l as [|x r IH]; intros Hall; cbn [map fold_right List.length].
  - lia.
  - pose proof (Hall x (or_introl eq_refl)).
    specialize (IH (fun y Hy => Hall y (or_intror Hy))). lia.
Qed.

Lemma sum_list_map_pos {A : Type} (f : A -> Z) (l : list A) (x : A) :
  (forall y, In y l -> 0 <= f y) -> In x l -> f x <= sum_list (map f l).
Proof.
  unfold sum_list. induction l as [|y r IH]; intros Hall Hin; [destruct Hin|].
  cbn [map fold_right].
  pose proof (Hall y (or_introl eq_refl)).
  assert (Hr : 0 <= fold_right Z.add 0 (map f r)).
  { clear -Hall. induction r as [|z r IH]; cbn; [lia|].
    pose proof (Hall z (or_intror (or_introl eq_refl))).
    assert (0 <= fold_right Z.add 0 (map f r)); [|lia].
    apply IH. intros w [<-|Hw]; apply Hall; [now left | right; now right]. }
  destruct Hin as [<-|Hin]; [lia|].
  specialize (IH (fun z Hz => Hall z (or_intror Hz)) Hin). lia.
Qed.

(** X9.  In a parsed snapshot with M members the total of a member is
    between 0 and M times [last_day]; it is at least 1 for every member
    the standings list, and 0 for every other one. *)
Theorem total_points_bounds (d : Json.Payload) (data : AOCData)
  (member_id : string) :
  parse_data d = Ok data ->
  let total := dict_get_default 0 member_id (total_points data) in
  0 <= total <= len_members data * last_day data /\
  (In member_id (keys (total_points data)) -> 1 <= total) /\
  (~ In member_id (keys (total_points data)) -> total = 0).
Proof.
  intros Hparse. cbn zeta.
  assert (Hranked : forall day, NoDup (keys (ranked_days_dt data (Py.str day)))).
  { intros day. now destruct (ranked_within d data (Py.str day) Hparse). }
  assert (Hnil : NoDup (keys (@nil (string * Z)))) by constructor.
  destruct (add_days_points data member_id (Py.range1 (last_day data))
              Hranked [] Hnil) as (Hsum & _ & Hkeys).
  fold (total_points data) in Hsum, Hkeys. cbn in Hsum.
  assert (Hrange : forall day,
            0 <= day_points data member_id day <= len_members data).
  { intros day.
    destruct (day_points_in_range d data day member_id Hparse) as [Hin Hout].
    destruct (in_dec string_dec member_id (keys (reporting data day)))
      as [H|H]; [specialize (Hin H); lia|].
    rewrite (Hout H). unfold len_members. lia. }
  assert (Hlast : 1 <= last_day data).
  { pose proof Hparse as Hp.
    apply parse_data_Ok in Hp as (st & Hloop & _ & _ & _ & ->).
    rewrite (member_loop_last_day _ _ _ Hloop).
    exact (proj1 (fold_max_bounds _ _)). }
  split; [|split].
  - rewrite Hsum.
    pose proof (sum_list_map_bounds (day_points data member_id)
                  (len_members data) (Py.range1 (last_day data))
                  (fun day _ => Hrange day)) as Hb.
    unfold Py.range1 in Hb at 3. rewrite length_map, length_seq in Hb. lia.
  - intros Hin. apply Hkeys in Hin as [[]|(day & Hday & Hrep)].
    rewrite Hsum.
    pose proof (sum_list_map_pos (day_points data member_id)
                  (Py.range1 (last_day data)) day
                  (fun y _ => proj1 (Hrange y)) Hday) as Hle.
    destruct (day_points_in_range d data day member_id Hparse) as [Hpos _].
    specialize (Hpos Hrep). lia.
  - intros Hnot. unfold dict_get_default.
    destruct (dict_get member_id (total_points data)) eqn:E; [|reflexivity].
    exfalso. apply Hnot. apply dict_get_In. congruence.
Qed.

Lemma total_points_bounds_witness :
  parse_data sample = Ok sample_data /\
  let total := dict_get_default 0 "B" (total_points sample_data) in
  0 <= total <= len_members sample_data * last_day sample_data /\
  (In "B" (keys (total_points sample_data)) -> 1 <= total) /\
  (~ In "B" (keys (total_points sample_data)) -> total = 0).
Proof.
  split; [reflexivity|].
  apply (total_points_bounds sample sample_data "B"). reflexivity.
Defined.

(** ** The days the two views walk *)

Lemma int_keys_numbers ks :
  Forall (fun k => Py.int k <> None) ks ->
  forall acc,
    for_each (fun acc k => do n <- int_or_raise k; Ok (acc ++ [n])) ks acc
    = Ok (acc ++ key_numbers ks).
Proof.
  induction 1 as [|k r Hk _ IH]; intros acc.
  - cbn. now rewrite app_nil_r.
  - cbn [for_each]. unfold int_or_raise at 1. unfold key_numbers.
    cbn [flat_map]. fold (key_numbers r).
    destruct (Py.int k) as [n|]; [|contradiction]. cbn [bind].
    rewrite IH, <- app_assoc. reflexivity.
Qed.

Lemma key_numbers_In ks n :
  In n (key_numbers ks) <-> exists k, In k ks /\ Py.int k = Some n.
Proof.
  unfold key_numbers. rewrite in_flat_map. split.
  - intros (k & Hk & Hn). exists k. split; [exact Hk|].
    destruct (Py.int k) as [m|]; [|destruct Hn].
    destruct Hn as [->|[]]. reflexivity.
  - intros (k & Hk & Hn). exists k. split; [exact Hk|]. rewrite Hn. now left.
Qed.

Lemma day_numbers_In d n :
  In n (day_numbers d) <->
  exists item day,
    In item (Json.members d) /\
    In day (keys (Json.completion_day_level (snd item))) /\
    Py.int day = Some n.
Proof.
  unfold day_numbers, member_day_numbers. rewrite in_flat_map. split.
  - intros (item & Hitem & Hn). apply in_flat_map in Hn as ([day x] & Hd & Hn).
    cbn [fst] in Hn. exists item, day. split; [exact Hitem|].
    split; [apply (in_map fst) in Hd; exact Hd|].
    destruct (Py.int day) as [m|]; [|destruct Hn].
    destruct Hn as [->|[]]. reflexivity.
  - intros (item & day & Hitem & Hd & Hn). exists item. split; [exact Hitem|].
    apply in_map_iff in Hd as ([day' x] & E & Hd). cbn in E. subst day'.
    apply in_flat_map. exists (day, x). split; [exact Hd|].
    cbn [fst]. rewrite Hn. now left.
Qed.

Lemma days_dt_numbers d data n :
  parse_data d = Ok data ->
  (In n (key_numbers (keys (days_dt data))) <-> In n (day_numbers d)).
Proof.
  intros Hparse.
  apply parse_data_Ok in Hparse as (st & Hloop & _ & _ & -> & _).
  rewrite key_numbers_In, day_numbers_In. split.
  - intros (k & Hk & Hn).
    apply (member_loop_day_keys k _ _ _ Hloop) in Hk as [[]|(item & Hi & Hd)].
    now exists item, k.
  - intros (item & k & Hi & Hd & Hn). exists k. split; [|exact Hn].
    apply (member_loop_day_keys k _ _ _ Hloop). right. now exists item.
Qed.

(** X10.  For a parsed snapshot with a completed day, the last day
    [display_ranking] recomputes is the largest day number of the
    payload, and [last_day], which [display_total] uses, is the larger
    of 1 and that number: the two views walk the same days when some day
    number is at least 1, and the ranking shows no day at all
    otherwise. *)
Theorem ranking_last_day_vs_total_last_day (d : Json.Payload)
  (data : AOCData) :
  parse_data d = Ok data ->
  no_completions d = false ->
  exists n,
    max_day_key data = Ok n /\
    In n (day_numbers d) /\
    (forall k, In k (day_numbers d) -> k <= n) /\
    last_day data = Z.max 1 n /\
    (1 <= n -> Py.range1 n = Py.range1 (last_day data)) /\
    (n < 1 -> Py.range1 n = []).
Proof.
  intros Hparse Hbusy.
  destruct (parse_data_inv d data Hparse) as (_ & _ & Hkeys).
  pose proof Hparse as Hp.
  apply parse_data_Ok in Hp as (st & Hloop & _ & _ & Hddt & Hlast).
  assert (Hne : days_dt data <> []).
  { rewrite Hddt. apply (member_loop_not_empty _ _ _ Hloop). now right. }
  unfold max_day_key. rewrite (int_keys_numbers _ Hkeys []). cbn [app bind].
  destruct (key_numbers (keys (days_dt data))) as [|x r] eqn:E.
  { exfalso. destruct (days_dt data) as [|[k v] rest]; [now apply Hne|].
    inversion_clear Hkeys as [|? ? Hk _]. cbn in E, Hk.
    unfold key_numbers in E. cbn in E. destruct (Py.int k); [discriminate|].
    now apply Hk. }
  cbn [Py.max]. exists (fold_left Z.max r x).
  destruct (fold_max_bounds r x) as (Hx & Hr & Hin).
  assert (Hmem : In (fold_left Z.max r x) (day_numbers d)).
  { apply (days_dt_numbers d data _ Hparse). rewrite E.
    destruct Hin as [->|Hin]; [now left | now right]. }
  assert (Hub : forall k, In k (day_numbers d) -> k <= fold_left Z.max r x).
  { intros k Hk. apply (days_dt_numbers d data _ Hparse) in Hk.
    rewrite E in Hk. destruct Hk as [<-|Hk]; [exact Hx | now apply Hr]. }
  assert (Hmax : last_day data = Z.max 1 (fold_left Z.max r x)).
  { rewrite Hlast, (member_loop_last_day _ _ _ Hloop). cbn [ml_last_day].
    fold (day_numbers d).
    destruct (fold_max_bounds (day_numbers d) 1) as (H1 & H2 & H3).
    specialize (H2 _ Hmem).
    destruct H3 as [H3|H3]; [lia|]. specialize (Hub _ H3). lia. }
  split; [reflexivity|]. split; [exact Hmem|]. split; [exact Hub|].
  split; [exact Hmax|]. split.
  - intros Hpos. rewrite Hmax. f_equal. lia.
  - intros Hneg. unfold Py.range1.
    replace (Z.to_nat (fold_left Z.max r x)) with 0%nat by lia. reflexivity.
Qed.

Lemma ranking_last_day_vs_total_last_day_witness :
  parse_data sample = Ok sample_data /\
  no_completions sample = false /\
  exists n,
    max_day_key sample_data = Ok n /\
    In n (day_numbers sample) /\
    (forall k, In k (day_numbers sample) -> k <= n) /\
    last_day sample_data = Z.max 1 n /\
    (1 <= n -> Py.range1 n = Py.range1 (last_day sample_data)) /\
    (n < 1 -> Py.range1 n = []).
Proof.
  split; [reflexivity|]. split; [reflexivity|].
  apply (ranking_last_day_vs_total_last_day sample sample_data); reflexivity.
Defined.

(** ** What the views print *)

Lemma ranking_rows_of_width data l rows :
  ranking_rows_of data l = Ok rows ->
  Forall (fun row => List.length row = 3%nat) rows.
Proof.
  revert rows. induction l as [|[rank [member_id dt]] r IH]; intros rows.
  - intros [= <-]. constructor.
  - cbn [ranking_rows_of].
    destruct (len_members data - Z.of_nat rank >? 0); [|apply IH].
    destruct (dict_index member_id (members data)) as [m|e]; cbn;
      [|discriminate].
    destruct (ranking_rows_of data r) as [rows'|e]; cbn; [|discriminate].
    intros [= <-]. constructor; [reflexivity | now apply IH].
Qed.

Lemma total_rows_of_width data l rows :
  total_rows_of data l = Ok rows ->
  Forall (fun row => List.length row = 2%nat) rows.
Proof.
  revert rows. induction l as [|[member_id points] r IH]; intros rows.
  - intros [= <-]. constructor.
  - cbn [total_rows_of].
    destruct (dict_index member_id (members data)) as [m|e]; cbn;
      [|discriminate].
    destruct (total_rows_of data r) as [rows'|e]; cbn; [|discriminate].
    intros [= <-]. constructor; [reflexivity | now apply IH].
Qed.

Lemma ranking_days_appends data l :
  forall console,
    exists out,
      fst (ranking_days data l console) = console ++ out /\
      Forall rows_fit_header out.
Proof.
  induction l as [|day r IH]; intros console.
  - exists []. cbn. split; [now rewrite app_nil_r | constructor].
  - cbn [ranking_days].
    destruct (ranking_rows data day) as [rows|e] eqn:E.
    + destruct (IH ((console ++ [Text ("[bold] Day " ++ Py.str day)])
                      ++ [Table ranking_header rows [2%nat]]))
        as (out & Hout & Hfit).
      exists (Text ("[bold] Day " ++ Py.str day)
              :: Table ranking_header rows [2%nat] :: out).
      split.
      * rewrite Hout, <- !app_assoc. reflexivity.
      * constructor; [exact I|]. constructor; [|exact Hfit].
        cbn. apply (ranking_rows_of_width data _ rows E).
    + exists [Text ("[bold] Day " ++ Py.str day)]. cbn.
      split; [reflexivity | repeat constructor].
Qed.

Lemma display_ranking_appends data console :
  exists out,
    fst (display_ranking data console) = console ++ out /\
    Forall rows_fit_header out.
Proof.
  unfold display_ranking. destruct (max_day_key data) as [n|e].
  - apply ranking_days_appends.
  - exists []. cbn. split; [now rewrite app_nil_r | constructor].
Qed.

Lemma display_total_appends data console :
  exists out,
    fst (display_total data console) = console ++ out /\
    Forall rows_fit_header out.
Proof.
  unfold display_total.
  destruct (total_rows_of data (id_points_ordered data)) as [rows|e] eqn:E.
  - exists [Table total_header rows []]. cbn. split; [reflexivity|].
    constructor; [|constructor]. cbn.
    apply (total_rows_of_width data _ rows E).
  - exists []. cbn. split; [now rewrite app_nil_r | constructor].
Qed.

(** X11.  The two views only append to the console: what was printed
    before stays, whether or not the view raises, and every table they
    append has rows as wide as its header, three cells in the ranking
    and two in the standings. *)
Theorem views_append_fitting_tables (data : AOCData) (console : list Out) :
  (exists out,
     fst (display_ranking data console) = console ++ out /\
     Forall rows_fit_header out) /\
  (exists out,
     fst (display_total data console) = console ++ out /\
     Forall rows_fit_header out).
Proof.
  split; [apply display_ranking_appends | apply display_total_appends].
Qed.

(** ** The fetcher: writing the cache *)

Lemma update_reaches_fetch flags w :
  cache_fresh flags w = false -> update_if_possible flags w = fetch flags w.
Proof.
  intros Hfresh. unfold update_if_possible, cache_fresh in *.
  destruct (dict_get (json_path flags) (files w)) as [f|]; [|reflexivity].
  now rewrite Hfresh.
Qed.

(** X12.  When the fetch is reached, the endpoint answers with a
    success response whose body decodes and the cache file can be opened
    for writing, [update_if_possible] returns [True] after one request
    and one write: the cache file holds the body, stamped with the
    current time, and every other file is as it was; a run that asked
    for the update goes on to load that file. *)
Theorem update_writes_cache (flags : Flags) (w : World) (r : Response)
  (data : Json.Payload) :
  cache_fresh flags w = false ->
  remote w (leaderboard_url flags) (cookie flags) = Ok r ->
  ok r = true ->
  json r = Some data ->
  write_error w (json_path flags) = None ->
  let w' := fst (update_if_possible flags w) in
  snd (update_if_possible flags w) = Ok true /\
  dict_get (json_path flags) (files w')
  = Some {| mtime := now w; content := Some data |} /\
  (forall path, path <> json_path flags ->
                dict_get path (files w') = dict_get path (files w)) /\
  events w'
  = events w ++ [HttpGet (leaderboard_url flags) (cookie flags);
                 FileWrite (json_path flags)] /\
  (update flags = true -> run flags w = load_and_show flags w').
Proof.
  intros Hfresh Hanswer Hok Hjson Hopen. cbn zeta.
  unfold run. rewrite (update_reaches_fetch flags w Hfresh).
  unfold fetch. rewrite Hanswer, Hok, Hjson. cbn [negb log write_error].
  rewrite Hopen. cbn.
  split; [reflexivity|]. split; [apply dict_get_set_eq|].
  split; [intros path Hne; now apply dict_get_set_neq|].
  split; [now rewrite <- app_assoc|].
  intros ->. reflexivity.
Qed.

Lemma update_writes_cache_witness :
  let w' := fst (update_if_possible sample_flags sample_world_serving) in
  snd (update_if_possible sample_flags sample_world_serving) = Ok true /\
  dict_get (json_path sample_flags) (files w')
  = Some {| mtime := now sample_world_serving; content := Some sample |} /\
  (forall path, path <> json_path sample_flags ->
                dict_get path (files w')
                = dict_get path (files sample_world_serving)) /\
  events w'
  = events sample_world_serving
    ++ [HttpGet (leaderboard_url sample_flags) (cookie sample_flags);
        FileWrite (json_path sample_flags)] /\
  (update sample_flags = true ->
   run sample_flags sample_world_serving = load_and_show sample_flags w').
Proof.
  apply (update_writes_cache sample_flags sample_world_serving
           {| ok := true; json := Some sample; repr := "<Response [200]>" |}
           sample);
    reflexivity.
Defined.



Lemma fetch_frame flags w :
  let w' := fst (fetch flags w) in
  (forall path, path <> json_path flags ->
                dict_get path (files w') = dict_get path (files w)) /\
  (files w' = files w \/
   (events w'
    = events w ++ [HttpGet (leaderboard_url flags) (cookie flags);
                   FileWrite (json_path flags)] /\
    (snd (fetch flags w) = Ok true \/
     exists e, snd (fetch flags w) = Raise e /\
               write_spoils flags w = true))) /\
  (events w' = events w \/
   events w' = events w ++ [HttpGet (leaderboard_url flags) (cookie flags)] \/
   events w'
   = events w ++ [HttpGet (leaderboard_url flags) (cookie flags);
                  FileWrite (json_path flags)]) /\
  (exists out, console w' = console w ++ out).
Proof.
  cbn zeta. unfold fetch, write_spoils.
  destruct (remote w (leaderboard_url flags) (cookie flags)) as [r|e].
  2:{ cbn. repeat split; auto. exists []. now rewrite app_nil_r. }
  destruct (ok r); cbn [negb].
  2:{ cbn. repeat split; auto. eexists. reflexivity. }
  destruct (json r) as [data|].
  2:{ cbn. repeat split; auto. exists []. now rewrite app_nil_r. }
  cbn [log write_error].
  destruct (write_error w (json_path flags)) as [[e|e rest|e rest]|].
  - cbn. repeat split; auto. exists []. now rewrite app_nil_r.
  - cbn. split; [intros path Hne; now apply dict_get_set_neq|].
    split; [right; split; [now rewrite <- app_assoc | right; now exists e]|].
    split; [right; right; now rewrite <- app_assoc|].
    exists []. now rewrite app_nil_r.
  - cbn. split; [intros path Hne; now apply dict_get_set_neq|].
    split; [right; split; [now rewrite <- app_assoc | right; now exists e]|].
    split; [right; right; now rewrite <- app_assoc|].
    eexists. reflexivity.
  - cbn. split; [intros path Hne; now apply dict_get_set_neq|].
    split; [right; split; [now rewrite <- app_assoc | now left]|].
    split; [right; right; now rewrite <- app_assoc|].
    eexists. reflexivity.
Qed.

(** X14.  Whatever the cache, the endpoint and the file system,
    [update_if_possible] touches no file but the cache file; it changes
    that file only after the one request and by opening it for writing,
    and then it returns [True], or raises because the write failed once
    the file was open; it issues at most the one request to the
    leaderboard URL, and keeps what the console showed. *)
Theorem update_touches_only_cache (flags : Flags) (w : World) :
  let w' := fst (update_if_possible flags w) in
  (forall path, path <> json_path flags ->
                dict_get path (files w') = dict_get path (files w)) /\
  (files w' = files w \/
   (events w'
    = events w ++ [HttpGet (leaderboard_url flags) (cookie flags);
                   FileWrite (json_path flags)] /\
    (snd (update_if_possible flags w) = Ok true \/
     exists e, snd (update_if_possible flags w) = Raise e /\
               write_spoils flags w = true))) /\
  (events w' = events w \/
   events w' = events w ++ [HttpGet (leaderboard_url flags) (cookie flags)] \/
   events w'
   = events w ++ [HttpGet (leaderboard_url flags) (cookie flags);
                  FileWrite (json_path flags)]) /\
  (exists out, console w' = console w ++ out).
Proof.
  cbn zeta. unfold update_if_possible.
  destruct (dict_get (json_path flags) (files w)) as [f|];
    [|apply fetch_frame].
  destruct (too_recent (mtime f) (now w)); [|apply fetch_frame].
  cbn. repeat split; auto. eexists. reflexivity.
Qed.

(** X25.  When the fetch is reached and [update_if_possible] raises, a
    run that asked for the update stops with that exception before it
    reads the cache.  Unless the write failed once the cache file was
    open, that is when the request fails, the body does not decode or
    the file cannot be opened for writing, every file is as it was, the
    one request is the only event and nothing is printed. *)
Theorem update_failure_stops_run (flags : Flags) (w : World) (e : exn) :
  cache_fresh flags w = false ->
  snd (update_if_possible flags w) = Raise e ->
  let w' := fst (update_if_possible flags w) in
  (update flags = true -> run flags w = (w', Raise e)) /\
  ~ In (FileRead (json_path flags)) (skipn (List.length (events w)) (events w')) /\
  (write_spoils flags w = false ->
   files w' = files w /\
   events w' = events w ++ [HttpGet (leaderboard_url flags) (cookie flags)] /\
   console w' = console w).
Proof.
  intros Hfresh. cbn zeta. unfold run, write_spoils.
  rewrite (update_reaches_fetch flags w Hfresh). unfold fetch.
  destruct (remote w (leaderboard_url flags) (cookie flags)) as [r|e0].
  2:{ cbn. intros [= <-]. rewrite skipn_app, skipn_all, Nat.sub_diag. cbn.
      repeat split; [now intros -> | intros [H|[]]; discriminate]. }
  destruct (ok r); cbn [negb]; [|cbn; discriminate].
  destruct (json r) as [data|].
  2:{ cbn. intros [= <-]. rewrite skipn_app, skipn_all, Nat.sub_diag. cbn.
      repeat split; [now intros -> | intros [H|[]]; discriminate]. }
  cbn [log write_error].
  destruct (write_error w (json_path flags)) as [[e1|e1 rest|e1 rest]|];
    [| | |cbn; discriminate].
  - cbn. intros [= <-]. rewrite skipn_app, skipn_all, Nat.sub_diag. cbn.
    repeat split; [now intros -> | intros [H|[]]; discriminate].
  - cbn. intros [= <-]. rewrite <- app_assoc.
    rewrite skipn_app, skipn_all, Nat.sub_diag. cbn.
    split; [now intros ->|].
    split; [intros [H|[H|[]]]; discriminate | discriminate].
  - cbn. intros [= <-]. rewrite <- app_assoc.
    rewrite skipn_app, skipn_all, Nat.sub_diag. cbn.
    split; [now intros ->|].
    split; [intros [H|[H|[]]]; discriminate | discriminate].
Qed.

Lemma update_failure_stops_run_witness :
  let w' := fst (update_if_possible sample_flags sample_world_readonly) in
  snd (update_if_possible sample_flags sample_world_readonly)
  = Raise PermissionError /\
  (update sample_flags = true ->
   run sample_flags sample_world_readonly = (w', Raise PermissionError)) /\
  ~ In (FileRead (json_path sample_flags))
       (skipn (List.length (events sample_world_readonly)) (events w')) /\
  (write_spoils sample_flags sample_world_readonly = false ->
   files w' = files sample_world_readonly /\
   events w'
   = events sample_world_readonly
     ++ [HttpGet (leaderboard_url sample_flags) (cookie sample_flags)] /\
   console w' = console sample_world_readonly).
Proof.
  split; [reflexivity|].
  apply (update_failure_stops_run sample_flags sample_world_readonly
           PermissionError);
    reflexivity.
Defined.

(** ** The driver *)

Lemma load_and_show_frame flags w :
  let w' := fst (load_and_show flags w) in
  files w' = files w /\
  (events w' = events w \/ events w' = events w ++ [FileRead (json_path flags)]) /\
  exists out, console w' = console w ++ out.
Proof.
  cbn zeta. unfold load_and_show.
  destruct (dict_get (json_path flags) (files w)) as [f|].
  2:{ cbn. split; [reflexivity|]. split; [now left|].
      exists []. now rewrite app_nil_r. }
  destruct (content f) as [d|].
  2:{ cbn. split; [reflexivity|]. split; [now right|].
      exists []. now rewrite app_nil_r. }
  destruct (parse_data d) as [data|e].
  2:{ cbn. split; [reflexivity|]. split; [now right|].
      exists []. now rewrite app_nil_r. }
  cbn [log console].
  assert (Hr : exists out1,
             fst (if show_ranking flags
                  then display_ranking data (console w)
                  else (console w, Ok tt)) = console w ++ out1).
  { destruct (show_ranking flags).
    - destruct (display_ranking_appends data (console w)) as (out & H & _).
      now exists out.
    - exists []. cbn. now rewrite app_nil_r. }
  destruct (if show_ranking flags then _ else _) as [c r].
  destruct Hr as (out1 & Hc). cbn [fst] in Hc.
  destruct r as [u|e].
  2:{ cbn. split; [reflexivity|]. split; [now right|]. now exists out1. }
  assert (Ht : exists out2,
             fst (if show_total flags then display_total data c
                  else (c, Ok tt)) = c ++ out2).
  { destruct (show_total flags).
    - destruct (display_total_appends data c) as (out & H & _).
      now exists out.
    - exists []. cbn. now rewrite app_nil_r. }
  destruct (if show_total flags then _ else _) as [c2 r2].
  destruct Ht as (out2 & Hc2). cbn [fst] in Hc2.
  cbn. split; [reflexivity|]. split; [now right|].
  exists (out1 ++ out2). now rewrite Hc2, Hc, app_assoc.
Qed.

(** X15.  Without [--update], [run] issues no request and writes no
    file: every file is as it was, the only event it can add is the one
    read of the cache file, and what the console showed stays. *)
Theorem run_offline_reads_only (flags : Flags) (w : World) :
  update flags = false ->
  let w' := fst (run flags w) in
  files w' = files w /\
  (events w' = events w \/ events w' = events w ++ [FileRead (json_path flags)]) /\
  exists out, console w' = console w ++ out.
Proof.
  intros Hupd. cbn zeta. unfold run. rewrite Hupd.
  apply load_and_show_frame.
Qed.

Lemma run_offline_reads_only_witness :
  let w' := fst (run sample_flags_offline sample_world_fresh) in
  files w' = files sample_world_fresh /\
  (events w' = events sample_world_fresh \/
   events w'
   = events sample_world_fresh ++ [FileRead (json_path sample_flags_offline)]) /\
  exists out, console w' = console sample_world_fresh ++ out.
Proof.
  apply (run_offline_reads_only sample_flags_offline sample_world_fresh).
  reflexivity.
Defined.



Lemma parse_data_idle d data :
  parse_data d = Ok data ->
  no_completions d = true ->
  days_dt data = [] /\ last_day data = 1.
Proof.
  intros Hparse Hidle.
  destruct (member_loop_idle _ Hidle
              {| ml_last_day := 1; ml_members := []; ml_days_dt := [] |})
    as (st & Hrun & Hlast & Hddt).
  unfold parse_data in Hparse. rewrite Hrun in Hparse. cbn in Hparse.
  injection Hparse as <-. cbn. auto.
Qed.

Lemma total_points_idle data :
  days_dt data = [] -> total_points data = [].
Proof.
  intros Hnil. unfold total_points.
  generalize (Py.range1 (last_day data)).
  induction l as [|day r IH]; [reflexivity|].
  cbn [fold_left]. unfold add_day_points at 2. rewrite Hnil. exact IH.
Qed.

(** X17.  For a cached payload in which no member has a completed day
    and without [--update]: a run that asks for the ranking stops with
    [ValueError] before it prints anything, so the standings are not
    shown even when asked for; a run that asks for the standings alone
    prints one table without rows. *)
Theorem run_without_completions (flags : Flags) (w : World) (f : File)
  (d : Json.Payload) :
  update flags = false ->
  dict_get (json_path flags) (files w) = Some f ->
  content f = Some d ->
  no_completions d = true ->
  (show_ranking flags = true ->
   run flags w = (log (FileRead (json_path flags)) w, Raise ValueError)) /\
  (show_ranking flags = false ->
   show_total flags = true ->
   run flags w
   = (set_console (console w ++ [Table total_header [] []])
        (log (FileRead (json_path flags)) w),
      Ok tt)).
Proof.
  intros Hupd Hf Hc Hidle.
  assert (Hok : exists data, parse_data d = Ok data).
  { destruct (member_loop_idle _ Hidle
                {| ml_last_day := 1; ml_members := []; ml_days_dt := [] |})
      as (st & Hrun & _ & _).
    unfold parse_data. rewrite Hrun. cbn. eexists. reflexivity. }
  destruct Hok as (data & Hparse).
  destruct (parse_data_idle d data Hparse Hidle) as [Hddt Hlast].
  unfold run, load_and_show. rewrite Hupd, Hf, Hc, Hparse. split.
  - intros ->. unfold display_ranking, max_day_key. rewrite Hddt. reflexivity.
  - intros -> ->. unfold display_total, id_points_ordered.
    rewrite (total_points_idle data Hddt). reflexivity.
Qed.

Lemma run_without_completions_witness :
  (show_ranking sample_flags_offline = true ->
   run sample_flags_offline sample_world_idle
   = (log (FileRead (json_path sample_flags_offline)) sample_world_idle,
      Raise ValueError)) /\
  (show_ranking sample_flags_offline = false ->
   show_total sample_flags_offline = true ->
   run sample_flags_offline sample_world_idle
   = (set_console (console sample_world_idle ++ [Table total_header [] []])
        (log (FileRead (json_path sample_flags_offline)) sample_world_idle),
      Ok tt)).
Proof.
  apply (run_without_completions sample_flags_offline sample_world_idle
           {| mtime := 1000; content := Some sample_idle |} sample_idle);
    reflexivity.
Defined.

(** ** The formatter on every integer *)

Lemma format_dt_closed_form dt :
  dt <= 86400 ->
  let s := dt mod 60 in
  let m := (dt / 60) mod 60 in
  let h := (dt / 3600) mod 60 in
  let d := ((3600 * (dt / 3600) - 60 * h) mod 5184000) / 86400 in
  format_dt dt
  = (unit_str d "d" ++ unit_str h "h" ++ unit_str m "m" ++ unit_str s "s")%string
  /\ 0 <= d < 60 /\ 0 <= h < 60 /\ 0 <= m < 60 /\ 0 <= s < 60.
Proof.
  intros Hdt. cbn zeta. unfold format_dt.
  assert (Hgt : (dt >? 60 * 60 * 24) = false)
    by (rewrite Z.gtb_ltb; apply Z.ltb_ge; lia).
  rewrite Hgt.
  set (s := dt mod 60).
  assert (Hm : ((dt - s) mod (60 * 60)) / 60 = (dt / 60) mod 60).
  { subst s. Z.div_mod_to_equations. lia. }
  rewrite Hm. set (m := (dt / 60) mod 60).
  assert (Hh : ((dt - s - m * 60) mod (60 * 60 * 60)) / 3600
               = (dt / 3600) mod 60).
  { subst s m. Z.div_mod_to_equations. lia. }
  rewrite Hh. set (h := (dt / 3600) mod 60).
  assert (Hd : ((dt - s - m * 60 - h * 60) mod (60 * 60 * 60 * 24))
               / (3600 * 24)
               = ((3600 * (dt / 3600) - 60 * h) mod 5184000) / 86400).
  { change (60 * 60 * 60 * 24) with 5184000. change (3600 * 24) with 86400.
    f_equal. f_equal. subst s m h. Z.div_mod_to_equations. lia. }
  rewrite Hd. set (d := ((3600 * (dt / 3600) - 60 * h) mod 5184000) / 86400).
  split.
  - unfold unit_str.
    destruct (d >? 0), (h >? 0), (m >? 0), (s >? 0); cbn [String.append];
      rewrite ?append_assoc, ?append_empty_r; reflexivity.
  - subst d h m s. repeat split; Z.div_mod_to_equations; lia.
Qed.

(** X18.  On every integer, negative ones included, [format_dt]
    returns [">24h"] exactly above 86400; at or below 86400 it joins
    the non-zero ones of four values below 60: the seconds [dt mod 60],
    the minutes [(dt / 60) mod 60], the hours [(dt / 3600) mod 60] and a
    day count taken from [3600 * (dt / 3600) - 60 * hours]. *)
Theorem format_dt_on_every_integer (dt : Z) :
  (format_dt dt = ">24h" <-> 86400 < dt) /\
  (dt <= 86400 ->
   let s := dt mod 60 in
   let m := (dt / 60) mod 60 in
   let h := (dt / 3600) mod 60 in
   let d := ((3600 * (dt / 3600) - 60 * h) mod 5184000) / 86400 in
   format_dt dt
   = (unit_str d "d" ++ unit_str h "h" ++ unit_str m "m" ++ unit_str s "s")%string
   /\ 0 <= d < 60 /\ 0 <= h < 60 /\ 0 <= m < 60 /\ 0 <= s < 60).
Proof.
  split; [|apply format_dt_closed_form].
  split; [|apply format_dt_over_day].
  intros E. destruct (Z.lt_ge_cases 86400 dt) as [H|H]; [exact H|]. exfalso.
  destruct (format_dt_closed_form dt H) as (Hf & Hd & Hh & Hm & Hs).
  cbn zeta in *. rewrite Hf in E. revert E.
  destruct (unit_str_head _ "d" Hd) as [-> | (c & r & -> & Hc)];
    [ | cbn; intros E; injection E as E _; exact (Hc E) ].
  destruct (unit_str_head _ "h" Hh) as [-> | (c & r & -> & Hc)];
    [ | cbn; intros E; injection E as E _; exact (Hc E) ].
  destruct (unit_str_head _ "m" Hm) as [-> | (c & r & -> & Hc)];
    [ | cbn; intros E; injection E as E _; exact (Hc E) ].
  destruct (unit_str_head _ "s" Hs) as [-> | (c & r & -> & Hc)];
    [ discriminate | cbn; intros E; injection E as E _; exact (Hc E) ].
Qed.

Lemma unit_str_empty (v : Z) (c : ascii) (u : string) :
  unit_str v (String c u) = "" <-> v <= 0.
Proof.
  unfold unit_str. destruct (Z.gtb_spec v 0) as [Hpos|Hle].
  - split; [|lia]. destruct (Py.str v); discriminate.
  - split; [intros _; exact Hle | reflexivity].
Qed.

Lemma append_empty (a b : string) :
  (a ++ b)%string = "" <-> a = "" /\ b = "".
Proof.
  destruct a; cbn; split; try tauto; try discriminate.
  intros [H _]. discriminate.
Qed.

(** X19.  Among the durations from 0 to 86400 seconds, 0 is the only
    one [format_dt] renders as the empty string. *)
Theorem format_dt_empty_iff_zero (dt : Z) :
  0 <= dt <= 86400 ->
  (format_dt dt = "" <-> dt = 0).
Proof.
  intros Hdt. rewrite (format_dt_upto_day dt Hdt).
  rewrite !append_empty, !unit_str_empty.
  split.
  - intros (Hh & Hm & Hs). Z.div_mod_to_equations. lia.
  - intros ->. cbn. lia.
Qed.

Lemma format_dt_empty_iff_zero_witness :
  0 <= 0 <= 86400 /\ (format_dt 0 = "" <-> 0 = 0).
Proof. split; [lia | apply (format_dt_empty_iff_zero 0); lia]. Defined.

(** ** A run that shows both views *)

Lemma display_ranking_Ok d data console :
  parse_data d = Ok data ->
  no_completions d = false ->
  exists out, display_ranking data console = (console ++ out, Ok tt).
Proof.
  intros Hparse Hbusy.
  destruct (parse_data_inv d data Hparse) as (_ & _ & Hkeys).
  pose proof Hparse as Hp.
  apply parse_data_Ok in Hp as (st & Hloop & _ & _ & Hddt & _).
  assert (Hne : days_dt data <> []).
  { rewrite Hddt. apply (member_loop_not_empty _ _ _ Hloop). now right. }
  destruct (display_ranking_appends data console) as (out & Hout & _).
  exists out. rewrite <- Hout.
  unfold display_ranking, max_day_key in *.
  destruct (int_keys_Ok _ Hkeys []) as (ns & Hns & Hlen).
  rewrite Hns in *. cbn [app bind] in *.
  destruct ns as [|n ns].
  { exfalso. destruct (days_dt data); [now apply Hne | discriminate]. }
  cbn [Py.max] in *.
  destruct (ranking_days_Ok d data Hparse (Py.range1 (fold_left Z.max ns n))
              console) as (c' & Hc').
  rewrite Hc'. reflexivity.
Qed.

Lemma display_total_Ok d data console :
  parse_data d = Ok data ->
  exists rows,
    display_total data console
    = (console ++ [Table total_header rows []], Ok tt) /\
    List.length rows = List.length (total_points data).
Proof.
  intros Hparse.
  assert (Hranked : forall day, NoDup (keys (ranked_days_dt data (Py.str day)))).
  { intros day. now destruct (ranked_within d data (Py.str day) Hparse). }
  assert (Hnil : NoDup (keys (@nil (string * Z)))) by constructor.
  destruct (total_rows_of_known data (id_points_ordered data))
    as (rows & Hrows & Hrel).
  { intros [k points] Hin. cbn [fst].
    apply (Permutation_in _ (Permutation_sym
                               (sorted_perm (fun x => - snd x)
                                  (total_points data)))) in Hin.
    apply (in_map fst) in Hin. cbn [fst] in Hin.
    destruct (add_days_points data k (Py.range1 (last_day data))
                Hranked [] Hnil) as (_ & _ & Hk).
    apply Hk in Hin as [[]|(day & _ & Hday)].
    destruct (reporting_within d data (Py.str day) Hparse) as [_ Hincl].
    now apply Hincl. }
  exists rows. unfold display_total. rewrite Hrows. split; [reflexivity|].
  apply Forall2_length in Hrel. rewrite <- Hrel.
  apply sorted_length.
Qed.

(** X20.  Without [--update], for a cached payload that parses and has
    a completed day, a run that asks for both views succeeds: it reads
    the cache once, prints the ranking first and the standings table
    last, with one standings row per member that has points. *)
Theorem run_shows_ranking_then_total (flags : Flags) (w : World) (f : File)
  (d : Json.Payload) (data : AOCData) :
  update flags = false ->
  show_ranking flags = true ->
  show_total flags = true ->
  dict_get (json_path flags) (files w) = Some f ->
  content f = Some d ->
  parse_data d = Ok data ->
  no_completions d = false ->
  exists out rows,
    display_ranking data (console w) = (console w ++ out, Ok tt) /\
    List.length rows = List.length (total_points data) /\
    run flags w
    = (set_console (console w ++ out ++ [Table total_header rows []])
         (log (FileRead (json_path flags)) w),
       Ok tt).
Proof.
  intros Hupd Hr Ht Hf Hc Hparse Hbusy.
  destruct (display_ranking_Ok d data (console w) Hparse Hbusy) as (out & Hout).
  destruct (display_total_Ok d data (console w ++ out) Hparse)
    as (rows & Hrows & Hlen).
  exists out, rows. split; [exact Hout|]. split; [exact Hlen|].
  unfold run, load_and_show. rewrite Hupd, Hf, Hc, Hparse, Hr, Ht.
  cbn [log console]. rewrite Hout, Hrows, <- app_assoc. reflexivity.
Qed.

Lemma run_shows_ranking_then_total_witness :
  exists out rows,
    display_ranking sample_data (console sample_world_fresh)
    = (console sample_world_fresh ++ out, Ok tt) /\
    List.length rows = List.length (total_points sample_data) /\
    run sample_flags_offline sample_world_fresh
    = (set_console
         (console sample_world_fresh ++ out ++ [Table total_header rows []])
         (log (FileRead (json_path sample_flags_offline)) sample_world_fresh),
       Ok tt).
Proof.
  apply (run_shows_ranking_then_total sample_flags_offline sample_world_fresh
           {| mtime := 1000; content := Some sample |} sample sample_data);
    reflexivity.
Defined.

(** ** Ties in the standings *)

Lemma keys_set_add_key {V : Type} (k : string) (v : V) (d : dict V) :
  keys (dict_set k v d) = add_key (keys d) k.
Proof.
  unfold add_key, keys. induction d as [|[k' v'] r IH]; [reflexivity|].
  cbn [dict_set map fst existsb].
  destruct (String.eqb_spec k k') as [->|Hne]; cbn [map fst orb];
    [reflexivity|].
  rewrite IH. now destruct (existsb (String.eqb k) (map fst r)).
Qed.

Lemma enumerate_snd_from {A : Type} (l : list A) (start : nat) :
  map snd (combine (seq start (List.length l)) l) = l.
Proof.
  revert start. induction l as [|x r IH]; intros start; cbn;
    [reflexivity | now rewrite IH].
Qed.

Lemma add_points_keys data items :
  forall tp,
    keys (fold_left (add_points data) items tp)
    = fold_left add_key (map (fun item => fst (snd item)) items) (keys tp).
Proof.
  induction items as [|[rank [k dt]] r IH]; intros tp; [reflexivity|].
  cbn [fold_left map fst snd]. rewrite IH. f_equal.
  cbn [add_points]. apply keys_set_add_key.
Qed.

Lemma add_day_points_key_order data tp day :
  keys (add_day_points data tp day)
  = fold_left add_key (keys (ranked_days_dt data (Py.str day))) (keys tp).
Proof.
  unfold add_day_points. fold (ranked_days_dt data (Py.str day)).
  rewrite add_points_keys. f_equal.
  unfold Py.enumerate, keys. rewrite <- map_map.
  now rewrite enumerate_snd_from.
Qed.

Lemma add_days_points_key_order data l :
  forall tp,
    keys (fold_left (add_day_points data) l tp)
    = fold_left add_key
        (flat_map (fun day => keys (ranked_days_dt data (Py.str day))) l)
        (keys tp).
Proof.
  induction l as [|day r IH]; intros tp; [reflexivity|].
  cbn [fold_left flat_map].
  now rewrite IH, add_day_points_key_order, fold_left_app.
Qed.

(** X21.  The standings keep ties in scoring order: [total_points]
    holds the members in the order in which they first occur when the
    days 1..last_day are walked in ranking order, and members with the
    same total stand in that order in the table. *)
Theorem total_ties_in_scoring_order (data : AOCData) :
  keys (total_points data) = first_seen (scoring_order data) /\
  forall points : Z,
    filter (fun x => snd x =? points) (id_points_ordered data)
    = filter (fun x => snd x =? points) (total_points data).
Proof.
  split.
  - unfold total_points, first_seen, scoring_order.
    apply add_days_points_key_order.
  - intros points. unfold id_points_ordered.
    rewrite (filter_ext (fun x => snd x =? points)
               (fun x => - snd x =? - points)).
    + rewrite (filter_ext (fun x : string * Z => snd x =? points)
                 (fun x => - snd x =? - points)).
      * apply (sorted_stable (fun x : string * Z => - snd x)).
      * intros x. destruct (Z.eqb_spec (snd x) points),
                    (Z.eqb_spec (- snd x) (- points)); try reflexivity; lia.
    + intros x. destruct (Z.eqb_spec (snd x) points),
                  (Z.eqb_spec (- snd x) (- points)); try reflexivity; lia.
Qed.

(** ** The command line *)

Lemma or_else_truthy (a b : option string) :
  truthy (or_else a b) = truthy a || truthy b.
Proof. unfold or_else. destruct (truthy a) eqn:E; [now rewrite E | reflexivity]. Qed.

(** X22.  [main] builds its flags exactly when a non-empty leaderboard
    id and a non-empty cookie each come from the option or, failing
    that, from the environment; otherwise it stops with a failed
    assertion.  An option that is given and non-empty wins over the
    environment, and without a non-empty [--file] the cache path is
    [{year}_{leaderboard_id}.json]. *)
Theorem main_flags_resolution (args : Args) (env : Environ) :
  ((exists mf, main_flags args env = Ok mf) <->
   (truthy (opt_leaderboard args) || truthy (AOC_LEADERBOARD_ID env))
   && (truthy (opt_cookie args) || truthy (AOC_COOKIE env)) = true) /\
  (forall e, main_flags args env = Raise e -> e = AssertionError) /\
  forall mf,
    main_flags args env = Ok mf ->
    Some (mf_leaderboard_id mf)
    = or_else (opt_leaderboard args) (AOC_LEADERBOARD_ID env) /\
    mf_leaderboard_id mf <> "" /\
    Some (mf_cookie mf) = or_else (opt_cookie args) (AOC_COOKIE env) /\
    mf_cookie mf <> "" /\
    (truthy (opt_year args) = true -> Some (year_text (mf_year mf)) = opt_year args) /\
    (truthy (opt_year args) = false -> mf_year mf = YearNumber (this_year env)) /\
    (truthy (opt_file args) = true -> Some (mf_json_path mf) = opt_file args) /\
    (truthy (opt_file args) = false ->
     mf_json_path mf
     = (year_text (mf_year mf) ++ "_" ++ mf_leaderboard_id mf ++ ".json")%string) /\
    mf_update mf = opt_update args /\
    mf_show_ranking mf = opt_ranking args /\
    mf_show_total mf = opt_total args.
Proof.
  rewrite <- !or_else_truthy. unfold main_flags.
  destruct (or_else (opt_leaderboard args) (AOC_LEADERBOARD_ID env))
    as [leaderboard_id|]; cbn [truthy andb].
  2:{ split; [split; [intros (mf & H); discriminate | discriminate]|].
      split; [now intros e [= <-] | discriminate]. }
  destruct (String.eqb_spec leaderboard_id "") as [->|Hid]; cbn [negb andb].
  { split; [split; [intros (mf & H); discriminate | discriminate]|].
    split; [now intros e [= <-] | discriminate]. }
  destruct (or_else (opt_cookie args) (AOC_COOKIE env)) as [cookie|];
    cbn [truthy].
  2:{ split; [split; [intros (mf & H); discriminate | discriminate]|].
      split; [now intros e [= <-] | discriminate]. }
  destruct (String.eqb_spec cookie "") as [->|Hck]; cbn [negb].
  { split; [split; [intros (mf & H); discriminate | discriminate]|].
    split; [now intros e [= <-] | discriminate]. }
  split; [split; [reflexivity | intros _; eexists; reflexivity]|].
  split; [discriminate|].
  intros mf [= <-]. cbn.
  repeat split; try assumption.
  - destruct (opt_year args) as [s|]; cbn; [|discriminate].
    destruct (String.eqb s ""); cbn; [discriminate | reflexivity].
  - destruct (opt_year args) as [s|]; cbn; [|reflexivity].
    destruct (String.eqb s ""); cbn; [reflexivity | discriminate].
  - destruct (opt_file args) as [s|]; cbn; [|discriminate].
    destruct (String.eqb s ""); cbn; [discriminate | reflexivity].
  - destruct (opt_file args) as [s|]; cbn; [|reflexivity].
    destruct (String.eqb s ""); cbn; [reflexivity | discriminate].
Qed.

(** ** Looking a delta time up *)

Lemma members_on_day_keys day ms k :
  In k (keys (members_on_day day ms)) -> In k (keys ms).
Proof.
  induction ms as [|[k' md] r IH]; [intros []|].
  unfold members_on_day. cbn [flat_map fst snd]. fold (members_on_day day r).
  rewrite keys_app. intros Hin. apply in_app_or in Hin as [Hin|Hin].
  - destruct (dict_get day (Json.completion_day_level md)); [|destruct Hin].
    destruct Hin as [<-|[]]. now left.
  - right. now apply IH.
Qed.

Lemma members_on_day_get day ms member_id :
  NoDup (keys ms) ->
  dict_get member_id (members_on_day day ms)
  = match dict_get member_id ms with
    | Some member_data =>
        option_map delta_of
          (dict_get day (Json.completion_day_level member_data))
    | None => None
    end.
Proof.
  induction ms as [|[k md] r IH]; intros Hnd; [reflexivity|].
  cbn in Hnd. inversion_clear Hnd as [|? ? Hnot Hr].
  unfold members_on_day. cbn [flat_map fst snd]. fold (members_on_day day r).
  cbn [dict_get].
  destruct (String.eqb_spec member_id k) as [->|Hne].
  - destruct (dict_get day (Json.completion_day_level md)) as [dd|]; cbn.
    + now rewrite String.eqb_refl.
    + destruct (dict_get k (members_on_day day r)) eqn:E; [|reflexivity].
      exfalso. apply Hnot. apply (members_on_day_keys day).
      apply dict_get_In. congruence.
  - destruct (dict_get day (Json.completion_day_level md)) as [dd|]; cbn.
    + destruct (String.eqb_spec member_id k); [contradiction | now apply IH].
    + now apply IH.
Qed.

Lemma dict_get_map_values {V W : Type} (f : V -> W) (k : string) (d : dict V) :
  dict_get k (map (fun item => (fst item, f (snd item))) d)
  = option_map f (dict_get k d).
Proof.
  induction d as [|[k' v] r IH]; [reflexivity|].
  cbn. destruct (String.eqb k k'); [reflexivity | exact IH].
Qed.

(** X23.  With distinct keys in the payload, the delta time the
    snapshot holds for a member on a day is the one of the payload:
    [days_dt[day][member_id]] is the second timestamp (0 when the
    second star is missing) minus the first, and there is no entry when
    the member or the member's day is not in the payload. *)
Theorem days_dt_lookup (d : Json.Payload) (data : AOCData)
  (day member_id : string) :
  parse_data d = Ok data ->
  payload_keys_unique d = true ->
  dict_get member_id (day_items day (days_dt data))
  = match dict_get member_id (Json.members d) with
    | Some member_data =>
        option_map delta_of
          (dict_get day (Json.completion_day_level member_data))
    | None => None
    end.
Proof.
  intros Hparse Huniq.
  destruct (payload_keys_unique_NoDup d Huniq) as [Hnd Hdays].
  apply parse_data_Ok in Hparse as (st & Hloop & _ & _ & -> & _).
  rewrite (member_loop_items day _ _ _ Hloop Hnd Hdays).
  - cbn. now apply members_on_day_get.
  - intros k _ [].
Qed.

Lemma days_dt_lookup_witness :
  parse_data sample = Ok sample_data /\
  payload_keys_unique sample = true /\
  dict_get "A" (day_items "3" (days_dt sample_data))
  = match dict_get "A" (Json.members sample) with
    | Some member_data =>
        option_map delta_of
          (dict_get "3" (Json.completion_day_level member_data))
    | None => None
    end.
Proof.
  split; [reflexivity|]. split; [reflexivity|].
  apply (days_dt_lookup sample sample_data "3" "A"); reflexivity.
Defined.

(** X24.  With distinct keys in the payload, the two places that hold
    a delta time agree: for every member of the snapshot and every day,
    [member.days[day]["delta_time"]] and [days_dt[day][member_id]] are
    both missing or both present and equal. *)
Theorem member_days_agree_with_days_dt (d : Json.Payload) (data : AOCData)
  (member_id day : string) (m : Member) :
  parse_data d = Ok data ->
  payload_keys_unique d = true ->
  dict_get member_id (members data) = Some m ->
  option_map delta_time (dict_get day (days m))
  = dict_get member_id (day_items day (days_dt data)).
Proof.
  intros Hparse Huniq Hm.
  destruct (payload_keys_unique_NoDup d Huniq) as [Hnd Hdays].
  assert (Hin : In member_id (keys (Json.members d))).
  { pose proof Hparse as Hp.
    apply parse_data_Ok in Hp as (st & Hloop & _ & Hmem & _).
    rewrite <- (app_nil_l (keys (Json.members d))).
    change (@nil string)
      with (keys (ml_members
                    {| ml_last_day := 1; ml_members := []; ml_days_dt := [] |})).
    rewrite <- (member_loop_keys _ _ _ Hloop Hnd); [|intros k _ []].
    rewrite <- Hmem. apply dict_get_In. congruence. }
  apply in_map_iff in Hin as ([k member_data] & E & Hin). cbn in E. subst k.
  pose proof (dict_get_NoDup_In _ _ _ Hnd Hin) as Hget.
  rewrite Forall_forall in Hdays. pose proof (Hdays _ Hin) as Hd. cbn in Hd.
  destruct (parse_data_member d data _ _ Hparse Hnd Hin)
    as (st0 & dl & _ & _ & Hnil & Hloop & Hget_m & _).
  rewrite Hget_m in Hm. injection Hm as <-. cbn [days].
  rewrite (day_loop_days _ _ _ _ Hloop Hd); [|rewrite Hnil; intros k _ []].
  rewrite Hnil. cbn [app].
  rewrite dict_get_map_values.
  pose proof Hparse as Hp.
  apply parse_data_Ok in Hp as (st & Hloop' & _ & _ & -> & _).
  rewrite (member_loop_items day _ _ _ Hloop' Hnd);
    [|apply Forall_forall; exact Hdays | intros k _ []].
  cbn [ml_days_dt app]. change (day_items day []) with (@nil (string * Z)).
  cbn [app]. rewrite (members_on_day_get day _ member_id Hnd), Hget.
  now destruct (dict_get day (Json.completion_day_level member_data)).
Qed.

Lemma member_days_agree_with_days_dt_witness :
  parse_data sample = Ok sample_data /\
  payload_keys_unique sample = true /\
  exists m,
    dict_get "A" (members sample_data) = Some m /\
    option_map delta_time (dict_get "3" (days m))
    = dict_get "A" (day_items "3" (days_dt sample_data)).
Proof.
  split; [reflexivity|]. split; [reflexivity|].
  eexists. split; [reflexivity|].
  apply (member_days_agree_with_days_dt sample sample_data "A" "3");
    reflexivity.
Defined.

